(** * agentcall: the call manager (package callmanager)

    A shallow embedding of the call orchestration engine: the session
    record with its turn log, the registry of active calls, the answer
    wait, the speech-out and speech-in pipelines and the four conversation
    operations, followed by the properties of the engine.

    Conventions.
    - A Go [error] is its message; [None] is the nil error.  [fmt.Errorf]
      with [%w] or [%s] is concatenation, [%d] is decimal printing.
    - A [*CallState] is a location of a heap of session records; the
      registry maps a call id to a location, so that a session reached
      through the registry and one reached through a pointer held by the
      running operation are the same object.
    - The external collaborators (signaling, synthesis, recognition) are
      values of record types holding their answers; every interaction with
      them is also written to a trace, in program order.
    - A nil interface or pointer dereference is the outcome [Panicked].
    - The clock moves while the program sleeps, by the duration asked for
      or more; the time the collaborators take to answer is not counted.
    - The operations run one at a time: the locks of the manager and of
      the sessions are not modelled. *)

From Stdlib Require Import ZArith String Ascii List Lia.
From stdpp Require Import base tactics option list gmap strings pretty.

Local Open Scope Z_scope.

(** ** Go primitives *)

Abbreviation error := string (only parsing).
Abbreviation Time := Z (only parsing).
Abbreviation Duration := Z (only parsing).
Abbreviation loc := positive (only parsing).

(** [time.Duration] counts nanoseconds. *)
Definition Millisecond : Duration := 1000000.
Definition Second : Duration := 1000000000.

(** Go's [int] and [int64]: two's complement on 64 bits. *)
Definition wrap64 (z : Z) : Z := (z + 2 ^ 63) `mod` 2 ^ 64 - 2 ^ 63.

Definition minDuration : Duration := - 2 ^ 63.
Definition maxDuration : Duration := 2 ^ 63 - 1.

(** [Time.Sub] saturates at the ends of the [Duration] range. *)
Definition Sub (t u : Time) : Duration :=
  Z.max minDuration (Z.min maxDuration (t - u)).

(** [Time.Unix]: whole seconds since the epoch. *)
Definition Unix (t : Time) : Z := t `div` Second.

(** [s != ""] *)
Definition nonempty (s : string) : bool :=
  match s with EmptyString => false | String _ _ => true end.

(** ** The external packages, as far as the manager uses them *)

Module config.

(** The fields of [config.Config] that the manager reads. *)
Record Config := {
  UserPhoneNumber : string;
  TTSVoice : string;
  TTSModel : string;
  STTModel : string;
  STTLanguage : string;
  TranscriptTimeoutMS : Z
}.

End config.

Module tts.

Record SynthesisConfig := {
  VoiceID : string;
  Model : string;
  OutputFormat : string;
  SampleRate : Z
}.

Record StreamChunk := {
  Audio : list Byte.byte;
  IsFinal : bool;
  Error : option error
}.

(** [SynthesizeStream] answers with an error or with the chunks its
    channel delivers before it is closed. *)
Record StreamingProvider := {
  SynthesizeStream : Time -> string -> SynthesisConfig -> error + list StreamChunk
}.

End tts.

Module stt.

Record TranscriptionConfig := {
  Language : string;
  Model : string;
  Encoding : string;
  SampleRate : Z;
  Channels : Z;
  EnablePunctuation : bool
}.

Record StreamEvent := {
  Transcript : string;
  IsFinal : bool;
  Error : option error
}.

(** What the [select] of the listen loop yields once the events received
    so far did not end the loop: the events channel is closed, the timer
    has fired, or the context is done.  The timer always fires in the
    end, so every run has such an ending. *)
Inductive Ending := Closed | TimerFired | ContextDone.

(** One run of the events channel as the listen loop observes it. *)
Record Run := {
  received : list StreamEvent;
  ending : Ending
}.

Record StreamingProvider := {
  TranscribeStream : Time -> TranscriptionConfig -> error + Run
}.

End stt.

Module callsystem.

(** Modelled from the spec: the declaration of [callsystem.CallStatus] is
    not part of the sources.  The manager names five of its values; every
    other value (dialing, ringing, in progress) is [StatusPending]. *)
Inductive CallStatus :=
| StatusAnswered
| StatusEnded
| StatusFailed
| StatusBusy
| StatusNoAnswer
| StatusPending (name : string).

(** The duplex audio socket; [AudioIn] is the result of a [Write] on the
    sink [AudioIn()]. *)
Record TransportConnection := {
  AudioIn : list Byte.byte -> option error
}.

(** A call leg of the signaling backend. *)
Record Call := {
  ID : string;
  Hangup : Time -> option error;
  Status : Time -> CallStatus;
  Transport : Time -> option TransportConnection
}.

Record CallSystem := {
  MakeCall : Time -> string -> error + Call
}.

End callsystem.

(** [context.Context]: whether it is done at a given time, and its
    [Err()] once it is. *)
Record Context := {
  Done : Time -> bool;
  Err : error
}.

(** ** Call state *)

Record ConversationTurn := {
  Role : string;
  Content : string;
  Timestamp : Time
}.

Record CallState := {
  ID : string;
  Call : callsystem.Call;
  StartTime : Time;
  Conversation : list ConversationTurn;
  LastUserMessage : string
}.

Module CallState.

(** The body of [CallState.AddTurn], on the record the receiver points
    to; [now] is the reading of [time.Now()]. *)
Definition AddTurn (now : Time) (role content : string) (cs : CallState) : CallState :=
  {| ID := ID cs;
     Call := Call cs;
     StartTime := StartTime cs;
     Conversation :=
       Conversation cs ++ [ {| Role := role; Content := content; Timestamp := now |} ];
     LastUserMessage :=
       if decide (role = "user") then content else LastUserMessage cs |}.

(** [CallState.Duration] *)
Definition Duration (now : Time) (cs : CallState) : Duration := Sub now (StartTime cs).

End CallState.

(** ** The manager and the world it runs in *)

Record Manager := {
  config : config.Config;
  callSystem : option callsystem.CallSystem;
  ttsProvider : option tts.StreamingProvider;
  sttProvider : option stt.StreamingProvider;
  calls : gmap string loc;
  callCounter : Z;
  publicURL : string
}.

(** [New] *)
Definition New (cfg : config.Config) : Manager :=
  {| config := cfg; callSystem := None; ttsProvider := None; sttProvider := None;
     calls := ∅; callCounter := 0; publicURL := "" |}.

(** Interactions with the collaborators and appends to a turn log, in the
    order in which the program performs them. *)
Inductive Effect :=
| EvMakeCall (number : string)
| EvStatus (call : string)
| EvHangup (call : string)
| EvTransport (call : string)
| EvSynthesize (text : string) (cfg : tts.SynthesisConfig)
| EvAudioWrite (frame : list Byte.byte)
| EvTranscribe (cfg : stt.TranscriptionConfig)
| EvWriterClose
| EvSleep (d : Duration)
| EvTurn (session : loc) (role content : string).

(** An effect is a backend interaction when it is not a turn-log append. *)
Definition is_backend (e : Effect) : bool :=
  match e with EvTurn _ _ _ => false | _ => true end.

(** The manager, the sessions its pointers refer to, the clock, by how
    much a sleep that starts at a given time overruns, and the trace. *)
Record World := {
  mgr : Manager;
  heap : gmap loc CallState;
  clock : Time;
  lag : Time -> N;
  trace : list Effect
}.

Definition set_mgr (m : Manager) (w : World) : World :=
  {| mgr := m; heap := heap w; clock := clock w; lag := lag w; trace := trace w |}.
Definition set_heap (h : gmap loc CallState) (w : World) : World :=
  {| mgr := mgr w; heap := h; clock := clock w; lag := lag w; trace := trace w |}.
Definition set_clock (t : Time) (w : World) : World :=
  {| mgr := mgr w; heap := heap w; clock := t; lag := lag w; trace := trace w |}.
Definition emit (e : Effect) (w : World) : World :=
  {| mgr := mgr w; heap := heap w; clock := clock w; lag := lag w;
     trace := trace w ++ [e] |}.

Definition set_calls (c : gmap string loc) (m : Manager) : Manager :=
  {| config := config m; callSystem := callSystem m; ttsProvider := ttsProvider m;
     sttProvider := sttProvider m; calls := c; callCounter := callCounter m;
     publicURL := publicURL m |}.
Definition set_callCounter (n : Z) (m : Manager) : Manager :=
  {| config := config m; callSystem := callSystem m; ttsProvider := ttsProvider m;
     sttProvider := sttProvider m; calls := calls m; callCounter := n;
     publicURL := publicURL m |}.

(** ** A state monad with panics *)

Inductive outcome (A : Type) :=
| Returned (a : A)
| Panicked (why : string).
Arguments Returned {A} a.
Arguments Panicked {A} why.

Definition M (A : Type) : Type := World -> outcome A * World.

Definition ret {A} (a : A) : M A := fun w => (Returned a, w).
Definition panic {A} (why : string) : M A := fun w => (Panicked why, w).
Definition bind {A B} (c : M A) (k : A -> M B) : M B :=
  fun w => match c w with
           | (Returned a, w') => k a w'
           | (Panicked why, w') => (Panicked why, w')
           end.

Declare Scope go_scope.
Delimit Scope go_scope with go.
Notation "x <- c ;; k" := (bind c (fun x => k))
  (at level 100, c at next level, right associativity) : go_scope.
Notation "c ;; k" := (bind c (fun _ => k))
  (at level 100, right associativity) : go_scope.
Local Open Scope go_scope.

Definition gets {A} (f : World -> A) : M A := fun w => (Returned (f w), w).
Definition modify (f : World -> World) : M unit := fun w => (Returned tt, f w).

(** Dereference of a possibly nil interface or pointer. *)
Definition deref {A} (what : string) (o : option A) : M A :=
  match o with
  | Some a => ret a
  | None => panic ("nil dereference: " +:+ what)
  end.

(** [time.Now()] and [time.Sleep].  The clock advances while the program
    sleeps, by at least the duration asked for. *)
Definition timeNow : M Time := gets clock.
Definition timeSleep (d : Duration) : M unit :=
  modify (fun w => emit (EvSleep d) (set_clock (clock w + d + Z.of_N (lag w (clock w))) w)).

(** Reading and writing the session a pointer refers to. *)
Definition load (l : loc) : M CallState :=
  h <- gets heap ;; deref "CallState" (h !! l).
Definition store (l : loc) (cs : CallState) : M unit :=
  modify (fun w => set_heap (<[l := cs]> (heap w)) w).
Definition alloc (cs : CallState) : M loc :=
  h <- gets heap ;;
  let l := fresh (dom h) in
  store l cs ;; ret l.

(** [state.AddTurn(role, content)] through the pointer [l]. *)
Definition AddTurn (l : loc) (role content : string) : M unit :=
  cs <- load l ;;
  now <- timeNow ;;
  store l (CallState.AddTurn now role content cs) ;;
  modify (emit (EvTurn l role content)).

(** ** The collaborators' methods, each leaving its mark on the trace *)

Definition callHangup (call : callsystem.Call) : M (option error) :=
  now <- timeNow ;;
  modify (emit (EvHangup (callsystem.ID call))) ;;
  ret (callsystem.Hangup call now).

Definition callStatus (call : callsystem.Call) : M callsystem.CallStatus :=
  now <- timeNow ;;
  modify (emit (EvStatus (callsystem.ID call))) ;;
  ret (callsystem.Status call now).

Definition callTransport (call : callsystem.Call) : M (option callsystem.TransportConnection) :=
  now <- timeNow ;;
  modify (emit (EvTransport (callsystem.ID call))) ;;
  ret (callsystem.Transport call now).

Definition makeCall (cs : callsystem.CallSystem) (number : string) : M (error + callsystem.Call) :=
  now <- timeNow ;;
  modify (emit (EvMakeCall number)) ;;
  ret (callsystem.MakeCall cs now number).

Definition synthesizeStream (p : tts.StreamingProvider) (text : string)
    (cfg : tts.SynthesisConfig) : M (error + list tts.StreamChunk) :=
  now <- timeNow ;;
  modify (emit (EvSynthesize text cfg)) ;;
  ret (tts.SynthesizeStream p now text cfg).

Definition transcribeStream (p : stt.StreamingProvider)
    (cfg : stt.TranscriptionConfig) : M (error + stt.Run) :=
  now <- timeNow ;;
  modify (emit (EvTranscribe cfg)) ;;
  ret (stt.TranscribeStream p now cfg).

Definition audioWrite (tr : callsystem.TransportConnection) (frame : list Byte.byte) : M (option error) :=
  modify (emit (EvAudioWrite frame)) ;;
  ret (callsystem.AudioIn tr frame).

(** ** The manager's methods *)

(** [generateCallID] at a given counter and clock reading: the new
    counter and the id. *)
Definition nextCallID (counter : Z) (now : Time) : Z * string :=
  let c := wrap64 (counter + 1) in
  (c, "call-" +:+ pretty c +:+ "-" +:+ pretty (Unix now)).

Definition generateCallID : M string :=
  m <- gets mgr ;;
  now <- timeNow ;;
  let (c, id) := nextCallID (callCounter m) now in
  modify (fun w => set_mgr (set_callCounter c (mgr w)) w) ;;
  ret id.

Definition getCall (callID : string) : M (option loc) :=
  m <- gets mgr ;; ret (calls m !! callID).

Definition removeCall (callID : string) : M unit :=
  modify (fun w => set_mgr (set_calls (delete callID (calls (mgr w))) (mgr w)) w).

(** [m.calls[callID] = state] *)
Definition registerCall (callID : string) (l : loc) : M unit :=
  modify (fun w => set_mgr (set_calls (<[callID := l]> (calls (mgr w))) (mgr w)) w).

(** The body of the loop of [waitForAnswer]; [fuel] bounds the number of
    polls, see [waitForAnswer]. *)
Fixpoint waitLoop (fuel : nat) (ctx : Context) (call : callsystem.Call) (deadline : Time) : M bool :=
  match fuel with
  | O => ret false
  | S fuel' =>
      now <- timeNow ;;
      if now <? deadline then
        if Done ctx now then ret false
        else
          status <- callStatus call ;;
          match status with
          | callsystem.StatusAnswered => ret true
          | callsystem.StatusEnded | callsystem.StatusFailed
          | callsystem.StatusBusy | callsystem.StatusNoAnswer => ret false
          | callsystem.StatusPending _ =>
              timeSleep (500 * Millisecond) ;;
              waitLoop fuel' ctx call deadline
          end
      else ret false
  end.

(** Every poll that does not return sleeps 500ms or more, so the deadline
    is reached after at most [timeout / 500ms], rounded up, polls. *)
Definition polls (timeout : Duration) : nat :=
  Z.to_nat ((timeout + 500 * Millisecond - 1) `div` (500 * Millisecond)).

Definition waitForAnswer (ctx : Context) (call : callsystem.Call) (timeout : Duration) : M bool :=
  now <- timeNow ;;
  waitLoop (S (polls timeout)) ctx call (now + timeout).

(** The loop of [speak] over the chunks of the synthesis stream. *)
Fixpoint streamAudio (tr : callsystem.TransportConnection) (stream : list tts.StreamChunk) : M (option error) :=
  match stream with
  | [] => ret None
  | chunk :: rest =>
      match tts.Error chunk with
      | Some e => ret (Some ("TTS stream error: " +:+ e))
      | None =>
          werr <- (if (0 <? length (tts.Audio chunk))%nat
                   then audioWrite tr (tts.Audio chunk) else ret None) ;;
          match werr with
          | Some e => ret (Some ("failed to write audio: " +:+ e))
          | None => if tts.IsFinal chunk then ret None else streamAudio tr rest
          end
      end
  end.

(** The [tts.SynthesisConfig] literal of [speak]. *)
Definition synthesisConfig (cfg : config.Config) : tts.SynthesisConfig :=
  {| tts.VoiceID := config.TTSVoice cfg;
     tts.Model := config.TTSModel cfg;
     tts.OutputFormat := "ulaw";
     tts.SampleRate := 8000 |}.

Definition speak (ctx : Context) (state : loc) (message : string) : M (option error) :=
  AddTurn state "assistant" message ;;
  cs <- load state ;;
  transport <- callTransport (Call cs) ;;
  match transport with
  | None => ret (Some "no transport connection available")
  | Some tr =>
      m <- gets mgr ;;
      provider <- deref "ttsProvider" (ttsProvider m) ;;
      r <- synthesizeStream provider message (synthesisConfig (config m)) ;;
      match r with
      | inl e => ret (Some ("TTS synthesis failed: " +:+ e))
      | inr stream => streamAudio tr stream
      end
  end.

(** The [stt.TranscriptionConfig] literal of [listen]. *)
Definition transcriptionConfig (cfg : config.Config) : stt.TranscriptionConfig :=
  {| stt.Language := config.STTLanguage cfg;
     stt.Model := config.STTModel cfg;
     stt.Encoding := "mulaw";
     stt.SampleRate := 8000;
     stt.Channels := 1;
     stt.EnablePunctuation := true |}.

(** The [select] loop of [listen]: [transcript] is the local variable,
    [events] the events still to be received in this run. *)
Fixpoint listenLoop (ctx : Context) (state : loc) (transcript : string)
    (events : list stt.StreamEvent) (ending : stt.Ending) : M (string * option error) :=
  match events with
  | [] =>
      match ending with
      | stt.ContextDone => ret (transcript, Some (Err ctx))
      | stt.TimerFired | stt.Closed =>
          (if nonempty transcript then AddTurn state "user" transcript else ret tt) ;;
          ret (transcript, None)
      end
  | event :: rest =>
      match stt.Error event with
      | Some e => ret (transcript, Some e)
      | None =>
          if stt.IsFinal event && nonempty (stt.Transcript event) then
            AddTurn state "user" (stt.Transcript event) ;;
            ret (stt.Transcript event, None)
          else
            listenLoop ctx state
              (if nonempty (stt.Transcript event) then stt.Transcript event else transcript)
              rest ending
      end
  end.

(** [listen].  The goroutine that forwards inbound audio to the recognizer
    touches neither the manager nor the session and is left out; the
    deferred [writer.Close()] runs on every return after the session was
    opened. *)
Definition listen (ctx : Context) (state : loc) : M (string * option error) :=
  cs <- load state ;;
  transport <- callTransport (Call cs) ;;
  match transport with
  | None => ret ("", Some "no transport connection available")
  | Some _ =>
      m <- gets mgr ;;
      provider <- deref "sttProvider" (sttProvider m) ;;
      r <- transcribeStream provider (transcriptionConfig (config m)) ;;
      match r with
      | inl e => ret ("", Some ("failed to start transcription: " +:+ e))
      | inr run =>
          res <- listenLoop ctx state "" (stt.received run) (stt.ending run) ;;
          modify (emit EvWriterClose) ;;
          ret res
      end
  end.

Definition speakAndListen (ctx : Context) (state : loc) (message : string) : M (string * option error) :=
  serr <- speak ctx state message ;;
  match serr with
  | Some e => ret ("", Some e)
  | None =>
      res <- listen ctx state ;;
      match res with
      | (_, Some e) => ret ("", Some ("failed to listen: " +:+ e))
      | (response, None) => ret (response, None)
      end
  end.

Definition InitiateCall (ctx : Context) (message : string) : M (option loc * string * option error) :=
  m <- gets mgr ;;
  match callSystem m with
  | None => ret (None, "", Some "call manager not initialized; call Initialize() first")
  | Some csys =>
      r <- makeCall csys (config.UserPhoneNumber (config m)) ;;
      match r with
      | inl e => ret (None, "", Some ("failed to make call: " +:+ e))
      | inr call =>
          callID <- generateCallID ;;
          now <- timeNow ;;
          state <- alloc {| ID := callID; Call := call; StartTime := now;
                            Conversation := []; LastUserMessage := "" |} ;;
          registerCall callID state ;;
          answered <- waitForAnswer ctx call (30 * Second) ;;
          if negb answered then
            callHangup call ;;
            removeCall callID ;;
            ret (None, "", Some "call not answered")
          else
            res <- speakAndListen ctx state message ;;
            match res with
            | (_, Some e) => ret (Some state, "", Some ("failed to speak: " +:+ e))
            | (response, None) => ret (Some state, response, None)
            end
      end
  end.

Definition ContinueCall (ctx : Context) (callID message : string) : M (string * option error) :=
  state <- getCall callID ;;
  match state with
  | None => ret ("", Some ("call not found: " +:+ callID))
  | Some l =>
      res <- speakAndListen ctx l message ;;
      match res with
      | (_, Some e) => ret ("", Some ("failed to continue call: " +:+ e))
      | (response, None) => ret (response, None)
      end
  end.

Definition SpeakToUser (ctx : Context) (callID message : string) : M (option error) :=
  state <- getCall callID ;;
  match state with
  | None => ret (Some ("call not found: " +:+ callID))
  | Some l =>
      serr <- speak ctx l message ;;
      match serr with
      | Some e => ret (Some ("failed to speak: " +:+ e))
      | None => ret None
      end
  end.

Definition EndCall (ctx : Context) (callID message : string) : M (Duration * option error) :=
  state <- getCall callID ;;
  match state with
  | None => ret (0, Some ("call not found: " +:+ callID))
  | Some l =>
      (if nonempty message then
         speak ctx l message ;;
         timeSleep (2 * Second)
       else ret tt) ;;
      cs <- load l ;;
      now <- timeNow ;;
      let duration := CallState.Duration now cs in
      herr <- callHangup (Call cs) ;;
      match herr with
      | Some e => ret (duration, Some ("failed to hangup: " +:+ e))
      | None =>
          removeCall callID ;;
          ret (duration, None)
      end
  end.

(** ** Runs used to state the properties *)

(** A session's appends run in sequence, one [AddTurn] per element, each
    with its own clock reading. *)
Definition addTurns (cs : CallState) (turns : list ConversationTurn) : CallState :=
  foldl (fun cs t => CallState.AddTurn (Timestamp t) (Role t) (Content t) cs) cs turns.

Definition is_user (t : ConversationTurn) : bool := bool_decide (Role t = "user").

(** [w'] differs from [w] by backend interactions only: the manager and
    the sessions are the same and the trace grew by effects that are no
    turn-log appends. *)
Definition backend_only (w w' : World) : Prop :=
  mgr w' = mgr w /\ heap w' = heap w /\
  exists es, trace w' = trace w ++ es /\ Forall (fun e => is_backend e = true) es.

(** From [w] to [w'] the manager is the same and every session is still
    there under its pointer, with the same id and call leg. *)
Definition sessions_kept (w w' : World) : Prop :=
  mgr w' = mgr w /\
  forall l cs, heap w !! l = Some cs ->
    exists cs', heap w' !! l = Some cs' /\ ID cs' = ID cs /\ Call cs' = Call cs.

(** The time of the [k]-th poll of an answer wait started at [t0]: each
    poll that does not return is followed by a sleep of 500ms, which may
    overrun. *)
Fixpoint pollTime (lag : Time -> N) (t0 : Time) (k : nat) : Time :=
  match k with
  | O => t0
  | S k' => pollTime lag (t0 + 500 * Millisecond + Z.of_N (lag t0)) k'
  end.

Definition pending (s : callsystem.CallStatus) : bool :=
  match s with callsystem.StatusPending _ => true | _ => false end.

(** The [k]-th poll is before the deadline and finds the call answered,
    the context not done, and no earlier poll found the context done or a
    status other than a pending one. *)
Definition answered_at (lag : Time -> N) (ctx : Context) (call : callsystem.Call)
    (t0 deadline : Time) (k : nat) : Prop :=
  pollTime lag t0 k < deadline
  /\ Done ctx (pollTime lag t0 k) = false
  /\ callsystem.Status call (pollTime lag t0 k) = callsystem.StatusAnswered
  /\ forall j, (j < k)%nat ->
       Done ctx (pollTime lag t0 j) = false
       /\ pending (callsystem.Status call (pollTime lag t0 j)) = true.

(** The call reaches Answered within the wait of [timeout] started at
    [t0]. *)
Definition reaches_Answered (lag : Time -> N) (ctx : Context) (call : callsystem.Call)
    (t0 : Time) (timeout : Duration) : Prop :=
  exists k, answered_at lag ctx call t0 (t0 + timeout) k.

(** The session [l] of [w] with one more turn, appended at [w]'s clock. *)
Definition with_turn (l : loc) (role content : string) (cs : CallState) (w : World) : World :=
  emit (EvTurn l role content)
    (set_heap (<[l := CallState.AddTurn (clock w) role content cs]> (heap w)) w).

(** The guard of the listen loop under which an event ends the turn. *)
Definition resolves (e : stt.StreamEvent) : bool :=
  stt.IsFinal e && nonempty (stt.Transcript e).

(** An event that neither aborts the loop nor ends the turn. *)
Definition passes (e : stt.StreamEvent) : Prop :=
  stt.Error e = None /\ resolves e = false.

(** The last non-empty fragment among the events, the empty string when
    there is none. *)
Definition candidate (events : list stt.StreamEvent) : string :=
  default "" (last (List.filter nonempty (map stt.Transcript events))).

(** ** Scripted collaborators and concrete worlds *)

Definition testConfig : config.Config :=
  {| config.UserPhoneNumber := "+15550100";
     config.TTSVoice := "Rachel";
     config.TTSModel := "eleven_turbo_v2_5";
     config.STTModel := "nova-2";
     config.STTLanguage := "en-US";
     config.TranscriptTimeoutMS := 180000 |}.

(** A context that is never done. *)
Definition background : Context :=
  {| Done := fun _ => false; Err := "context canceled" |}.

(** A transport whose sink accepts every frame. *)
Definition openLine : callsystem.TransportConnection :=
  {| callsystem.AudioIn := fun _ => None |}.

Definition scriptedCall (hangup : option error) (status : Time -> callsystem.CallStatus)
    (transport : option callsystem.TransportConnection) : callsystem.Call :=
  {| callsystem.ID := "CA-1";
     callsystem.Hangup := fun _ => hangup;
     callsystem.Status := status;
     callsystem.Transport := fun _ => transport |}.

Definition dialer (r : error + callsystem.Call) : callsystem.CallSystem :=
  {| callsystem.MakeCall := fun _ _ => r |}.

Definition synthesizer (r : error + list tts.StreamChunk) : tts.StreamingProvider :=
  {| tts.SynthesizeStream := fun _ _ _ => r |}.

Definition recognizer (r : error + stt.Run) : stt.StreamingProvider :=
  {| stt.TranscribeStream := fun _ _ => r |}.

Definition fragment (transcript : string) (final : bool) : stt.StreamEvent :=
  {| stt.Transcript := transcript; stt.IsFinal := final; stt.Error := None |}.

Definition frame (audio : list Byte.byte) (final : bool) : tts.StreamChunk :=
  {| tts.Audio := audio; tts.IsFinal := final; tts.Error := None |}.

Definition always (s : callsystem.CallStatus) : Time -> callsystem.CallStatus := fun _ => s.

(** An initialized manager with an empty registry, at clock [0]. *)
Definition idleWorld (call : error + callsystem.Call)
    (voice : option tts.StreamingProvider) (ears : option stt.StreamingProvider) : World :=
  {| mgr := {| config := testConfig; callSystem := Some (dialer call);
               ttsProvider := voice; sttProvider := ears;
               calls := ∅; callCounter := 0; publicURL := "https://agent.example" |};
     heap := ∅; clock := 0; lag := fun _ => 0%N; trace := [] |}.

(** The session ["call-1-0"], started at clock [0]. *)
Definition liveSession (call : callsystem.Call) : CallState :=
  {| ID := "call-1-0"; Call := call; StartTime := 0;
     Conversation := []; LastUserMessage := "" |}.

(** A world five seconds into the call ["call-1-0"], the only one
    registered. *)
Definition liveWorld (call : callsystem.Call)
    (voice : option tts.StreamingProvider) (ears : option stt.StreamingProvider) : World :=
  {| mgr := {| config := testConfig; callSystem := Some (dialer (inr call));
               ttsProvider := voice; sttProvider := ears;
               calls := {[ "call-1-0" := 1%positive ]};
               callCounter := 1; publicURL := "https://agent.example" |};
     heap := {[ 1%positive := liveSession call ]};
     clock := 5 * Second; lag := fun _ => 0%N; trace := [] |}.

(** A world in which the recognizer delivers the given run. *)
Definition listeningWorld (events : list stt.StreamEvent) (ending : stt.Ending) : World :=
  liveWorld (scriptedCall None (always callsystem.StatusAnswered) (Some openLine))
    (Some (synthesizer (inr [frame [Byte.x7f] true])))
    (Some (recognizer (inr {| stt.received := events; stt.ending := ending |}))).

(** The session [InitiateCall] creates for the call leg [call], and the
    world once it is registered: the dial is on the trace, the counter has
    advanced, the session is allocated and stored under its id. *)
Definition newCallID (w : World) : string :=
  (nextCallID (callCounter (mgr w)) (clock w)).2.

Definition newSession (w : World) (call : callsystem.Call) : CallState :=
  {| ID := newCallID w; Call := call; StartTime := clock w;
     Conversation := []; LastUserMessage := "" |}.

Definition newLoc (w : World) : loc := fresh (dom (heap w)).

Definition dialedWorld (w : World) (call : callsystem.Call) : World :=
  {| mgr := set_calls (<[newCallID w := newLoc w]> (calls (mgr w)))
              (set_callCounter (nextCallID (callCounter (mgr w)) (clock w)).1 (mgr w));
     heap := <[newLoc w := newSession w call]> (heap w);
     clock := clock w;
     lag := lag w;
     trace := trace w ++ [EvMakeCall (config.UserPhoneNumber (config (mgr w)))] |}.

(** Successive invocations of [generateCallID], one per clock reading:
    before each invocation the clock is at the given reading. *)
Fixpoint generateCallIDs (clocks : list Time) : M (list string) :=
  match clocks with
  | [] => ret []
  | now :: rest =>
      modify (set_clock now) ;;
      id <- generateCallID ;;
      ids <- generateCallIDs rest ;;
      ret (id :: ids)
  end.

(** The ids these invocations return, from the counter value [counter]. *)
Fixpoint callIDsFrom (counter : Z) (clocks : list Time) : list string :=
  match clocks with
  | [] => []
  | now :: rest =>
      (nextCallID counter now).2 :: callIDsFrom (nextCallID counter now).1 rest
  end.

Definition is_digit (a : ascii) : bool :=
  (48 <=? nat_of_ascii a)%nat && (nat_of_ascii a <=? 57)%nat.

Fixpoint all_digits (s : string) : bool :=
  match s with
  | EmptyString => true
  | String a s' => is_digit a && all_digits s'
  end.

(** The world of a manager just created by [New]. *)
Definition newWorld : World :=
  {| mgr := New testConfig; heap := ∅; clock := 0; lag := fun _ => 0%N; trace := [] |}.

(** ** The rest of the manager *)

(** [GetCall] *)
Definition GetCall (callID : string) : M (option loc) := getCall callID.

(** The loop of [Close] over the sessions the [range] yields. *)
Fixpoint hangupAll (states : list loc) : M unit :=
  match states with
  | [] => ret tt
  | state :: rest =>
      cs <- load state ;;
      callHangup (Call cs) ;;
      hangupAll rest
  end.

(** [Close].  [order] is the order in which [range m.calls] yields the
    sessions, which Go leaves unspecified; [closer] tells, for a call
    system, its [Close] method if it has one (the type assertion). *)
Definition Close (closer : callsystem.CallSystem -> option (Time -> option error))
    (order : list loc) : M (option error) :=
  hangupAll order ;;
  modify (fun w => set_mgr (set_calls ∅ (mgr w)) w) ;;
  m <- gets mgr ;;
  match callSystem m with
  | None => ret None
  | Some cs =>
      match closer cs with
      | Some close => now <- timeNow ;; ret (close now)
      | None => ret None
      end
  end.

(** The sessions of the registry, in the order of its list of entries. *)
Definition registered (w : World) : list loc := (map_to_list (calls (mgr w))).*2.

(** The hangups of the call legs of the sessions [order] points to. *)
Definition hangupsOf (h : gmap loc CallState) (order : list loc) : list Effect :=
  omap (fun l => (fun cs => EvHangup (callsystem.ID (Call cs))) <$> h !! l) order.

(** The registry is well formed: every registered pointer refers to a
    session, and the session carries the id it is registered under. *)
Definition registry_wf (w : World) : Prop :=
  forall callID l, calls (mgr w) !! callID = Some l ->
    exists cs, heap w !! l = Some cs /\ ID cs = callID.

(** A session later in its life: the same id, call leg and start, and a
    log that extends the earlier one. *)
Definition session_grown (cs cs' : CallState) : Prop :=
  ID cs' = ID cs /\ Call cs' = Call cs /\ StartTime cs' = StartTime cs
  /\ Conversation cs `prefix_of` Conversation cs'.

(** Every session of [w] is still there in [w'], grown. *)
Definition logs_grow (w w' : World) : Prop :=
  forall l cs, heap w !! l = Some cs ->
    exists cs', heap w' !! l = Some cs' /\ session_grown cs cs'.

(** Only the session [l] may differ between [w] and [w']. *)
Definition only_session (l : loc) (w w' : World) : Prop :=
  forall l', l' <> l -> heap w' !! l' = heap w !! l'.

(** No time has passed between [w] and [w']. *)
Definition same_time (w w' : World) : Prop := clock w' = clock w /\ lag w' = lag w.

(** The first phase of [EndCall] on the session [l]: the final message,
    best effort, and the wait for the audio to play. *)
Definition farewell (ctx : Context) (l : loc) (message : string) : M unit :=
  if nonempty message then
    speak ctx l message ;;
    timeSleep (2 * Second)
  else ret tt.

(** A world with two live calls, ["call-1-0"] and ["call-2-0"]. *)
Definition twoCallsWorld (call1 call2 : callsystem.Call)
    (voice : option tts.StreamingProvider) (ears : option stt.StreamingProvider) : World :=
  {| mgr := {| config := testConfig; callSystem := Some (dialer (inr call1));
               ttsProvider := voice; sttProvider := ears;
               calls := <[ "call-2-0" := 2%positive ]> {[ "call-1-0" := 1%positive ]};
               callCounter := 2; publicURL := "https://agent.example" |};
     heap := <[ 2%positive := {| ID := "call-2-0"; Call := call2; StartTime := 0;
                                 Conversation := []; LastUserMessage := "" |} ]>
             {[ 1%positive := liveSession call1 ]};
     clock := 5 * Second; lag := fun _ => 0%N; trace := [] |}.

(** The number of status polls among the effects. *)
Definition statusPolls (es : list Effect) : nat :=
  length (List.filter (fun e => match e with EvStatus _ => true | _ => false end) es).

(** The effects of an answer wait on the leg [call]: status polls and
    sleeps of 500ms. *)
Definition is_poll_or_sleep (call : callsystem.Call) (e : Effect) : Prop :=
  e = EvStatus (callsystem.ID call) \/ e = EvSleep (500 * Millisecond).

(** The chunks of a synthesis stream up to and including the first one
    that is final. *)
Fixpoint untilFinal (stream : list tts.StreamChunk) : list tts.StreamChunk :=
  match stream with
  | [] => []
  | chunk :: rest => if tts.IsFinal chunk then [chunk] else chunk :: untilFinal rest
  end.

(** The frames to deliver: the non-empty audio of these chunks. *)
Definition audible (stream : list tts.StreamChunk) : list (list Byte.byte) :=
  List.filter (fun a => (0 <? length a)%nat) (map tts.Audio (untilFinal stream)).

(** The frames written to the transport, among the effects. *)
Definition audioWrites (es : list Effect) : list (list Byte.byte) :=
  omap (fun e => match e with EvAudioWrite f => Some f | _ => None end) es.

(** The stream the synthesis backend opens for [message] in [w], if the
    session [cs] has a transport and the backend is there and accepts. *)
Definition synthesized (w : World) (cs : CallState) (message : string) : option (list tts.StreamChunk) :=
  match callsystem.Transport (Call cs) (clock w), ttsProvider (mgr w) with
  | Some _, Some p =>
      match tts.SynthesizeStream p (clock w) message (synthesisConfig (config (mgr w))) with
      | inr stream => Some stream
      | inl _ => None
      end
  | _, _ => None
  end.

(** The interactions of the speech-out pipeline: transport lookup,
    synthesis request, audio write. *)
Definition is_speech (e : Effect) : bool :=
  match e with
  | EvTransport _ | EvSynthesize _ _ | EvAudioWrite _ => true
  | _ => false
  end.

(** ** Initialize *)

Definition set_publicURL (url : string) (m : Manager) : Manager :=
  {| config := config m; callSystem := callSystem m; ttsProvider := ttsProvider m;
     sttProvider := sttProvider m; calls := calls m; callCounter := callCounter m;
     publicURL := url |}.
Definition set_callSystem (cs : option callsystem.CallSystem) (m : Manager) : Manager :=
  {| config := config m; callSystem := cs; ttsProvider := ttsProvider m;
     sttProvider := sttProvider m; calls := calls m; callCounter := callCounter m;
     publicURL := publicURL m |}.
Definition set_ttsProvider (p : option tts.StreamingProvider) (m : Manager) : Manager :=
  {| config := config m; callSystem := callSystem m; ttsProvider := p;
     sttProvider := sttProvider m; calls := calls m; callCounter := callCounter m;
     publicURL := publicURL m |}.
Definition set_sttProvider (p : option stt.StreamingProvider) (m : Manager) : Manager :=
  {| config := config m; callSystem := callSystem m; ttsProvider := ttsProvider m;
     sttProvider := p; calls := calls m; callCounter := callCounter m;
     publicURL := publicURL m |}.

(** The constructors of the three providers, applied to the credentials
    of the configuration: the Twilio call system (a function of the
    webhook URL), the ElevenLabs client wrapped as synthesis provider,
    and the Deepgram recognition provider.  They build clients and leave
    no mark on the trace. *)
Record Constructors := {
  newCallSystem : string -> error + callsystem.CallSystem;
  newElevenLabs : error + tts.StreamingProvider;
  newDeepgram : error + stt.StreamingProvider
}.

(** [Initialize] *)
Definition Initialize (make : Constructors) (url : string) : M (option error) :=
  modify (fun w => set_mgr (set_publicURL url (mgr w)) w) ;;
  match newCallSystem make (url +:+ "/media-stream") with
  | inl e => ret (Some ("failed to create callsystem: " +:+ e))
  | inr cs =>
      modify (fun w => set_mgr (set_callSystem (Some cs) (mgr w)) w) ;;
      match newElevenLabs make with
      | inl e => ret (Some ("failed to create ElevenLabs client: " +:+ e))
      | inr voice =>
          modify (fun w => set_mgr (set_ttsProvider (Some voice) (mgr w)) w) ;;
          match newDeepgram make with
          | inl e => ret (Some ("failed to create Deepgram provider: " +:+ e))
          | inr ears =>
              modify (fun w => set_mgr (set_sttProvider (Some ears) (mgr w)) w) ;;
              ret None
          end
      end
  end.

(** ** The tools (package tools) *)

Module tools.

Module InitiateCallOutput.
Record t := { CallID : string; Response : string }.
End InitiateCallOutput.

Module ContinueCallOutput.
Record t := { Response : string }.
End ContinueCallOutput.

Module SpeakToUserOutput.
Record t := { Success : bool }.
End SpeakToUserOutput.

(** [state.ID] and the like, through a pointer that may be nil. *)
Definition loadPtr (state : option loc) : M CallState :=
  match state with
  | Some l => load l
  | None => panic "nil dereference: CallState"
  end.

(** The handler of [initiate_call]; the tool result, always nil, is left
    out here and below. *)
Definition initiate_call (ctx : Context) (message : string)
    : M (InitiateCallOutput.t * option error) :=
  r <- InitiateCall ctx message ;;
  match r with
  | (_, _, Some e) =>
      ret ({| InitiateCallOutput.CallID := ""; InitiateCallOutput.Response := "" |},
           Some ("failed to initiate call: " +:+ e))
  | (state, response, None) =>
      cs <- loadPtr state ;;
      ret ({| InitiateCallOutput.CallID := ID cs; InitiateCallOutput.Response := response |},
           None)
  end.

(** The handler of [continue_call]. *)
Definition continue_call (ctx : Context) (callID message : string)
    : M (ContinueCallOutput.t * option error) :=
  r <- ContinueCall ctx callID message ;;
  match r with
  | (_, Some e) =>
      ret ({| ContinueCallOutput.Response := "" |}, Some ("failed to continue call: " +:+ e))
  | (response, None) => ret ({| ContinueCallOutput.Response := response |}, None)
  end.

(** The handler of [speak_to_user]. *)
Definition speak_to_user (ctx : Context) (callID message : string)
    : M (SpeakToUserOutput.t * option error) :=
  err <- SpeakToUser ctx callID message ;;
  match err with
  | Some e => ret ({| SpeakToUserOutput.Success := false |}, Some ("failed to speak: " +:+ e))
  | None => ret ({| SpeakToUserOutput.Success := true |}, None)
  end.

(** The handler of [end_call].  Its output holds [duration.Seconds()], a
    [float64]: the output is modelled by the duration the seconds are
    taken of, [0] for the zero output. *)
Definition end_call (ctx : Context) (callID message : string)
    : M (Duration * option error) :=
  r <- EndCall ctx callID message ;;
  match r with
  | (_, Some e) => ret (0, Some ("failed to end call: " +:+ e))
  | (duration, None) => ret (duration, None)
  end.

End tools.

(** * Package config: defaults, environment and validation *)

(** The whole of package [config]; [config.Config] above holds the fields
    of the same struct that the manager reads. *)
Module configuration.

Record Config := {
  Port : Z;
  PhoneProvider : string;
  PhoneAccountSID : string;
  PhoneAuthToken : string;
  PhoneNumber : string;
  UserPhoneNumber : string;
  ElevenLabsAPIKey : string;
  TTSVoice : string;
  TTSModel : string;
  DeepgramAPIKey : string;
  STTModel : string;
  STTLanguage : string;
  STTSilenceDurationMS : Z;
  NgrokAuthToken : string;
  NgrokDomain : string;
  TranscriptTimeoutMS : Z
}.

(** Assignments to one field of a [Config]. *)
Definition set_Port (v : Z) (c : Config) : Config :=
  {| Port := v; PhoneProvider := PhoneProvider c;
     PhoneAccountSID := PhoneAccountSID c;
     PhoneAuthToken := PhoneAuthToken c; PhoneNumber := PhoneNumber c;
     UserPhoneNumber := UserPhoneNumber c;
     ElevenLabsAPIKey := ElevenLabsAPIKey c; TTSVoice := TTSVoice c;
     TTSModel := TTSModel c; DeepgramAPIKey := DeepgramAPIKey c;
     STTModel := STTModel c; STTLanguage := STTLanguage c;
     STTSilenceDurationMS := STTSilenceDurationMS c;
     NgrokAuthToken := NgrokAuthToken c; NgrokDomain := NgrokDomain c;
     TranscriptTimeoutMS := TranscriptTimeoutMS c |}.

Definition set_PhoneProvider (v : string) (c : Config) : Config :=
  {| Port := Port c; PhoneProvider := v;
     PhoneAccountSID := PhoneAccountSID c;
     PhoneAuthToken := PhoneAuthToken c; PhoneNumber := PhoneNumber c;
     UserPhoneNumber := UserPhoneNumber c;
     ElevenLabsAPIKey := ElevenLabsAPIKey c; TTSVoice := TTSVoice c;
     TTSModel := TTSModel c; DeepgramAPIKey := DeepgramAPIKey c;
     STTModel := STTModel c; STTLanguage := STTLanguage c;
     STTSilenceDurationMS := STTSilenceDurationMS c;
     NgrokAuthToken := NgrokAuthToken c; NgrokDomain := NgrokDomain c;
     TranscriptTimeoutMS := TranscriptTimeoutMS c |}.

Definition set_PhoneAccountSID (v : string) (c : Config) : Config :=
  {| Port := Port c; PhoneProvider := PhoneProvider c; PhoneAccountSID := v;
     PhoneAuthToken := PhoneAuthToken c; PhoneNumber := PhoneNumber c;
     UserPhoneNumber := UserPhoneNumber c;
     ElevenLabsAPIKey := ElevenLabsAPIKey c; TTSVoice := TTSVoice c;
     TTSModel := TTSModel c; DeepgramAPIKey := DeepgramAPIKey c;
     STTModel := STTModel c; STTLanguage := STTLanguage c;
     STTSilenceDurationMS := STTSilenceDurationMS c;
     NgrokAuthToken := NgrokAuthToken c; NgrokDomain := NgrokDomain c;
     TranscriptTimeoutMS := TranscriptTimeoutMS c |}.

Definition set_PhoneAuthToken (v : string) (c : Config) : Config :=
  {| Port := Port c; PhoneProvider := PhoneProvider c;
     PhoneAccountSID := PhoneAccountSID c; PhoneAuthToken := v;
     PhoneNumber := PhoneNumber c; UserPhoneNumber := UserPhoneNumber c;
     ElevenLabsAPIKey := ElevenLabsAPIKey c; TTSVoice := TTSVoice c;
     TTSModel := TTSModel c; DeepgramAPIKey := DeepgramAPIKey c;
     STTModel := STTModel c; STTLanguage := STTLanguage c;
     STTSilenceDurationMS := STTSilenceDurationMS c;
     NgrokAuthToken := NgrokAuthToken c; NgrokDomain := NgrokDomain c;
     TranscriptTimeoutMS := TranscriptTimeoutMS c |}.

Definition set_PhoneNumber (v : string) (c : Config) : Config :=
  {| Port := Port c; PhoneProvider := PhoneProvider c;
     PhoneAccountSID := PhoneAccountSID c;
     PhoneAuthToken := PhoneAuthToken c; PhoneNumber := v;
     UserPhoneNumber := UserPhoneNumber c;
     ElevenLabsAPIKey := ElevenLabsAPIKey c; TTSVoice := TTSVoice c;
     TTSModel := TTSModel c; DeepgramAPIKey := DeepgramAPIKey c;
     STTModel := STTModel c; STTLanguage := STTLanguage c;
     STTSilenceDurationMS := STTSilenceDurationMS c;
     NgrokAuthToken := NgrokAuthToken c; NgrokDomain := NgrokDomain c;
     TranscriptTimeoutMS := TranscriptTimeoutMS c |}.

Definition set_UserPhoneNumber (v : string) (c : Config) : Config :=
  {| Port := Port c; PhoneProvider := PhoneProvider c;
     PhoneAccountSID := PhoneAccountSID c;
     PhoneAuthToken := PhoneAuthToken c; PhoneNumber := PhoneNumber c;
     UserPhoneNumber := v; ElevenLabsAPIKey := ElevenLabsAPIKey c;
     TTSVoice := TTSVoice c; TTSModel := TTSModel c;
     DeepgramAPIKey := DeepgramAPIKey c; STTModel := STTModel c;
     STTLanguage := STTLanguage c;
     STTSilenceDurationMS := STTSilenceDurationMS c;
     NgrokAuthToken := NgrokAuthToken c; NgrokDomain := NgrokDomain c;
     TranscriptTimeoutMS := TranscriptTimeoutMS c |}.

Definition set_ElevenLabsAPIKey (v : string) (c : Config) : Config :=
  {| Port := Port c; PhoneProvider := PhoneProvider c;
     PhoneAccountSID := PhoneAccountSID c;
     PhoneAuthToken := PhoneAuthToken c; PhoneNumber := PhoneNumber c;
     UserPhoneNumber := UserPhoneNumber c; ElevenLabsAPIKey := v;
     TTSVoice := TTSVoice c; TTSModel := TTSModel c;
     DeepgramAPIKey := DeepgramAPIKey c; STTModel := STTModel c;
     STTLanguage := STTLanguage c;
     STTSilenceDurationMS := STTSilenceDurationMS c;
     NgrokAuthToken := NgrokAuthToken c; NgrokDomain := NgrokDomain c;
     TranscriptTimeoutMS := TranscriptTimeoutMS c |}.

Definition set_TTSVoice (v : string) (c : Config) : Config :=
  {| Port := Port c; PhoneProvider := PhoneProvider c;
     PhoneAccountSID := PhoneAccountSID c;
     PhoneAuthToken := PhoneAuthToken c; PhoneNumber := PhoneNumber c;
     UserPhoneNumber := UserPhoneNumber c;
     ElevenLabsAPIKey := ElevenLabsAPIKey c; TTSVoice := v;
     TTSModel := TTSModel c; DeepgramAPIKey := DeepgramAPIKey c;
     STTModel := STTModel c; STTLanguage := STTLanguage c;
     STTSilenceDurationMS := STTSilenceDurationMS c;
     NgrokAuthToken := NgrokAuthToken c; NgrokDomain := NgrokDomain c;
     TranscriptTimeoutMS := TranscriptTimeoutMS c |}.

Definition set_TTSModel (v : string) (c : Config) : Config :=
  {| Port := Port c; PhoneProvider := PhoneProvider c;
     PhoneAccountSID := PhoneAccountSID c;
     PhoneAuthToken := PhoneAuthToken c; PhoneNumber := PhoneNumber c;
     UserPhoneNumber := UserPhoneNumber c;
     ElevenLabsAPIKey := ElevenLabsAPIKey c; TTSVoice := TTSVoice c;
     TTSModel := v; DeepgramAPIKey := DeepgramAPIKey c;
     STTModel := STTModel c; STTLanguage := STTLanguage c;
     STTSilenceDurationMS := STTSilenceDurationMS c;
     NgrokAuthToken := NgrokAuthToken c; NgrokDomain := NgrokDomain c;
     TranscriptTimeoutMS := TranscriptTimeoutMS c |}.

Definition set_DeepgramAPIKey (v : string) (c : Config) : Config :=
  {| Port := Port c; PhoneProvider := PhoneProvider c;
     PhoneAccountSID := PhoneAccountSID c;
     PhoneAuthToken := PhoneAuthToken c; PhoneNumber := PhoneNumber c;
     UserPhoneNumber := UserPhoneNumber c;
     ElevenLabsAPIKey := ElevenLabsAPIKey c; TTSVoice := TTSVoice c;
     TTSModel := TTSModel c; DeepgramAPIKey := v; STTModel := STTModel c;
     STTLanguage := STTLanguage c;
     STTSilenceDurationMS := STTSilenceDurationMS c;
     NgrokAuthToken := NgrokAuthToken c; NgrokDomain := NgrokDomain c;
     TranscriptTimeoutMS := TranscriptTimeoutMS c |}.

Definition set_STTModel (v : string) (c : Config) : Config :=
  {| Port := Port c; PhoneProvider := PhoneProvider c;
     PhoneAccountSID := PhoneAccountSID c;
     PhoneAuthToken := PhoneAuthToken c; PhoneNumber := PhoneNumber c;
     UserPhoneNumber := UserPhoneNumber c;
     ElevenLabsAPIKey := ElevenLabsAPIKey c; TTSVoice := TTSVoice c;
     TTSModel := TTSModel c; DeepgramAPIKey := DeepgramAPIKey c;
     STTModel := v; STTLanguage := STTLanguage c;
     STTSilenceDurationMS := STTSilenceDurationMS c;
     NgrokAuthToken := NgrokAuthToken c; NgrokDomain := NgrokDomain c;
     TranscriptTimeoutMS := TranscriptTimeoutMS c |}.

Definition set_STTLanguage (v : string) (c : Config) : Config :=
  {| Port := Port c; PhoneProvider := PhoneProvider c;
     PhoneAccountSID := PhoneAccountSID c;
     PhoneAuthToken := PhoneAuthToken c; PhoneNumber := PhoneNumber c;
     UserPhoneNumber := UserPhoneNumber c;
     ElevenLabsAPIKey := ElevenLabsAPIKey c; TTSVoice := TTSVoice c;
     TTSModel := TTSModel c; DeepgramAPIKey := DeepgramAPIKey c;
     STTModel := STTModel c; STTLanguage := v;
     STTSilenceDurationMS := STTSilenceDurationMS c;
     NgrokAuthToken := NgrokAuthToken c; NgrokDomain := NgrokDomain c;
     TranscriptTimeoutMS := TranscriptTimeoutMS c |}.

Definition set_STTSilenceDurationMS (v : Z) (c : Config) : Config :=
  {| Port := Port c; PhoneProvider := PhoneProvider c;
     PhoneAccountSID := PhoneAccountSID c;
     PhoneAuthToken := PhoneAuthToken c; PhoneNumber := PhoneNumber c;
     UserPhoneNumber := UserPhoneNumber c;
     ElevenLabsAPIKey := ElevenLabsAPIKey c; TTSVoice := TTSVoice c;
     TTSModel := TTSModel c; DeepgramAPIKey := DeepgramAPIKey c;
     STTModel := STTModel c; STTLanguage := STTLanguage c;
     STTSilenceDurationMS := v; NgrokAuthToken := NgrokAuthToken c;
     NgrokDomain := NgrokDomain c;
     TranscriptTimeoutMS := TranscriptTimeoutMS c |}.

Definition set_NgrokAuthToken (v : string) (c : Config) : Config :=
  {| Port := Port c; PhoneProvider := PhoneProvider c;
     PhoneAccountSID := PhoneAccountSID c;
     PhoneAuthToken := PhoneAuthToken c; PhoneNumber := PhoneNumber c;
     UserPhoneNumber := UserPhoneNumber c;
     ElevenLabsAPIKey := ElevenLabsAPIKey c; TTSVoice := TTSVoice c;
     TTSModel := TTSModel c; DeepgramAPIKey := DeepgramAPIKey c;
     STTModel := STTModel c; STTLanguage := STTLanguage c;
     STTSilenceDurationMS := STTSilenceDurationMS c; NgrokAuthToken := v;
     NgrokDomain := NgrokDomain c;
     TranscriptTimeoutMS := TranscriptTimeoutMS c |}.

Definition set_NgrokDomain (v : string) (c : Config) : Config :=
  {| Port := Port c; PhoneProvider := PhoneProvider c;
     PhoneAccountSID := PhoneAccountSID c;
     PhoneAuthToken := PhoneAuthToken c; PhoneNumber := PhoneNumber c;
     UserPhoneNumber := UserPhoneNumber c;
     ElevenLabsAPIKey := ElevenLabsAPIKey c; TTSVoice := TTSVoice c;
     TTSModel := TTSModel c; DeepgramAPIKey := DeepgramAPIKey c;
     STTModel := STTModel c; STTLanguage := STTLanguage c;
     STTSilenceDurationMS := STTSilenceDurationMS c;
     NgrokAuthToken := NgrokAuthToken c; NgrokDomain := v;
     TranscriptTimeoutMS := TranscriptTimeoutMS c |}.

Definition set_TranscriptTimeoutMS (v : Z) (c : Config) : Config :=
  {| Port := Port c; PhoneProvider := PhoneProvider c;
     PhoneAccountSID := PhoneAccountSID c;
     PhoneAuthToken := PhoneAuthToken c; PhoneNumber := PhoneNumber c;
     UserPhoneNumber := UserPhoneNumber c;
     ElevenLabsAPIKey := ElevenLabsAPIKey c; TTSVoice := TTSVoice c;
     TTSModel := TTSModel c; DeepgramAPIKey := DeepgramAPIKey c;
     STTModel := STTModel c; STTLanguage := STTLanguage c;
     STTSilenceDurationMS := STTSilenceDurationMS c;
     NgrokAuthToken := NgrokAuthToken c; NgrokDomain := NgrokDomain c;
     TranscriptTimeoutMS := v |}.

(** [DefaultConfig]: the fields it does not name hold their zero value. *)
Definition DefaultConfig : Config :=
  {| Port := 3333; PhoneProvider := "twilio"; PhoneAccountSID := "";
     PhoneAuthToken := ""; PhoneNumber := ""; UserPhoneNumber := "";
     ElevenLabsAPIKey := ""; TTSVoice := "Rachel"; TTSModel := "eleven_turbo_v2_5";
     DeepgramAPIKey := ""; STTModel := "nova-2"; STTLanguage := "en-US";
     STTSilenceDurationMS := 800; NgrokAuthToken := ""; NgrokDomain := "";
     TranscriptTimeoutMS := 180000 |}.

(** The process environment; [os.Getenv] gives the empty string for a
    variable that is not set. *)
Definition Environ := gmap string string.

Definition Getenv (env : Environ) (key : string) : string :=
  default "" (env !! key).

(** [strings.Join]. *)
Fixpoint Join (elems : list string) (sep : string) : string :=
  match elems with
  | [] => ""
  | [s] => s
  | s :: rest => s +:+ sep +:+ Join rest sep
  end.

(** A slice of strings under the verb [%v]. *)
Definition formatSlice (elems : list string) : string :=
  "[" +:+ Join elems " " +:+ "]".

(** The names [Validate] reports, in the order of its checks. *)
Definition missingVariables (c : Config) : list string :=
  let missing := [] in
  let missing := if nonempty (PhoneAccountSID c) then missing
                 else missing ++ ["AGENTCALL_PHONE_ACCOUNT_SID"] in
  let missing := if nonempty (PhoneAuthToken c) then missing
                 else missing ++ ["AGENTCALL_PHONE_AUTH_TOKEN"] in
  let missing := if nonempty (PhoneNumber c) then missing
                 else missing ++ ["AGENTCALL_PHONE_NUMBER"] in
  let missing := if nonempty (UserPhoneNumber c) then missing
                 else missing ++ ["AGENTCALL_USER_PHONE_NUMBER"] in
  let missing := if nonempty (ElevenLabsAPIKey c) then missing
                 else missing ++ ["AGENTCALL_ELEVENLABS_API_KEY or ELEVENLABS_API_KEY"] in
  let missing := if nonempty (DeepgramAPIKey c) then missing
                 else missing ++ ["AGENTCALL_DEEPGRAM_API_KEY or DEEPGRAM_API_KEY"] in
  let missing := if nonempty (NgrokAuthToken c) then missing
                 else missing ++ ["AGENTCALL_NGROK_AUTHTOKEN or NGROK_AUTHTOKEN"] in
  missing.

(** [Config.Validate]. *)
Definition Validate (c : Config) : option error :=
  let missing := missingVariables c in
  if (0 <? length missing)%nat
  then Some ("missing required environment variables: " +:+ formatSlice missing)
  else None.

(** [LoadFromEnv], block by block as the source lays it out.  [Sscanf]
    stands for [fmt.Sscanf] with the format [%d]: the integer read, or
    [None] for an error. *)
Section LoadFromEnv.
Variable Sscanf : string -> option Z.
Variable env : Environ.

(** Server port. *)
Definition loadServerPort (cfg : Config) : Config :=
  let port := Getenv env "AGENTCALL_PORT" in
  if nonempty port
  then match Sscanf port with Some p => set_Port p cfg | None => cfg end
  else cfg.

(** Phone provider. *)
Definition loadPhoneProvider (cfg : Config) : Config :=
  let provider := Getenv env "AGENTCALL_PHONE_PROVIDER" in
  let cfg := if nonempty provider then set_PhoneProvider provider cfg else cfg in
  let cfg := set_PhoneAccountSID (Getenv env "AGENTCALL_PHONE_ACCOUNT_SID") cfg in
  let cfg := set_PhoneAuthToken (Getenv env "AGENTCALL_PHONE_AUTH_TOKEN") cfg in
  let cfg := set_PhoneNumber (Getenv env "AGENTCALL_PHONE_NUMBER") cfg in
  set_UserPhoneNumber (Getenv env "AGENTCALL_USER_PHONE_NUMBER") cfg.

(** ElevenLabs TTS. *)
Definition loadElevenLabsTTS (cfg : Config) : Config :=
  let cfg := set_ElevenLabsAPIKey (Getenv env "AGENTCALL_ELEVENLABS_API_KEY") cfg in
  let cfg := if nonempty (ElevenLabsAPIKey cfg) then cfg
             else set_ElevenLabsAPIKey (Getenv env "ELEVENLABS_API_KEY") cfg in
  let voice := Getenv env "AGENTCALL_TTS_VOICE" in
  let cfg := if nonempty voice then set_TTSVoice voice cfg else cfg in
  let model := Getenv env "AGENTCALL_TTS_MODEL" in
  if nonempty model then set_TTSModel model cfg else cfg.

(** Deepgram STT. *)
Definition loadDeepgramSTT (cfg : Config) : Config :=
  let cfg := set_DeepgramAPIKey (Getenv env "AGENTCALL_DEEPGRAM_API_KEY") cfg in
  let cfg := if nonempty (DeepgramAPIKey cfg) then cfg
             else set_DeepgramAPIKey (Getenv env "DEEPGRAM_API_KEY") cfg in
  let model := Getenv env "AGENTCALL_STT_MODEL" in
  let cfg := if nonempty model then set_STTModel model cfg else cfg in
  let lang := Getenv env "AGENTCALL_STT_LANGUAGE" in
  let cfg := if nonempty lang then set_STTLanguage lang cfg else cfg in
  let silence := Getenv env "AGENTCALL_STT_SILENCE_DURATION_MS" in
  if nonempty silence
  then match Sscanf silence with
       | Some s => set_STTSilenceDurationMS s cfg
       | None => cfg
       end
  else cfg.

(** ngrok. *)
Definition loadNgrok (cfg : Config) : Config :=
  let cfg := set_NgrokAuthToken (Getenv env "AGENTCALL_NGROK_AUTHTOKEN") cfg in
  let cfg := if nonempty (NgrokAuthToken cfg) then cfg
             else set_NgrokAuthToken (Getenv env "NGROK_AUTHTOKEN") cfg in
  set_NgrokDomain (Getenv env "AGENTCALL_NGROK_DOMAIN") cfg.

(** Transcript timeout. *)
Definition loadTranscriptTimeout (cfg : Config) : Config :=
  let timeout := Getenv env "AGENTCALL_TRANSCRIPT_TIMEOUT_MS" in
  if nonempty timeout
  then match Sscanf timeout with
       | Some t => set_TranscriptTimeoutMS t cfg
       | None => cfg
       end
  else cfg.

Definition LoadFromEnv : Config * option error :=
  let cfg := DefaultConfig in
  let cfg := loadServerPort cfg in
  let cfg := loadPhoneProvider cfg in
  let cfg := loadElevenLabsTTS cfg in
  let cfg := loadDeepgramSTT cfg in
  let cfg := loadNgrok cfg in
  let cfg := loadTranscriptTimeout cfg in
  (cfg, Validate cfg).

End LoadFromEnv.

(** The required settings: the name [Validate] reports and the field it
    looks at. *)
Definition required : list (string * (Config -> string)) :=
  [("AGENTCALL_PHONE_ACCOUNT_SID", PhoneAccountSID);
   ("AGENTCALL_PHONE_AUTH_TOKEN", PhoneAuthToken);
   ("AGENTCALL_PHONE_NUMBER", PhoneNumber);
   ("AGENTCALL_USER_PHONE_NUMBER", UserPhoneNumber);
   ("AGENTCALL_ELEVENLABS_API_KEY or ELEVENLABS_API_KEY", ElevenLabsAPIKey);
   ("AGENTCALL_DEEPGRAM_API_KEY or DEEPGRAM_API_KEY", DeepgramAPIKey);
   ("AGENTCALL_NGROK_AUTHTOKEN or NGROK_AUTHTOKEN", NgrokAuthToken)].

(** The variables the required settings are read from. *)
Definition requiredVariables : list string :=
  ["AGENTCALL_PHONE_ACCOUNT_SID"; "AGENTCALL_PHONE_AUTH_TOKEN";
   "AGENTCALL_PHONE_NUMBER"; "AGENTCALL_USER_PHONE_NUMBER";
   "AGENTCALL_ELEVENLABS_API_KEY"; "ELEVENLABS_API_KEY";
   "AGENTCALL_DEEPGRAM_API_KEY"; "DEEPGRAM_API_KEY";
   "AGENTCALL_NGROK_AUTHTOKEN"; "NGROK_AUTHTOKEN"].

(** An environment with every required variable, the ElevenLabs key
    under its fallback name, and a port that does not parse. *)
Definition exampleEnv : Environ :=
  {[ "AGENTCALL_PHONE_ACCOUNT_SID" := "AC0123";
     "AGENTCALL_PHONE_AUTH_TOKEN" := "secret";
     "AGENTCALL_PHONE_NUMBER" := "+15550199";
     "AGENTCALL_USER_PHONE_NUMBER" := "+15550100";
     "ELEVENLABS_API_KEY" := "el-key";
     "AGENTCALL_DEEPGRAM_API_KEY" := "dg-key";
     "NGROK_AUTHTOKEN" := "ng-token";
     "AGENTCALL_PORT" := "http" ]}.

End configuration.
(** * Properties *)

(** ** Projections of the updated world *)

Lemma mgr_emit e w : mgr (emit e w) = mgr w.
Proof. reflexivity. Qed.
Lemma heap_emit e w : heap (emit e w) = heap w.
Proof. reflexivity. Qed.
Lemma clock_emit e w : clock (emit e w) = clock w.
Proof. reflexivity. Qed.
Lemma lag_emit e w : lag (emit e w) = lag w.
Proof. reflexivity. Qed.
Lemma lag_set_heap h w : lag (set_heap h w) = lag w.
Proof. reflexivity. Qed.
Lemma lag_set_clock t w : lag (set_clock t w) = lag w.
Proof. reflexivity. Qed.
Lemma lag_set_mgr m w : lag (set_mgr m w) = lag w.
Proof. reflexivity. Qed.
Lemma trace_emit e w : trace (emit e w) = trace w ++ [e].
Proof. reflexivity. Qed.
Lemma mgr_set_heap h w : mgr (set_heap h w) = mgr w.
Proof. reflexivity. Qed.
Lemma heap_set_heap h w : heap (set_heap h w) = h.
Proof. reflexivity. Qed.
Lemma clock_set_heap h w : clock (set_heap h w) = clock w.
Proof. reflexivity. Qed.
Lemma trace_set_heap h w : trace (set_heap h w) = trace w.
Proof. reflexivity. Qed.
Lemma mgr_set_clock t w : mgr (set_clock t w) = mgr w.
Proof. reflexivity. Qed.
Lemma heap_set_clock t w : heap (set_clock t w) = heap w.
Proof. reflexivity. Qed.
Lemma clock_set_clock t w : clock (set_clock t w) = t.
Proof. reflexivity. Qed.
Lemma trace_set_clock t w : trace (set_clock t w) = trace w.
Proof. reflexivity. Qed.
Lemma mgr_set_mgr m w : mgr (set_mgr m w) = m.
Proof. reflexivity. Qed.
Lemma heap_set_mgr m w : heap (set_mgr m w) = heap w.
Proof. reflexivity. Qed.
Lemma clock_set_mgr m w : clock (set_mgr m w) = clock w.
Proof. reflexivity. Qed.
Lemma trace_set_mgr m w : trace (set_mgr m w) = trace w.
Proof. reflexivity. Qed.
Lemma calls_set_calls c m : calls (set_calls c m) = c.
Proof. reflexivity. Qed.
Lemma calls_set_callCounter n m : calls (set_callCounter n m) = calls m.
Proof. reflexivity. Qed.
Lemma callCounter_set_callCounter n m : callCounter (set_callCounter n m) = n.
Proof. reflexivity. Qed.
Lemma callCounter_set_calls c m : callCounter (set_calls c m) = callCounter m.
Proof. reflexivity. Qed.

Create Rewrite HintDb world.
#[local] Hint Rewrite lag_emit lag_set_heap lag_set_clock lag_set_mgr
  mgr_emit heap_emit clock_emit trace_emit
  mgr_set_heap heap_set_heap clock_set_heap trace_set_heap
  mgr_set_clock heap_set_clock clock_set_clock trace_set_clock
  mgr_set_mgr heap_set_mgr clock_set_mgr trace_set_mgr
  calls_set_calls calls_set_callCounter
  callCounter_set_callCounter callCounter_set_calls : world.


(** ** The turn log *)

Lemma AddTurn_run (w : World) (l : loc) (cs : CallState) (role content : string) :
  heap w !! l = Some cs ->
  AddTurn l role content w =
    (Returned tt, with_turn l role content cs w).
Proof.
  intros Hl. unfold AddTurn, load, bind, gets, deref, timeNow, store, modify, ret.
  simpl. rewrite Hl. reflexivity.
Qed.

Lemma AddTurn_dangling (w : World) (l : loc) (role content : string) :
  heap w !! l = None ->
  AddTurn l role content w = (Panicked "nil dereference: CallState", w).
Proof.
  intros Hl. unfold AddTurn, load, bind, gets, deref, panic. simpl.
  rewrite Hl. reflexivity.
Qed.

Lemma addTurns_snoc cs turns t :
  addTurns cs (turns ++ [t]) =
  CallState.AddTurn (Timestamp t) (Role t) (Content t) (addTurns cs turns).
Proof. unfold addTurns. rewrite foldl_app. reflexivity. Qed.

Lemma addTurns_Conversation cs turns :
  Conversation (addTurns cs turns) = Conversation cs ++ turns.
Proof.
  induction turns as [|t turns IH] using rev_ind.
  - simpl. rewrite app_nil_r. reflexivity.
  - rewrite addTurns_snoc. simpl. rewrite IH, <- app_assoc.
    destruct t; reflexivity.
Qed.

Lemma addTurns_LastUserMessage cs turns :
  LastUserMessage (addTurns cs turns) =
  default (LastUserMessage cs) (Content <$> last (List.filter is_user turns)).
Proof.
  induction turns as [|t turns IH] using rev_ind; [reflexivity|].
  rewrite addTurns_snoc, List.filter_app. simpl. unfold is_user at 2.
  destruct (decide (Role t = "user")) as [Hu|Hu].
  - rewrite bool_decide_eq_true_2 by done. rewrite last_snoc. reflexivity.
  - rewrite bool_decide_eq_false_2 by done. rewrite app_nil_r. exact IH.
Qed.

(** C7: [AddTurn] on a session always succeeds; the log afterwards is the
    log before followed by one new turn with the given role and text, the
    last user message becomes the text when the role is "user" and stays
    what it was otherwise, and the id and start time are untouched.  Run
    in sequence, the appends leave the log extended by the turns in call
    order. *)
Theorem AddTurn_appends_in_call_order (w : World) (l : loc) (cs : CallState) (role content : string) :
  heap w !! l = Some cs ->
  let turn := {| Role := role; Content := content; Timestamp := clock w |} in
  let cs' := CallState.AddTurn (clock w) role content cs in
  AddTurn l role content w =
    (Returned tt, emit (EvTurn l role content) (set_heap (<[l := cs']> (heap w)) w))
  /\ Conversation cs' = Conversation cs ++ [turn]
  /\ LastUserMessage cs' = (if decide (role = "user") then content else LastUserMessage cs)
  /\ (ID cs', StartTime cs') = (ID cs, StartTime cs)
  /\ forall turns : list ConversationTurn,
       Conversation (addTurns cs turns) = Conversation cs ++ turns
       /\ LastUserMessage (addTurns cs turns) =
          default (LastUserMessage cs) (Content <$> last (List.filter is_user turns)).
Proof.
  intros Hl turn cs'. split; [exact (AddTurn_run w l cs role content Hl)|].
  repeat split; auto using addTurns_Conversation, addTurns_LastUserMessage.
Qed.

(** Appending to the session of a live call. *)
Lemma AddTurn_appends_in_call_order_witness :
  let call := scriptedCall None (always callsystem.StatusAnswered) (Some openLine) in
  let w := liveWorld call None None in
  (AddTurn 1%positive "user" "hello" w).1 = Returned tt
  /\ (Conversation <$> heap (AddTurn 1%positive "user" "hello" w).2 !! 1%positive) =
     Some [ {| Role := "user"; Content := "hello"; Timestamp := 5 * Second |} ].
Proof.
  intros call w.
  destruct (AddTurn_appends_in_call_order w 1%positive (liveSession call) "user" "hello"
              ltac:(vm_compute; reflexivity)) as (Hrun & _).
  rewrite Hrun. split; [reflexivity|]. vm_compute. reflexivity.
Defined.
(** ** Operations that fail before touching anything *)

(** C9: on a manager that was not initialized, [InitiateCall] fails with
    the "not initialized" error and the world is exactly as before: no
    dial in the trace, the same counter, the same registry and heap. *)
Theorem InitiateCall_not_initialized (ctx : Context) (message : string) (w : World) :
  callSystem (mgr w) = None ->
  InitiateCall ctx message w =
    (Returned (None, "", Some "call manager not initialized; call Initialize() first"), w).
Proof.
  intros Hnil. unfold InitiateCall, bind, gets. simpl. rewrite Hnil. reflexivity.
Qed.

(** A manager fresh from [New]. *)
Lemma InitiateCall_not_initialized_witness :
  InitiateCall background "Hi, ready?" newWorld =
    (Returned (None, "", Some "call manager not initialized; call Initialize() first"),
     newWorld).
Proof.
  apply (InitiateCall_not_initialized background "Hi, ready?" newWorld). reflexivity.
Defined.

Lemma getCall_run (callID : string) (w : World) :
  getCall callID w = (Returned (calls (mgr w) !! callID), w).
Proof. reflexivity. Qed.

(** C10: for a call id that is not registered, [ContinueCall],
    [SpeakToUser] and [EndCall] return the "call not found" error and
    leave the world (registry, sessions, clock, trace) as it was. *)
Theorem unknown_call_not_found (ctx : Context) (callID message : string) (w : World) :
  calls (mgr w) !! callID = None ->
  ContinueCall ctx callID message w = (Returned ("", Some ("call not found: " +:+ callID)), w)
  /\ SpeakToUser ctx callID message w = (Returned (Some ("call not found: " +:+ callID)), w)
  /\ EndCall ctx callID message w = (Returned (0, Some ("call not found: " +:+ callID)), w).
Proof.
  intros Hnone.
  unfold ContinueCall, SpeakToUser, EndCall, bind.
  rewrite getCall_run, Hnone. auto.
Qed.

(** An id that was never issued, next to a live call. *)
Lemma unknown_call_not_found_witness :
  let w := listeningWorld [fragment "yes" true] stt.Closed in
  ContinueCall background "call-7-0" "Hello" w
    = (Returned ("", Some ("call not found: " +:+ "call-7-0")), w)
  /\ SpeakToUser background "call-7-0" "Hello" w
    = (Returned (Some ("call not found: " +:+ "call-7-0")), w)
  /\ EndCall background "call-7-0" "Hello" w
    = (Returned (0, Some ("call not found: " +:+ "call-7-0")), w).
Proof.
  intros w. apply (unknown_call_not_found background "call-7-0" "Hello" w).
  vm_compute. reflexivity.
Defined.
(** ** Frames of the backend interactions *)

Lemma backend_only_refl w : backend_only w w.
Proof.
  repeat split. exists []. rewrite app_nil_r. split; [reflexivity | constructor].
Qed.

Lemma backend_only_trans w1 w2 w3 :
  backend_only w1 w2 -> backend_only w2 w3 -> backend_only w1 w3.
Proof.
  intros (Hm1 & Hh1 & es1 & Ht1 & Hf1) (Hm2 & Hh2 & es2 & Ht2 & Hf2).
  repeat split; try congruence.
  exists (es1 ++ es2). split.
  - rewrite Ht2, Ht1, app_assoc. reflexivity.
  - apply Forall_app; auto.
Qed.

Lemma backend_only_emit w e : is_backend e = true -> backend_only w (emit e w).
Proof.
  intros He. repeat split. exists [e]. split; [reflexivity|]. repeat constructor. exact He.
Qed.

Lemma backend_only_emit_r w w' e :
  backend_only w w' -> is_backend e = true -> backend_only w (emit e w').
Proof. intros H He. eapply backend_only_trans; [exact H | apply backend_only_emit, He]. Qed.

Lemma streamAudio_backend tr stream w : backend_only w (streamAudio tr stream w).2.
Proof.
  revert w. induction stream as [|chunk rest IH]; intros w; simpl.
  - apply backend_only_refl.
  - destruct (tts.Error chunk) as [e|]; [apply backend_only_refl|].
    unfold bind. destruct (0 <? length (tts.Audio chunk))%nat.
    + unfold audioWrite, bind, modify, ret. simpl.
      destruct (callsystem.AudioIn tr (tts.Audio chunk)) as [e|]; simpl.
      * apply backend_only_emit; reflexivity.
      * destruct (tts.IsFinal chunk); simpl.
        -- apply backend_only_emit; reflexivity.
        -- eapply backend_only_trans; [|apply IH]. apply backend_only_emit; reflexivity.
    + unfold ret at 1. simpl. destruct (tts.IsFinal chunk); simpl.
      * apply backend_only_refl.
      * apply IH.
Qed.

(** [speak] is the append of the assistant turn followed by backend
    interactions only. *)
Lemma speak_frame ctx l message w cs :
  heap w !! l = Some cs ->
  backend_only (with_turn l "assistant" message cs w) (speak ctx l message w).2.
Proof.
  intros Hl. unfold speak. unfold bind at 1. rewrite (AddTurn_run w l cs) by exact Hl.
  remember (with_turn l "assistant" message cs w) as w1 eqn:Hw1.
  assert (Hl1 : heap w1 !! l = Some (CallState.AddTurn (clock w) "assistant" message cs))
    by (rewrite Hw1; apply lookup_insert_eq).
  unfold bind at 1, load, bind at 1, gets, deref. rewrite Hl1.
  unfold ret at 1. cbv beta iota.
  unfold bind at 1, callTransport, bind, timeNow, gets, modify, ret.
  remember (emit (EvTransport _) w1) as w2 eqn:Hw2.
  assert (H12 : backend_only w1 w2) by (rewrite Hw2; apply backend_only_emit; reflexivity).
  destruct (callsystem.Transport _ _) as [tr|]; [|exact H12].
  destruct (ttsProvider (mgr w2)) as [p|]; [|exact H12].
  unfold synthesizeStream, bind, timeNow, gets, modify, ret.
  remember (emit (EvSynthesize _ _) w2) as w3 eqn:Hw3.
  assert (H13 : backend_only w1 w3)
    by (rewrite Hw3; apply backend_only_emit_r; [exact H12|reflexivity]).
  destruct (tts.SynthesizeStream p _ _ _) as [e|stream]; [exact H13|].
  eapply backend_only_trans; [exact H13 | apply streamAudio_backend].
Qed.

(** C3: [speak] appends the assistant turn to the session's log before
    any interaction with the transport or the synthesis backend: whatever
    the outcome (success, an error, or a panic), the trace grew by the
    append followed by backend interactions only, and the last turn of the
    log is the assistant turn with the message. *)
Theorem speak_records_before_sending (ctx : Context) (l : loc) (message : string)
    (w : World) (cs : CallState) :
  heap w !! l = Some cs ->
  let turn := {| Role := "assistant"; Content := message; Timestamp := clock w |} in
  forall (r : outcome (option error)) (w' : World),
    speak ctx l message w = (r, w') ->
    (exists cs', heap w' !! l = Some cs'
                 /\ Conversation cs' = Conversation cs ++ [turn]
                 /\ last (Conversation cs') = Some turn)
    /\ exists es, trace w' = trace w ++ EvTurn l "assistant" message :: es
                  /\ Forall (fun e => is_backend e = true) es.
Proof.
  intros Hl turn r w' Hrun.
  pose proof (speak_frame ctx l message w cs Hl) as (Hm & Hh & es & Ht & Hes).
  rewrite Hrun in *. simpl in *. split.
  - exists (CallState.AddTurn (clock w) "assistant" message cs).
    rewrite Hh. split; [apply lookup_insert_eq|]. simpl. split; [reflexivity|].
    apply last_snoc.
  - exists es. split; [|exact Hes]. rewrite Ht, <- app_assoc. reflexivity.
Qed.

(** Speaking on a line whose synthesis backend rejects the text. *)
Lemma speak_records_before_sending_witness :
  let call := scriptedCall None (always callsystem.StatusAnswered) (Some openLine) in
  let w := liveWorld call (Some (synthesizer (inl "quota exceeded"))) None in
  let turn := {| Role := "assistant"; Content := "Done."; Timestamp := clock w |} in
  let run := speak background 1%positive "Done." w in
  (exists cs', heap run.2 !! 1%positive = Some cs'
               /\ Conversation cs' = Conversation (liveSession call) ++ [turn]
               /\ last (Conversation cs') = Some turn)
  /\ exists es, trace run.2 = trace w ++ EvTurn 1%positive "assistant" "Done." :: es
                /\ Forall (fun e => is_backend e = true) es.
Proof.
  intros call w turn run.
  apply (speak_records_before_sending background 1%positive "Done." w (liveSession call)
           ltac:(vm_compute; reflexivity) run.1 run.2).
  apply surjective_pairing.
Defined.

Example speak_synthesis_failure_result :
  (speak background 1%positive "Done."
     (liveWorld (scriptedCall None (always callsystem.StatusAnswered) (Some openLine))
        (Some (synthesizer (inl "quota exceeded"))) None)).1
  = Returned (Some "TTS synthesis failed: quota exceeded").
Proof. vm_compute. reflexivity. Qed.
(** ** The listen loop *)

(** Where the loop leaves the world: a nil-error return with a non-empty
    text has appended exactly the user turn carrying it; every other
    return has changed nothing. *)
Lemma listenLoop_world ctx l cs ending w :
  heap w !! l = Some cs ->
  forall events transcript,
    match listenLoop ctx l transcript events ending w with
    | (Returned (text, None), w') =>
        w' = if nonempty text then with_turn l "user" text cs w else w
    | (Returned (_, Some _), w') => w' = w
    | (Panicked _, _) => False
    end.
Proof.
  intros Hl events. induction events as [|event rest IH]; intros transcript; simpl.
  - destruct ending; try reflexivity;
      (destruct (nonempty transcript) eqn:Hne; unfold bind;
       [rewrite (AddTurn_run w l cs) by exact Hl; simpl; rewrite Hne; reflexivity
       |simpl; rewrite Hne; reflexivity]).
  - destruct (stt.Error event) as [e|]; [reflexivity|].
    destruct (stt.IsFinal event && nonempty (stt.Transcript event)) eqn:Hres.
    + apply andb_prop in Hres as [_ Hne]. unfold bind.
      rewrite (AddTurn_run w l cs) by exact Hl. simpl. rewrite Hne. reflexivity.
    + apply IH.
Qed.

(** Events that pass only move the running candidate. *)
Lemma listenLoop_passes ctx l ending w pre :
  Forall passes pre ->
  forall transcript rest,
    listenLoop ctx l transcript (pre ++ rest) ending w =
    listenLoop ctx l
      (default transcript (last (List.filter nonempty (map stt.Transcript pre))))
      rest ending w.
Proof.
  induction 1 as [|event pre [Herr Hres] _ IH]; intros transcript rest; [reflexivity|].
  simpl. rewrite Herr. unfold resolves in Hres. rewrite Hres. rewrite IH.
  destruct (nonempty (stt.Transcript event)) eqn:Hne; [|reflexivity].
  simpl. destruct (List.filter nonempty (map stt.Transcript pre)) as [|s ss] eqn:Hf;
    [reflexivity|].
  destruct (last_is_Some (s :: ss)) as [_ [x Hx]]; [discriminate|].
  change (last (stt.Transcript event :: s :: ss)) with (last (s :: ss)).
  rewrite Hx. reflexivity.
Qed.

Lemma nonempty_true s : nonempty s = true <-> s <> "".
Proof. destruct s; simpl; split; congruence. Qed.

(** The first event that resolves ends the turn with its transcript. *)
Lemma listenLoop_final ctx l cs ending w pre e post transcript :
  heap w !! l = Some cs ->
  Forall passes pre -> stt.Error e = None -> resolves e = true ->
  listenLoop ctx l transcript (pre ++ e :: post) ending w =
  (Returned (stt.Transcript e, None), with_turn l "user" (stt.Transcript e) cs w).
Proof.
  intros Hl Hpre Herr Hres. rewrite listenLoop_passes by exact Hpre.
  simpl. rewrite Herr. unfold resolves in Hres. rewrite Hres.
  unfold bind. rewrite (AddTurn_run w l cs) by exact Hl. reflexivity.
Qed.

(** Without a resolving event the ending decides, on the candidate. *)
Lemma listenLoop_ending ctx l cs ending w pre :
  heap w !! l = Some cs ->
  Forall passes pre -> ending <> stt.ContextDone ->
  listenLoop ctx l "" pre ending w =
  (Returned (candidate pre, None),
   if nonempty (candidate pre) then with_turn l "user" (candidate pre) cs w else w).
Proof.
  intros Hl Hpre Hend.
  rewrite <- (app_nil_r pre) at 1. rewrite listenLoop_passes by exact Hpre.
  fold (candidate pre). simpl.
  destruct ending; try congruence;
    (destruct (nonempty (candidate pre)) eqn:Hne; unfold bind;
     [rewrite (AddTurn_run w l cs) by exact Hl; reflexivity | reflexivity]).
Qed.
(** [listen] once the transport is there and the recognizer has opened a
    session: the loop, between the backend interactions. *)
Lemma listen_run ctx l w cs tr p run :
  heap w !! l = Some cs ->
  callsystem.Transport (Call cs) (clock w) = Some tr ->
  sttProvider (mgr w) = Some p ->
  stt.TranscribeStream p (clock w) (transcriptionConfig (config (mgr w))) = inr run ->
  listen ctx l w =
  match listenLoop ctx l "" (stt.received run) (stt.ending run)
          (emit (EvTranscribe (transcriptionConfig (config (mgr w))))
             (emit (EvTransport (callsystem.ID (Call cs))) w)) with
  | (Returned res, w') => (Returned res, emit EvWriterClose w')
  | (Panicked why, w') => (Panicked why, w')
  end.
Proof.
  intros Hl Htr Hp Hrun.
  unfold listen, load, bind, gets, deref, callTransport, timeNow, modify, ret,
    transcribeStream, bind, timeNow, gets, modify, ret.
  simpl. rewrite Hl. simpl. rewrite Htr. autorewrite with world. rewrite Hp.
  unfold ret. autorewrite with world. rewrite Hrun. reflexivity.
Qed.

(** C6: when [listen] resolves (returns a text and no error: through a
    final event, the closing of the event stream, or the timer), the
    session's log has grown by the user turn carrying the resolved text if
    that text is not empty, and nothing was appended if it is empty; no
    other session is touched. *)
Theorem listen_appends_resolved_text (ctx : Context) (l : loc) (w w' : World)
    (cs : CallState) (text : string) :
  heap w !! l = Some cs ->
  listen ctx l w = (Returned (text, None), w') ->
  (exists cs', heap w' !! l = Some cs'
     /\ Conversation cs' =
        Conversation cs ++
          (if nonempty text
           then [ {| Role := "user"; Content := text; Timestamp := clock w |} ]
           else []))
  /\ (nonempty text = false -> heap w' = heap w)
  /\ (forall l', l' <> l -> heap w' !! l' = heap w !! l').
Proof.
  intros Hl. unfold listen, load, bind, gets, deref, callTransport, timeNow, modify, ret,
    transcribeStream, bind, timeNow, gets, modify, ret.
  simpl. rewrite Hl. simpl.
  destruct (callsystem.Transport (Call cs) (clock w)) as [tr|]; [|discriminate].
  autorewrite with world.
  destruct (sttProvider (mgr w)) as [p|]; simpl; [|discriminate].
  destruct (stt.TranscribeStream p _ _) as [e|run]; simpl; [discriminate|].
  match goal with |- context [listenLoop ctx l "" ?evs ?en ?w1] =>
    pose proof (listenLoop_world ctx l cs en w1 Hl evs "") as Hloop;
    destruct (listenLoop ctx l "" evs en w1) as [[[text' [e|]]|why] w2]
  end; try discriminate.
  intros [= -> <-]. subst w2. simpl.
  destruct (nonempty text) eqn:Hne; simpl.
  - split; [|split; [discriminate|]].
    + eexists. split; [apply lookup_insert_eq|reflexivity].
    + intros l' Hne'. apply lookup_insert_ne. congruence.
  - split; [|split; [reflexivity|reflexivity]].
    exists cs. rewrite app_nil_r. auto.
Qed.

(** Listening to one final event. *)
Lemma listen_appends_resolved_text_witness :
  let call := scriptedCall None (always callsystem.StatusAnswered) (Some openLine) in
  let w := listeningWorld [fragment "yes go ahead" true] stt.TimerFired in
  exists w',
    listen background 1%positive w = (Returned ("yes go ahead", None), w')
    /\ (exists cs', heap w' !! 1%positive = Some cs'
          /\ Conversation cs' =
             [ {| Role := "user"; Content := "yes go ahead"; Timestamp := clock w |} ])
    /\ (forall l', l' <> 1%positive -> heap w' !! l' = heap w !! l').
Proof.
  intros call w. exists (listen background 1%positive w).2.
  assert (Hrun : listen background 1%positive w =
                 (Returned ("yes go ahead", None), (listen background 1%positive w).2))
    by (vm_compute; reflexivity).
  split; [exact Hrun|].
  destruct (listen_appends_resolved_text background 1%positive w _ (liveSession call)
              "yes go ahead" ltac:(vm_compute; reflexivity) Hrun) as (Hlog & _ & Hothers).
  split; [exact Hlog | exact Hothers].
Defined.

(** C2, as the code has it: an event with an error apart, the first event
    that is final with a non-empty transcript resolves the turn at once
    with its transcript, whatever follows; an event that is not final, or
    final with an empty transcript, only moves the running candidate when
    its transcript is not empty; and when no event resolves, the closing
    of the stream or the timer returns the last such candidate, possibly
    empty. *)
Theorem listen_resolution (ctx : Context) (l : loc) (w : World) (cs : CallState)
    (tr : callsystem.TransportConnection) (p : stt.StreamingProvider)
    (pre : list stt.StreamEvent) (fin : option (stt.StreamEvent * list stt.StreamEvent))
    (ending : stt.Ending) :
  heap w !! l = Some cs ->
  callsystem.Transport (Call cs) (clock w) = Some tr ->
  sttProvider (mgr w) = Some p ->
  stt.TranscribeStream p (clock w) (transcriptionConfig (config (mgr w))) =
    inr {| stt.received := pre ++ match fin with Some (e, post) => e :: post | None => [] end;
           stt.ending := ending |} ->
  Forall passes pre ->
  match fin with
  | Some (e, _) => stt.Error e = None /\ stt.IsFinal e = true /\ stt.Transcript e <> ""
  | None => ending <> stt.ContextDone
  end ->
  exists w',
    listen ctx l w =
    (Returned (match fin with Some (e, _) => stt.Transcript e | None => candidate pre end, None),
     w').
Proof.
  intros Hl Htr Hp Hrun Hpre Hfin.
  rewrite (listen_run ctx l w cs tr p _ Hl Htr Hp Hrun). simpl.
  destruct fin as [[e post]|].
  - destruct Hfin as (Herr & Hfinal & Hne).
    rewrite (listenLoop_final ctx l cs) ; [eexists; reflexivity|exact Hl|exact Hpre|exact Herr|].
    unfold resolves. rewrite Hfinal. simpl. apply nonempty_true, Hne.
  - rewrite app_nil_r.
    rewrite (listenLoop_ending ctx l cs); [eexists; reflexivity|exact Hl|exact Hpre|exact Hfin].
Qed.
(** The scenario of C2: the fragments "may" and "maybe later", neither
    final, then the stream closes. *)
Lemma listen_resolution_witness :
  exists w',
    listen background 1%positive
      (listeningWorld [fragment "may" false; fragment "maybe later" false] stt.Closed) =
    (Returned ("maybe later", None), w').
Proof.
  apply (listen_resolution background 1%positive
           (listeningWorld [fragment "may" false; fragment "maybe later" false] stt.Closed)
           (liveSession (scriptedCall None (always callsystem.StatusAnswered) (Some openLine)))
           openLine
           (recognizer (inr {| stt.received := [fragment "may" false; fragment "maybe later" false];
                               stt.ending := stt.Closed |}))
           [fragment "may" false; fragment "maybe later" false] None stt.Closed).
  - vm_compute. reflexivity.
  - reflexivity.
  - reflexivity.
  - reflexivity.
  - repeat constructor.
  - discriminate.
Defined.

(** C2 as stated fails: a final event with an empty transcript does not
    resolve the turn.  The recognizer sends a final event with the empty
    transcript, then the fragment "later", then closes the stream: the
    loop does not return the final event's transcript but goes on and
    resolves to "later". *)
Lemma listen_final_empty_does_not_resolve :
  let first := fragment "" true in
  let w := listeningWorld [first; fragment "later" false] stt.Closed in
  stt.IsFinal first = true
  /\ (listen background 1%positive w).1 = Returned ("later", None)
  /\ (listen background 1%positive w).1 <> Returned (stt.Transcript first, None).
Proof.
  vm_compute. split; [reflexivity|]. split; [reflexivity|]. discriminate.
Qed.
(** ** Sessions are kept by speaking and listening *)

Lemma sessions_kept_refl w : sessions_kept w w.
Proof. split; [reflexivity|]. intros l cs Hl. exists cs. auto. Qed.

Lemma sessions_kept_trans w1 w2 w3 :
  sessions_kept w1 w2 -> sessions_kept w2 w3 -> sessions_kept w1 w3.
Proof.
  intros [Hm1 Hs1] [Hm2 Hs2]. split; [congruence|].
  intros l cs Hl. destruct (Hs1 l cs Hl) as (cs1 & Hl1 & Hid1 & Hc1).
  destruct (Hs2 l cs1 Hl1) as (cs2 & Hl2 & Hid2 & Hc2).
  exists cs2. repeat split; congruence.
Qed.

Lemma backend_only_kept w w' : backend_only w w' -> sessions_kept w w'.
Proof.
  intros (Hm & Hh & _). split; [exact Hm|]. intros l cs Hl. exists cs. rewrite Hh. auto.
Qed.

Lemma emit_kept e w : sessions_kept w (emit e w).
Proof. split; [reflexivity|]. intros l cs Hl. exists cs. auto. Qed.

Lemma with_turn_kept l role content cs w :
  heap w !! l = Some cs -> sessions_kept w (with_turn l role content cs w).
Proof.
  intros Hl. split; [reflexivity|]. intros l' cs' Hl'. unfold with_turn.
  autorewrite with world. destruct (decide (l' = l)) as [->|Hne].
  - rewrite lookup_insert_eq. eexists. split; [reflexivity|].
    assert (cs' = cs) by congruence. subst. auto.
  - rewrite lookup_insert_ne by congruence. exists cs'. auto.
Qed.

Lemma speak_kept ctx l message w : sessions_kept w (speak ctx l message w).2.
Proof.
  destruct (heap w !! l) as [cs|] eqn:Hl.
  - eapply sessions_kept_trans; [apply (with_turn_kept l "assistant" message cs w Hl)|].
    apply backend_only_kept, speak_frame, Hl.
  - unfold speak, bind. rewrite AddTurn_dangling by exact Hl. apply sessions_kept_refl.
Qed.

Lemma listenLoop_kept ctx l transcript events ending w :
  sessions_kept w (listenLoop ctx l transcript events ending w).2.
Proof.
  destruct (heap w !! l) as [cs|] eqn:Hl.
  - pose proof (listenLoop_world ctx l cs ending w Hl events transcript) as H.
    destruct (listenLoop _ _ _ _ _ _) as [[[text [e|]]|why] w']; simpl.
    + subst. apply sessions_kept_refl.
    + subst. destruct (nonempty text); [apply with_turn_kept, Hl|apply sessions_kept_refl].
    + destruct H.
  - revert transcript. induction events as [|event rest IH]; intros transcript; simpl.
    + destruct ending; try apply sessions_kept_refl;
        (destruct (nonempty transcript); unfold bind;
         [rewrite AddTurn_dangling by exact Hl|]; apply sessions_kept_refl).
    + destruct (stt.Error event); [apply sessions_kept_refl|].
      destruct (stt.IsFinal event && nonempty (stt.Transcript event)); [|apply IH].
      unfold bind. rewrite AddTurn_dangling by exact Hl. apply sessions_kept_refl.
Qed.

Lemma listen_kept ctx l w : sessions_kept w (listen ctx l w).2.
Proof.
  unfold listen, load, bind, gets, deref, callTransport, timeNow, modify, ret, panic,
    transcribeStream, bind, timeNow, gets, modify, ret.
  simpl. destruct (heap w !! l) as [cs|]; simpl; [|apply sessions_kept_refl].
  destruct (callsystem.Transport (Call cs) (clock w)) as [tr|]; [|apply emit_kept].
  autorewrite with world.
  destruct (sttProvider (mgr w)) as [p|]; simpl; [|apply emit_kept].
  destruct (stt.TranscribeStream p _ _) as [e|run]; simpl.
  - eapply sessions_kept_trans; apply emit_kept.
  - match goal with |- context [listenLoop ctx l "" ?evs ?en ?w1] =>
      pose proof (listenLoop_kept ctx l "" evs en w1) as Hloop;
      destruct (listenLoop ctx l "" evs en w1) as [[res|why] w2]
    end; simpl in *.
    + eapply sessions_kept_trans; [|apply emit_kept].
      eapply sessions_kept_trans; [|exact Hloop].
      eapply sessions_kept_trans; apply emit_kept.
    + eapply sessions_kept_trans; [|exact Hloop].
      eapply sessions_kept_trans; apply emit_kept.
Qed.

Lemma speakAndListen_kept ctx l message w :
  sessions_kept w (speakAndListen ctx l message w).2.
Proof.
  unfold speakAndListen, bind.
  pose proof (speak_kept ctx l message w) as Hs.
  destruct (speak ctx l message w) as [[[e|]|why] w1]; simpl in *; try exact Hs.
  pose proof (listen_kept ctx l w1) as Hl.
  destruct (listen ctx l w1) as [[[text [e|]]|why] w2]; simpl in *;
    eapply sessions_kept_trans; eauto.
Qed.

(** ** The answer wait *)

Lemma pollTime_0 lg t0 : pollTime lg t0 0 = t0.
Proof. reflexivity. Qed.

Lemma pollTime_S lg t0 k :
  pollTime lg t0 (S k) = pollTime lg (t0 + 500 * Millisecond + Z.of_N (lg t0)) k.
Proof. reflexivity. Qed.

Lemma pollTime_ge lg k : forall t0, t0 <= pollTime lg t0 k.
Proof.
  induction k as [|k IH]; intros t0; [reflexivity|].
  rewrite pollTime_S. specialize (IH (t0 + 500 * Millisecond + Z.of_N (lg t0))).
  unfold Millisecond in *. lia.
Qed.

Lemma answered_at_shift lg ctx call t0 deadline :
  Done ctx t0 = false ->
  pending (callsystem.Status call t0) = true ->
  (exists k, answered_at lg ctx call t0 deadline k) <->
  (exists k, answered_at lg ctx call (t0 + 500 * Millisecond + Z.of_N (lg t0)) deadline k).
Proof.
  intros Hd Hp. split.
  - intros [k (Hlt & Hdk & Hans & Hbefore)]. destruct k as [|k].
    + rewrite pollTime_0 in Hans. rewrite Hans in Hp. discriminate.
    + exists k. rewrite pollTime_S in Hlt, Hdk, Hans.
      split; [exact Hlt|]. split; [exact Hdk|]. split; [exact Hans|].
      intros j Hj. specialize (Hbefore (S j) ltac:(lia)).
      rewrite pollTime_S in Hbefore. exact Hbefore.
  - intros [k (Hlt & Hdk & Hans & Hbefore)]. exists (S k).
    unfold answered_at. rewrite pollTime_S.
    split; [exact Hlt|]. split; [exact Hdk|]. split; [exact Hans|].
    intros j Hj. destruct j as [|j].
    + rewrite pollTime_0. auto.
    + rewrite pollTime_S. apply Hbefore. lia.
Qed.

(** With enough fuel to reach the deadline, the loop returns, having
    touched only the signaling backend and the clock, and it returns
    [true] exactly when a poll before the deadline finds the call
    answered. *)
Lemma waitLoop_spec ctx call deadline fuel :
  forall w,
    deadline <= clock w + Z.of_nat fuel * (500 * Millisecond) ->
    exists b w',
      waitLoop fuel ctx call deadline w = (Returned b, w')
      /\ backend_only w w'
      /\ lag w' = lag w
      /\ (b = true <-> exists k, answered_at (lag w) ctx call (clock w) deadline k).
Proof.
  induction fuel as [|fuel IH]; intros w Hfuel.
  - exists false, w. split; [reflexivity|]. split; [apply backend_only_refl|].
    split; [reflexivity|].
    split; [discriminate|]. intros [k (Hlt & _)].
    pose proof (pollTime_ge (lag w) k (clock w)). lia.
  - cbn [waitLoop]. unfold bind at 1, timeNow, gets.
    destruct (Z.ltb_spec (clock w) deadline) as [Hlt|Hge].
    2:{ exists false, w. split; [reflexivity|]. split; [apply backend_only_refl|].
        split; [reflexivity|].
        split; [discriminate|]. intros [k (Hk & _)].
        pose proof (pollTime_ge (lag w) k (clock w)). lia. }
    destruct (Done ctx (clock w)) eqn:Hdone.
    { exists false, w. split; [reflexivity|]. split; [apply backend_only_refl|].
      split; [reflexivity|].
      split; [discriminate|]. intros [k (_ & Hdk & _ & Hbefore)].
      destruct k as [|k]; [rewrite pollTime_0 in Hdk; congruence|].
      destruct (Hbefore 0%nat ltac:(lia)) as [Hd0 _]. rewrite pollTime_0 in Hd0. congruence. }
    unfold bind at 1, callStatus, bind, timeNow, gets, modify, ret.
    autorewrite with world.
    assert (Hb1 : backend_only w (emit (EvStatus (callsystem.ID call)) w))
      by (apply backend_only_emit; reflexivity).
    assert (Hno : forall s, callsystem.Status call (clock w) = s -> pending s = false ->
                  s <> callsystem.StatusAnswered ->
                  ~ exists k, answered_at (lag w) ctx call (clock w) deadline k).
    { intros s Hs Hp Hna [k (_ & _ & Hans & Hbefore)]. destruct k as [|k].
      - rewrite pollTime_0 in Hans. congruence.
      - destruct (Hbefore 0%nat ltac:(lia)) as [_ Hp0]. rewrite pollTime_0 in Hp0. congruence. }
    destruct (callsystem.Status call (clock w)) as [| | | | |name] eqn:Hstatus.
    + exists true, (emit (EvStatus (callsystem.ID call)) w).
      split; [reflexivity|]. split; [exact Hb1|]. split; [reflexivity|]. split; [|reflexivity].
      intros _. exists 0%nat. unfold answered_at. rewrite pollTime_0.
      split; [exact Hlt|]. split; [exact Hdone|]. split; [exact Hstatus|]. intros j Hj. lia.
    + exists false, (emit (EvStatus (callsystem.ID call)) w).
      split; [reflexivity|]. split; [exact Hb1|]. split; [reflexivity|]. split; [discriminate|].
      intros H. exfalso. eapply (Hno _ eq_refl); [reflexivity|discriminate|exact H].
    + exists false, (emit (EvStatus (callsystem.ID call)) w).
      split; [reflexivity|]. split; [exact Hb1|]. split; [reflexivity|]. split; [discriminate|].
      intros H. exfalso. eapply (Hno _ eq_refl); [reflexivity|discriminate|exact H].
    + exists false, (emit (EvStatus (callsystem.ID call)) w).
      split; [reflexivity|]. split; [exact Hb1|]. split; [reflexivity|]. split; [discriminate|].
      intros H. exfalso. eapply (Hno _ eq_refl); [reflexivity|discriminate|exact H].
    + exists false, (emit (EvStatus (callsystem.ID call)) w).
      split; [reflexivity|]. split; [exact Hb1|]. split; [reflexivity|]. split; [discriminate|].
      intros H. exfalso. eapply (Hno _ eq_refl); [reflexivity|discriminate|exact H].
    + unfold timeSleep, modify.
      match goal with |- context [waitLoop fuel ctx call deadline ?w1] =>
        destruct (IH w1) as (b & w' & Hrun & Hback & Hlag & Hiff) end.
      { autorewrite with world. unfold Millisecond in *. lia. }
      exists b, w'. split; [exact Hrun|]. split.
      { eapply backend_only_trans; [|exact Hback].
        eapply backend_only_trans; [exact Hb1|].
        repeat split. exists [EvSleep (500 * Millisecond)]. split; [reflexivity|].
        repeat constructor. }
      split; [rewrite Hlag; reflexivity|].
      rewrite Hiff. autorewrite with world. symmetry.
      apply answered_at_shift; [exact Hdone|]. rewrite Hstatus. reflexivity.
Qed.

Lemma polls_enough timeout : timeout <= Z.of_nat (S (polls timeout)) * (500 * Millisecond).
Proof.
  unfold polls, Millisecond.
  destruct (Z.le_gt_cases timeout 0) as [Hle|Hgt]; [lia|].
  rewrite Nat2Z.inj_succ, Z2Nat.id by (apply Z.div_pos; lia).
  pose proof (Z.mod_pos_bound (timeout + 500 * 1000000 - 1) (500 * 1000000) ltac:(lia)).
  pose proof (Z.div_mod (timeout + 500 * 1000000 - 1) (500 * 1000000) ltac:(lia)).
  lia.
Qed.

Lemma waitForAnswer_spec ctx call timeout w :
  exists b w',
    waitForAnswer ctx call timeout w = (Returned b, w')
    /\ backend_only w w'
    /\ lag w' = lag w
    /\ (b = true <-> reaches_Answered (lag w) ctx call (clock w) timeout).
Proof.
  unfold waitForAnswer, bind, timeNow, gets, reaches_Answered.
  apply waitLoop_spec. pose proof (polls_enough timeout). lia.
Qed.
(** The three ways not to reach Answered. *)

Lemma cancelled_never_answered lg ctx call t0 timeout :
  Done ctx t0 = true -> ~ reaches_Answered lg ctx call t0 timeout.
Proof.
  intros Hdone [k (_ & Hdk & _ & Hbefore)]. destruct k as [|k].
  - rewrite pollTime_0 in Hdk. congruence.
  - destruct (Hbefore 0%nat ltac:(lia)) as [Hd0 _]. rewrite pollTime_0 in Hd0. congruence.
Qed.

Lemma terminal_never_answered lg ctx call t0 timeout :
  callsystem.Status call t0 <> callsystem.StatusAnswered ->
  pending (callsystem.Status call t0) = false ->
  ~ reaches_Answered lg ctx call t0 timeout.
Proof.
  intros Hna Hterm [k (_ & _ & Hans & Hbefore)]. destruct k as [|k].
  - rewrite pollTime_0 in Hans. congruence.
  - destruct (Hbefore 0%nat ltac:(lia)) as [_ Hp0]. rewrite pollTime_0 in Hp0. congruence.
Qed.

Lemma ringing_never_answered lg ctx call t0 timeout :
  (forall t, t0 <= t < t0 + timeout ->
             callsystem.Status call t <> callsystem.StatusAnswered) ->
  ~ reaches_Answered lg ctx call t0 timeout.
Proof.
  intros Hring [k (Hlt & _ & Hans & _)].
  apply (Hring (pollTime lg t0 k)); [|exact Hans].
  split; [apply pollTime_ge|exact Hlt].
Qed.

(** ** InitiateCall *)

(** [InitiateCall] on an initialized manager whose dial succeeds: the
    session is registered, then the answer wait decides. *)
Lemma InitiateCall_dialed ctx message w csys call :
  callSystem (mgr w) = Some csys ->
  callsystem.MakeCall csys (clock w) (config.UserPhoneNumber (config (mgr w))) = inr call ->
  InitiateCall ctx message w =
  (answered <- waitForAnswer ctx call (30 * Second) ;;
   if negb answered then
     callHangup call ;;
     removeCall (newCallID w) ;;
     ret (None, "", Some "call not answered")
   else
     res <- speakAndListen ctx (newLoc w) message ;;
     match res with
     | (_, Some e) => ret (Some (newLoc w), "", Some ("failed to speak: " +:+ e))
     | (response, None) => ret (Some (newLoc w), response, None)
     end) (dialedWorld w call).
Proof.
  intros Hcs Hdial.
  unfold InitiateCall. unfold bind at 1, gets. rewrite Hcs.
  unfold bind at 1, makeCall, bind, timeNow, gets, modify, ret. rewrite Hdial.
  unfold generateCallID, bind, timeNow, gets, modify, ret, alloc, store, registerCall,
    bind, gets, modify, ret.
  unfold dialedWorld, newCallID, newLoc, nextCallID. cbv zeta. cbn [fst snd].
  unfold bind, modify, ret, set_mgr, set_heap, emit. cbn [mgr heap clock trace].
  reflexivity.
Qed.

(** C4: when the dialed call does not reach Answered within the bounded
    wait (a terminal status is polled, the deadline passes, or the context
    is done), [InitiateCall] hangs up, ignoring the result, removes the
    session and fails with "call not answered"; the registry then holds no
    session under the id of that call, and is what it was before, less
    that id. *)
Theorem InitiateCall_not_answered_evicts (ctx : Context) (message : string) (w : World)
    (csys : callsystem.CallSystem) (call : callsystem.Call) :
  callSystem (mgr w) = Some csys ->
  callsystem.MakeCall csys (clock w) (config.UserPhoneNumber (config (mgr w))) = inr call ->
  ~ reaches_Answered (lag w) ctx call (clock w) (30 * Second) ->
  exists w',
    InitiateCall ctx message w = (Returned (None, "", Some "call not answered"), w')
    /\ calls (mgr w') !! newCallID w = None
    /\ calls (mgr w') = delete (newCallID w) (calls (mgr w))
    /\ exists es, trace w' = trace w ++ es ++ [EvHangup (callsystem.ID call)]
                  /\ Forall (fun e => is_backend e = true) es.
Proof.
  intros Hcs Hdial Hna.
  rewrite (InitiateCall_dialed ctx message w csys call Hcs Hdial).
  destruct (waitForAnswer_spec ctx call (30 * Second) (dialedWorld w call))
    as (b & w1 & Hwait & (Hm & Hh & es & Ht & Hes) & _ & Hiff).
  unfold bind at 1. rewrite Hwait.
  destruct b; [exfalso; apply Hna; apply Hiff; reflexivity|].
  cbn [negb]. unfold callHangup, removeCall, bind, timeNow, gets, modify, ret.
  eexists. split; [reflexivity|]. autorewrite with world. rewrite Hm.
  unfold dialedWorld. cbn [mgr]. autorewrite with world.
  split; [apply lookup_delete_eq|]. split; [apply delete_insert_eq|].
  exists (EvMakeCall (config.UserPhoneNumber (config (mgr w))) :: es).
  split.
  - rewrite Ht. unfold dialedWorld. cbn [trace]. rewrite <- !app_assoc. reflexivity.
  - constructor; [reflexivity|exact Hes].
Qed.

(** C5: when the call reaches Answered, [InitiateCall] returns what the
    speak-and-listen phase returns on the registered session: its error,
    if any, is surfaced as "failed to speak" together with the session
    pointer.  Whatever the outcome, the session stays registered under its
    call id, with the pointer that is returned. *)
Theorem InitiateCall_failure_after_answer_keeps_session (ctx : Context) (message : string)
    (w : World) (csys : callsystem.CallSystem) (call : callsystem.Call) :
  callSystem (mgr w) = Some csys ->
  callsystem.MakeCall csys (clock w) (config.UserPhoneNumber (config (mgr w))) = inr call ->
  reaches_Answered (lag w) ctx call (clock w) (30 * Second) ->
  forall r w',
    InitiateCall ctx message w = (r, w') ->
    (exists w1,
       backend_only (dialedWorld w call) w1
       /\ w' = (speakAndListen ctx (newLoc w) message w1).2
       /\ r = match (speakAndListen ctx (newLoc w) message w1).1 with
              | Returned (_, Some e) =>
                  Returned (Some (newLoc w), "", Some ("failed to speak: " +:+ e))
              | Returned (response, None) => Returned (Some (newLoc w), response, None)
              | Panicked why => Panicked why
              end)
    /\ (exists cs, calls (mgr w') !! newCallID w = Some (newLoc w)
                   /\ heap w' !! newLoc w = Some cs
                   /\ ID cs = newCallID w /\ Call cs = call)
    /\ match r with
       | Returned (state, response, Some e) =>
           state = Some (newLoc w) /\ response = ""
           /\ exists e', e = "failed to speak: " +:+ e'
       | Returned (state, _, None) => state = Some (newLoc w)
       | Panicked _ => True
       end.
Proof.
  intros Hcs Hdial Hans r w'.
  rewrite (InitiateCall_dialed ctx message w csys call Hcs Hdial).
  destruct (waitForAnswer_spec ctx call (30 * Second) (dialedWorld w call))
    as (b & w1 & Hwait & Hback & _ & Hiff).
  unfold bind at 1. rewrite Hwait.
  destruct b; [|apply Hiff in Hans; discriminate].
  cbn [negb]. unfold bind.
  pose proof (speakAndListen_kept ctx (newLoc w) message w1) as Hkept.
  assert (Hreg : sessions_kept (dialedWorld w call) (speakAndListen ctx (newLoc w) message w1).2).
  { eapply sessions_kept_trans; [apply backend_only_kept, Hback|exact Hkept]. }
  destruct Hreg as [Hm Hs].
  destruct (Hs (newLoc w) (newSession w call)) as (cs & Hl & Hid & Hcall).
  { unfold dialedWorld. cbn [heap]. apply lookup_insert_eq. }
  assert (Hcalls : calls (mgr (speakAndListen ctx (newLoc w) message w1).2) !! newCallID w
                   = Some (newLoc w)).
  { rewrite Hm. unfold dialedWorld. cbn [mgr]. autorewrite with world.
    apply lookup_insert_eq. }
  intros Hrun. split; [exists w1; split; [exact Hback|]|].
  - destruct (speakAndListen ctx (newLoc w) message w1) as [[[response [e|]]|why] w2];
      unfold ret in Hrun; injection Hrun as <- <-; auto.
  - destruct (speakAndListen ctx (newLoc w) message w1) as [[[response [e|]]|why] w2];
      unfold ret in Hrun; injection Hrun as <- <-; (split; [exists cs; auto|]); eauto.
Qed.
(** A call that rings and is never answered: the registry stays empty. *)
Lemma InitiateCall_not_answered_evicts_witness :
  let call := scriptedCall None (always (callsystem.StatusPending "ringing")) (Some openLine) in
  let w := idleWorld (inr call) None None in
  exists w',
    InitiateCall background "Hi, ready?" w = (Returned (None, "", Some "call not answered"), w')
    /\ calls (mgr w') !! newCallID w = None
    /\ calls (mgr w') = delete (newCallID w) (calls (mgr w))
    /\ exists es, trace w' = trace w ++ es ++ [EvHangup (callsystem.ID call)]
                  /\ Forall (fun e => is_backend e = true) es.
Proof.
  intros call w.
  apply (InitiateCall_not_answered_evicts background "Hi, ready?" w (dialer (inr call)) call).
  - reflexivity.
  - reflexivity.
  - intros [k (_ & _ & Hans & _)]. discriminate Hans.
Defined.

(** A call that is answered at once but has no transport yet: speaking
    fails and the session stays registered. *)
Lemma InitiateCall_failure_after_answer_keeps_session_witness :
  let call := scriptedCall None (always callsystem.StatusAnswered) None in
  let w := idleWorld (inr call) None None in
  let run := InitiateCall background "Hi, ready?" w in
  run.1 = Returned (Some 1%positive, "",
                    Some "failed to speak: no transport connection available")
  /\ (exists cs, calls (mgr run.2) !! newCallID w = Some (newLoc w)
                 /\ heap run.2 !! newLoc w = Some cs
                 /\ ID cs = newCallID w /\ Call cs = call).
Proof.
  intros call w run. split; [vm_compute; reflexivity|].
  apply (InitiateCall_failure_after_answer_keeps_session background "Hi, ready?" w
           (dialer (inr call)) call) with (r := run.1).
  - reflexivity.
  - reflexivity.
  - exists 0%nat. split; [reflexivity|]. split; [reflexivity|]. split; [reflexivity|].
    intros j Hj. lia.
  - apply surjective_pairing.
Defined.


(** ** Call ids *)

Lemma append_cons a s t : String a s +:+ t = String a (s +:+ t).
Proof. reflexivity. Qed.

Lemma append_nil_l t : "" +:+ t = t.
Proof. reflexivity. Qed.

Lemma append_nil_r s : s +:+ "" = s.
Proof. induction s as [|a s IH]; [reflexivity|]. rewrite append_cons, IH. reflexivity. Qed.

Lemma append_assoc s t u : (s +:+ t) +:+ u = s +:+ (t +:+ u).
Proof.
  induction s as [|a s IH]; [reflexivity|]. rewrite !append_cons, IH. reflexivity.
Qed.

Lemma pretty_N_char_digit x : is_digit (pretty_N_char x) = true.
Proof. unfold pretty_N_char. repeat case_match; reflexivity. Qed.

Lemma all_digits_app d1 d2 :
  all_digits d1 = true -> all_digits d2 = true -> all_digits (d1 +:+ d2) = true.
Proof.
  induction d1 as [|a d1 IH]; [auto|].
  rewrite append_cons. simpl. intros [Ha Hd]%andb_prop Hd2. rewrite Ha. simpl. auto.
Qed.

(** The digits written in front of the accumulator. *)
Lemma pretty_N_go_digits x :
  forall s, exists d,
    pretty_N_go x s = d +:+ s /\ all_digits d = true /\ ((0 < x)%N -> d <> "").
Proof.
  induction (N.lt_wf_0 x) as [x _ IH]. intros s.
  destruct (decide (x = 0)%N) as [->|Hx].
  - exists "". rewrite pretty_N_go_0. split; [reflexivity|]. split; [reflexivity|]. lia.
  - rewrite pretty_N_go_step by lia.
    destruct (IH (x `div` 10)%N ltac:(apply N.div_lt; lia)
                (String (pretty_N_char (x `mod` 10)) s)) as (d & Hd & Hdig & _).
    exists (d +:+ String (pretty_N_char (x `mod` 10)) "").
    split; [|split].
    + rewrite Hd, append_assoc. reflexivity.
    + apply all_digits_app; [exact Hdig|]. simpl. rewrite pretty_N_char_digit. reflexivity.
    + intros _. destruct d; discriminate.
Qed.

Lemma pretty_N_digits (x : N) : all_digits (pretty x) = true /\ pretty x <> "".
Proof.
  unfold pretty, pretty_N. destruct (decide (x = 0)%N) as [->|Hx].
  - split; [reflexivity|discriminate].
  - destruct (pretty_N_go_digits x "") as (d & Hd & Hdig & Hne).
    rewrite Hd, append_nil_r. split; [exact Hdig|]. apply Hne. lia.
Qed.

(** Two runs of digits, each followed by a dash, that agree as prefixes
    of one string are the same run. *)
Lemma digits_dash_split d1 :
  forall d2 r1 r2,
    all_digits d1 = true -> all_digits d2 = true ->
    d1 +:+ String "-" r1 = d2 +:+ String "-" r2 -> d1 = d2.
Proof.
  induction d1 as [|a d1 IH]; intros [|b d2] r1 r2; rewrite ?append_cons, ?append_nil_l;
    simpl; intros H1 H2 Heq.
  - reflexivity.
  - injection Heq as <- _. apply andb_prop in H2 as [Hb _]. discriminate Hb.
  - injection Heq as -> _. apply andb_prop in H1 as [Ha _]. discriminate Ha.
  - injection Heq as -> Heq. apply andb_prop in H1 as [_ H1]. apply andb_prop in H2 as [_ H2].
    f_equal. eapply IH; eauto.
Qed.

Lemma pretty_Z_cases (z : Z) :
  (all_digits (pretty z) = true /\ pretty z <> "")
  \/ exists d, pretty z = String "-" d /\ all_digits d = true /\ d <> "".
Proof.
  destruct z as [|p|p].
  - left. split; [reflexivity|discriminate].
  - left. exact (pretty_N_digits (N.pos p)).
  - right. exists (pretty (N.pos p)). split; [reflexivity|]. exact (pretty_N_digits (N.pos p)).
Qed.

(** The decimal numeral in front of a dash determines the number. *)
Lemma pretty_Z_dash_inj (c1 c2 : Z) (r1 r2 : string) :
  pretty c1 +:+ String "-" r1 = pretty c2 +:+ String "-" r2 -> c1 = c2.
Proof.
  intros Heq. apply (inj pretty).
  destruct (pretty_Z_cases c1) as [[Hd1 Hn1]|(d1 & He1 & Hd1 & Hn1)];
    destruct (pretty_Z_cases c2) as [[Hd2 Hn2]|(d2 & He2 & Hd2 & Hn2)].
  - eapply digits_dash_split; eauto.
  - rewrite He2 in Heq. destruct (pretty c1) as [|a s]; [congruence|].
    rewrite !append_cons in Heq. injection Heq as -> _. apply andb_prop in Hd1 as [Ha _]. discriminate Ha.
  - rewrite He1 in Heq. destruct (pretty c2) as [|a s]; [congruence|].
    rewrite !append_cons in Heq. injection Heq as <- _. apply andb_prop in Hd2 as [Ha _]. discriminate Ha.
  - rewrite He1, He2 in *. rewrite !append_cons in Heq. injection Heq as Heq. f_equal.
    eapply digits_dash_split; eauto.
Qed.

Lemma nextCallID_inj_counter c1 c2 t1 t2 :
  (nextCallID c1 t1).2 = (nextCallID c2 t2).2 -> wrap64 (c1 + 1) = wrap64 (c2 + 1).
Proof.
  unfold nextCallID. cbn [snd]. intros Heq.
  rewrite !append_cons, !append_nil_l in Heq.
  injection Heq as Heq. exact (pretty_Z_dash_inj _ _ _ _ Heq).
Qed.
Lemma generateCallID_run w :
  generateCallID w =
  (Returned (nextCallID (callCounter (mgr w)) (clock w)).2,
   set_mgr (set_callCounter (nextCallID (callCounter (mgr w)) (clock w)).1 (mgr w)) w).
Proof. reflexivity. Qed.

Lemma generateCallIDs_run clocks :
  forall w, exists w',
    generateCallIDs clocks w = (Returned (callIDsFrom (callCounter (mgr w)) clocks), w').
Proof.
  induction clocks as [|now rest IH]; intros w.
  - exists w. reflexivity.
  - cbn [generateCallIDs callIDsFrom]. unfold bind, modify.
    rewrite generateCallID_run.
    match goal with |- context [generateCallIDs rest ?w1] =>
      destruct (IH w1) as [w' Hrun]; rewrite Hrun end.
    autorewrite with world. eexists. reflexivity.
Qed.

Lemma wrap64_add_l a b : wrap64 (wrap64 a + b) = wrap64 (a + b).
Proof.
  unfold wrap64.
  replace ((a + 2 ^ 63) `mod` 2 ^ 64 - 2 ^ 63 + b + 2 ^ 63)
    with ((a + 2 ^ 63) `mod` 2 ^ 64 + b) by lia.
  rewrite Z.add_mod_idemp_l by lia. f_equal. f_equal. lia.
Qed.

Lemma wrap64_eq a b : wrap64 a = wrap64 b -> (a - b) `mod` 2 ^ 64 = 0.
Proof.
  unfold wrap64. intros H.
  assert (Hm : (a + 2 ^ 63) `mod` 2 ^ 64 = (b + 2 ^ 63) `mod` 2 ^ 64) by lia.
  replace (a - b) with ((a + 2 ^ 63) - (b + 2 ^ 63)) by lia.
  rewrite Zminus_mod, Hm, Z.sub_diag. reflexivity.
Qed.

(** The id of the invocation of index [i] carries the counter advanced
    [i + 1] times. *)
Lemma callIDsFrom_lookup clocks :
  forall counter i id,
    callIDsFrom counter clocks !! i = Some id ->
    exists now, id = (nextCallID (counter + Z.of_nat i) now).2.
Proof.
  induction clocks as [|now rest IH]; intros counter i id; [discriminate|].
  destruct i as [|i]; cbn [callIDsFrom].
  - intros [= <-]. exists now. rewrite Z.add_0_r. reflexivity.
  - intros Hl. apply IH in Hl as [now' ->]. exists now'.
    unfold nextCallID. cbn [fst snd].
    rewrite <- Z.add_assoc, wrap64_add_l.
    replace (counter + 1 + (Z.of_nat i + 1)) with (counter + Z.of_nat (S i) + 1) by lia.
    reflexivity.
Qed.

(** C8: the ids returned by two distinct invocations of the generator are
    different strings, as long as fewer than 2^64 invocations (the range of
    the counter) lie between them; the clock readings play no role. *)
Theorem generateCallID_unique (clocks : list Time) (w : World) (ids : list string)
    (w' : World) (i j : nat) (id_i id_j : string) :
  generateCallIDs clocks w = (Returned ids, w') ->
  (i < j)%nat -> Z.of_nat j - Z.of_nat i < 2 ^ 64 ->
  ids !! i = Some id_i -> ids !! j = Some id_j ->
  id_i <> id_j.
Proof.
  intros Hrun Hij Hgap Hi Hj Heq.
  destruct (generateCallIDs_run clocks w) as [w'' Hrun'].
  rewrite Hrun' in Hrun. injection Hrun as <- _.
  apply callIDsFrom_lookup in Hi as [ti ->]. apply callIDsFrom_lookup in Hj as [tj ->].
  apply nextCallID_inj_counter, wrap64_eq in Heq.
  replace (callCounter (mgr w) + Z.of_nat i + 1 - (callCounter (mgr w) + Z.of_nat j + 1))
    with (- (Z.of_nat j - Z.of_nat i)) in Heq by lia.
  apply Z.mod_opp_l_z in Heq; [|lia].
  replace (- - (Z.of_nat j - Z.of_nat i)) with (Z.of_nat j - Z.of_nat i) in Heq by lia.
  rewrite Z.mod_small in Heq by lia. lia.
Qed.

Lemma generateCallID_unique_witness :
  let w := idleWorld (inl "unused") None None in
  let run := generateCallIDs [0; 0; 1000000000] w in
  run.1 = Returned ["call-1-0"; "call-2-0"; "call-3-1"]
  /\ "call-1-0" <> "call-2-0".
Proof.
  intros w run.
  assert (Hrun : generateCallIDs [0; 0; 1000000000] w =
                 (Returned ["call-1-0"; "call-2-0"; "call-3-1"], run.2))
    by (vm_compute; reflexivity).
  split; [exact (f_equal fst Hrun)|].
  apply (generateCallID_unique [0; 0; 1000000000] w _ run.2 0 1 "call-1-0" "call-2-0" Hrun).
  - lia.
  - vm_compute. reflexivity.
  - reflexivity.
  - reflexivity.
Defined.
(** ** EndCall *)

(** What [EndCall] does to the registry of a registered call: it removes
    the id when the hangup succeeds, and only then. *)
Lemma EndCall_registry ctx callID message w l cs :
  calls (mgr w) !! callID = Some l ->
  heap w !! l = Some cs ->
  match EndCall ctx callID message w with
  | (Returned (_, None), w') => calls (mgr w') = delete callID (calls (mgr w))
  | (Returned (_, Some e), w') =>
      calls (mgr w') = calls (mgr w) /\ exists e', e = "failed to hangup: " +:+ e'
  | (Panicked _, w') => calls (mgr w') = calls (mgr w)
  end.
Proof.
  intros Hreg Hl. unfold EndCall. unfold bind at 1. rewrite getCall_run, Hreg.
  unfold bind at 1.
  assert (Hfirst : exists o w1,
    (if nonempty message then speak ctx l message;; timeSleep (2 * Second) else ret tt) w
    = (o, w1) /\ sessions_kept w w1).
  { destruct (nonempty message).
    - unfold bind. pose proof (speak_kept ctx l message w) as Hk.
      destruct (speak ctx l message w) as [[r|why] w1]; simpl in Hk.
      + eexists _, _. split; [reflexivity|].
        unfold timeSleep, modify. destruct Hk as [Hm Hs]. split; [exact Hm|exact Hs].
      + eexists _, _. split; [reflexivity|exact Hk].
    - eexists _, _. split; [reflexivity|apply sessions_kept_refl]. }
  destruct Hfirst as (o & w1 & -> & [Hm Hs]).
  destruct o as [[]|why]; [|rewrite Hm; reflexivity].
  destruct (Hs l cs Hl) as (cs1 & Hl1 & _ & _).
  unfold load, bind, gets, deref, timeNow, callHangup, bind, timeNow, gets, modify, ret,
    removeCall, modify.
  rewrite Hl1. autorewrite with world.
  destruct (callsystem.Hangup (Call cs1) (clock w1)) as [e|]; autorewrite with world.
  - rewrite Hm. eauto.
  - rewrite Hm. reflexivity.
Qed.

(** C1 fails on the code: a hangup that fails makes [EndCall] return
    before the removal.  The call ["call-1-0"] is registered and its leg
    refuses the hangup: [EndCall] returns the hangup error and the session
    is still registered, so that a following [ContinueCall] on the id does
    not fail with "call not found" but speaks on the call and listens. *)
Theorem EndCall_failed_hangup_keeps_session :
  let call := scriptedCall (Some "connection reset") (always callsystem.StatusAnswered)
                (Some openLine) in
  let w := liveWorld call (Some (synthesizer (inr [frame [Byte.x7f] true])))
             (Some (recognizer (inr {| stt.received := [fragment "hello?" true];
                                       stt.ending := stt.TimerFired |}))) in
  let ended := EndCall background "call-1-0" "" w in
  ended.1 = Returned (5 * Second, Some "failed to hangup: connection reset")
  /\ trace ended.2 = [EvHangup "CA-1"]
  /\ calls (mgr ended.2) !! "call-1-0" = Some 1%positive
  /\ (ContinueCall background "call-1-0" "Still there?" ended.2).1 = Returned ("hello?", None).
Proof. vm_compute. repeat split. Qed.
(** ** A whole call *)

(** The call is answered at the third poll, the recognizer sends one final
    event: [InitiateCall] returns the session and the transcript, and the
    log holds the two turns. *)
Example InitiateCall_answered_after_two_polls :
  let call := scriptedCall None
                (fun t => if t <? 1000 * Millisecond
                          then callsystem.StatusPending "ringing"
                          else callsystem.StatusAnswered)
                (Some openLine) in
  let w := idleWorld (inr call)
             (Some (synthesizer (inr [frame [Byte.x7f] true])))
             (Some (recognizer (inr {| stt.received := [fragment "yes go ahead" true];
                                       stt.ending := stt.TimerFired |}))) in
  let run := InitiateCall background "Hi, ready?" w in
  run.1 = Returned (Some 1%positive, "yes go ahead", None)
  /\ calls (mgr run.2) !! "call-1-0" = Some 1%positive
  /\ (Conversation <$> heap run.2 !! 1%positive) =
     Some [ {| Role := "assistant"; Content := "Hi, ready?"; Timestamp := 1000 * Millisecond |};
            {| Role := "user"; Content := "yes go ahead"; Timestamp := 1000 * Millisecond |} ].
Proof. vm_compute. repeat split. Qed.

(** * Further properties of the manager *)

(** ** How the operations change the sessions *)

Lemma session_grown_refl cs : session_grown cs cs.
Proof. repeat split; reflexivity. Qed.

Lemma session_grown_trans cs1 cs2 cs3 :
  session_grown cs1 cs2 -> session_grown cs2 cs3 -> session_grown cs1 cs3.
Proof.
  intros (Hi1 & Hc1 & Hs1 & Hp1) (Hi2 & Hc2 & Hs2 & Hp2).
  repeat split; try congruence. etrans; eauto.
Qed.

Lemma session_grown_AddTurn now role content cs :
  session_grown cs (CallState.AddTurn now role content cs).
Proof. repeat split. simpl. apply prefix_app_r. reflexivity. Qed.

Lemma logs_grow_refl w : logs_grow w w.
Proof. intros l cs Hl. exists cs. split; [exact Hl|apply session_grown_refl]. Qed.

Lemma logs_grow_trans w1 w2 w3 : logs_grow w1 w2 -> logs_grow w2 w3 -> logs_grow w1 w3.
Proof.
  intros H12 H23 l cs Hl. destruct (H12 l cs Hl) as (cs2 & Hl2 & Hg2).
  destruct (H23 l cs2 Hl2) as (cs3 & Hl3 & Hg3).
  exists cs3. split; [exact Hl3|]. eapply session_grown_trans; eauto.
Qed.

Lemma logs_grow_heap w w' : heap w' = heap w -> logs_grow w w'.
Proof.
  intros Hh l cs Hl. exists cs. rewrite Hh. split; [exact Hl|apply session_grown_refl].
Qed.

Lemma logs_grow_with_turn l role content cs w :
  heap w !! l = Some cs -> logs_grow w (with_turn l role content cs w).
Proof.
  intros Hl l' cs' Hl'. unfold with_turn. autorewrite with world.
  destruct (decide (l' = l)) as [->|Hne].
  - rewrite lookup_insert_eq. eexists. split; [reflexivity|].
    assert (cs' = cs) by congruence. subst. apply session_grown_AddTurn.
  - rewrite lookup_insert_ne by congruence. exists cs'. split; [exact Hl'|apply session_grown_refl].
Qed.

Lemma only_session_refl l w : only_session l w w.
Proof. intros l' _. reflexivity. Qed.

Lemma only_session_trans l w1 w2 w3 :
  only_session l w1 w2 -> only_session l w2 w3 -> only_session l w1 w3.
Proof. intros H12 H23 l' Hne. rewrite H23, H12 by exact Hne. reflexivity. Qed.

Lemma only_session_heap l w w' : heap w' = heap w -> only_session l w w'.
Proof. intros Hh l' _. rewrite Hh. reflexivity. Qed.

Lemma only_session_with_turn l role content cs w :
  only_session l w (with_turn l role content cs w).
Proof.
  intros l' Hne. unfold with_turn. autorewrite with world.
  apply lookup_insert_ne. congruence.
Qed.

Lemma backend_only_heap w w' : backend_only w w' -> heap w' = heap w.
Proof. intros (_ & Hh & _). exact Hh. Qed.

Lemma backend_only_mgr w w' : backend_only w w' -> mgr w' = mgr w.
Proof. intros (Hm & _). exact Hm. Qed.

(** The clock and the lag are untouched by the delivery of the audio. *)
Lemma same_time_refl w : same_time w w.
Proof. split; reflexivity. Qed.

Lemma streamAudio_clock tr stream w : same_time w (streamAudio tr stream w).2.
Proof.
  revert w. induction stream as [|chunk rest IH]; intros w; simpl; [split; reflexivity|].
  destruct (tts.Error chunk) as [e|]; [split; reflexivity|].
  unfold bind. destruct (0 <? length (tts.Audio chunk))%nat.
  - unfold audioWrite, bind, modify, ret. simpl.
    destruct (callsystem.AudioIn tr (tts.Audio chunk)) as [e|]; simpl;
      [split; reflexivity|].
    destruct (tts.IsFinal chunk); simpl; [split; reflexivity|].
    exact (IH (emit (EvAudioWrite (tts.Audio chunk)) w)).
  - unfold ret at 1. simpl. destruct (tts.IsFinal chunk); simpl; [split; reflexivity|].
    apply IH.
Qed.

Lemma speak_clock ctx l message w : same_time w (speak ctx l message w).2.
Proof.
  unfold speak. unfold bind at 1.
  destruct (heap w !! l) as [cs|] eqn:Hl.
  2:{ rewrite AddTurn_dangling by exact Hl. apply same_time_refl. }
  rewrite (AddTurn_run w l cs) by exact Hl.
  remember (with_turn l "assistant" message cs w) as w1 eqn:Hw1.
  assert (Hc1 : same_time w w1) by (rewrite Hw1; split; reflexivity).
  assert (Hl1 : heap w1 !! l = Some (CallState.AddTurn (clock w) "assistant" message cs))
    by (rewrite Hw1; apply lookup_insert_eq).
  unfold bind at 1, load, bind at 1, gets, deref. rewrite Hl1.
  unfold ret at 1. cbv beta iota.
  unfold bind at 1, callTransport, bind, timeNow, gets, modify, ret.
  destruct (callsystem.Transport _ _) as [tr|]; [|exact Hc1].
  autorewrite with world.
  destruct (ttsProvider (mgr w1)) as [p|]; [|exact Hc1].
  unfold synthesizeStream, bind, timeNow, gets, modify, ret.
  destruct (tts.SynthesizeStream p _ _ _) as [e|stream]; [exact Hc1|].
  match goal with |- same_time w (streamAudio tr stream ?w2).2 =>
    destruct (streamAudio_clock tr stream w2) as [Hc Hg] end.
  autorewrite with world in Hc, Hg.
  destruct Hc1 as [Hc1 Hg1]. split; [rewrite Hc|rewrite Hg]; assumption.
Qed.

(** [speak] grows the log of its session and leaves the others alone. *)
Lemma speak_logs ctx l message w :
  logs_grow w (speak ctx l message w).2 /\ only_session l w (speak ctx l message w).2.
Proof.
  destruct (heap w !! l) as [cs|] eqn:Hl.
  - pose proof (speak_frame ctx l message w cs Hl) as Hb.
    apply backend_only_heap in Hb. split.
    + eapply logs_grow_trans; [apply (logs_grow_with_turn l "assistant" message cs w Hl)|].
      apply logs_grow_heap, Hb.
    + eapply only_session_trans; [apply (only_session_with_turn l "assistant" message cs w)|].
      apply only_session_heap, Hb.
  - unfold speak, bind. rewrite AddTurn_dangling by exact Hl.
    split; [apply logs_grow_refl|apply only_session_refl].
Qed.

(** What [listen] does to the sessions, by outcome: only a return without
    error and with a non-empty text appends, and it appends the user turn
    with that text. *)
Lemma listen_heap ctx l w cs :
  heap w !! l = Some cs ->
  same_time w (listen ctx l w).2
  /\ match (listen ctx l w).1 with
     | Returned (text, None) =>
         heap (listen ctx l w).2 =
         if nonempty text
         then <[l := CallState.AddTurn (clock w) "user" text cs]> (heap w)
         else heap w
     | _ => heap (listen ctx l w).2 = heap w
     end.
Proof.
  intros Hl.
  assert (H : exists r w', listen ctx l w = (r, w') /\ same_time w w'
            /\ match r with
               | Returned (text, None) =>
                   heap w' = if nonempty text
                             then <[l := CallState.AddTurn (clock w) "user" text cs]> (heap w)
                             else heap w
               | _ => heap w' = heap w
               end).
  { unfold listen, load, bind, gets, deref, callTransport, timeNow, modify, ret, panic,
      transcribeStream, bind, timeNow, gets, modify, ret.
    simpl. rewrite Hl. simpl.
    destruct (callsystem.Transport (Call cs) (clock w)) as [tr|];
      [|eexists _, _; split; [reflexivity|]; split; [split; reflexivity|reflexivity]].
    autorewrite with world.
    destruct (sttProvider (mgr w)) as [p|]; simpl;
      [|eexists _, _; split; [reflexivity|]; split; [split; reflexivity|reflexivity]].
    destruct (stt.TranscribeStream p _ _) as [e|run]; simpl;
      [eexists _, _; split; [reflexivity|]; split; [split; reflexivity|reflexivity]|].
    match goal with |- context [listenLoop ctx l "" ?evs ?en ?w1] =>
      pose proof (listenLoop_world ctx l cs en w1 Hl evs "") as Hloop;
      destruct (listenLoop ctx l "" evs en w1) as [[[text [e|]]|why] w2]
    end.
    - subst w2. eexists _, _. split; [reflexivity|]. split; [split; reflexivity|reflexivity].
    - eexists _, _. split; [reflexivity|]. rewrite Hloop.
      destruct (nonempty text); (split; [split; reflexivity|reflexivity]).
    - destruct Hloop. }
  destruct H as (r & w' & Hrun & Ht & Hh). rewrite Hrun. simpl. split; [exact Ht|exact Hh].
Qed.

Lemma listen_dangling ctx l w :
  heap w !! l = None -> listen ctx l w = (Panicked "nil dereference: CallState", w).
Proof.
  intros Hl. unfold listen, load, bind, gets, deref, panic. simpl. rewrite Hl. reflexivity.
Qed.

Lemma listen_logs ctx l w :
  logs_grow w (listen ctx l w).2 /\ only_session l w (listen ctx l w).2
  /\ same_time w (listen ctx l w).2.
Proof.
  destruct (heap w !! l) as [cs|] eqn:Hl.
  - destruct (listen_heap ctx l w cs Hl) as [Ht Hh].
    destruct (listen ctx l w) as [[[text [e|]]|why] w']; simpl in *.
    + split; [apply logs_grow_heap, Hh|]. split; [apply only_session_heap, Hh|exact Ht].
    + destruct (nonempty text).
      * split; [|split; [|exact Ht]].
        -- intros l' cs' Hl'. rewrite Hh. destruct (decide (l' = l)) as [->|Hne].
           ++ rewrite lookup_insert_eq. eexists. split; [reflexivity|].
              assert (cs' = cs) by congruence. subst. apply session_grown_AddTurn.
           ++ rewrite lookup_insert_ne by congruence. exists cs'.
              split; [exact Hl'|apply session_grown_refl].
        -- intros l' Hne. rewrite Hh. apply lookup_insert_ne. congruence.
      * split; [apply logs_grow_heap, Hh|]. split; [apply only_session_heap, Hh|exact Ht].
    + split; [apply logs_grow_heap, Hh|]. split; [apply only_session_heap, Hh|exact Ht].
  - rewrite listen_dangling by exact Hl. simpl.
    split; [apply logs_grow_refl|]. split; [apply only_session_refl|apply same_time_refl].
Qed.

Lemma same_time_trans w1 w2 w3 : same_time w1 w2 -> same_time w2 w3 -> same_time w1 w3.
Proof. intros [Hc1 Hg1] [Hc2 Hg2]. split; congruence. Qed.

Lemma speakAndListen_logs ctx l message w :
  logs_grow w (speakAndListen ctx l message w).2
  /\ only_session l w (speakAndListen ctx l message w).2
  /\ same_time w (speakAndListen ctx l message w).2.
Proof.
  assert (H : exists r w', speakAndListen ctx l message w = (r, w')
            /\ logs_grow w w' /\ only_session l w w' /\ same_time w w').
  { unfold speakAndListen, bind.
    destruct (speak_logs ctx l message w) as [Hg Ho].
    pose proof (speak_clock ctx l message w) as Ht.
    destruct (speak ctx l message w) as [[[e|]|why] w1]; simpl in *;
      try (eexists _, _; split; [reflexivity|]; auto).
    destruct (listen_logs ctx l w1) as (Hg2 & Ho2 & Ht2).
    destruct (listen ctx l w1) as [[[text [e|]]|why] w2]; simpl in *;
      (eexists _, _; split; [reflexivity|]);
      (split; [eapply logs_grow_trans; eauto|]);
      (split; [eapply only_session_trans; eauto|eapply same_time_trans; eauto]). }
  destruct H as (r & w' & Hrun & H). rewrite Hrun. exact H.
Qed.

(** ** The registry invariant *)

Lemma newLoc_fresh w : heap w !! newLoc w = None.
Proof. apply (not_elem_of_dom (heap w)). exact (is_fresh (dom (heap w))). Qed.

Lemma registry_wf_kept w w' : registry_wf w -> sessions_kept w w' -> registry_wf w'.
Proof.
  intros Hwf [Hm Hs] callID l Hreg. rewrite Hm in Hreg.
  destruct (Hwf callID l Hreg) as (cs & Hl & Hid).
  destruct (Hs l cs Hl) as (cs' & Hl' & Hid' & _). exists cs'. split; [exact Hl'|congruence].
Qed.

Lemma registry_wf_delete w w' callID :
  registry_wf w -> heap w' = heap w ->
  calls (mgr w') = delete callID (calls (mgr w)) -> registry_wf w'.
Proof.
  intros Hwf Hh Hc id l Hreg. rewrite Hc in Hreg.
  apply lookup_delete_Some in Hreg as [_ Hreg]. rewrite Hh. exact (Hwf id l Hreg).
Qed.

Lemma registry_wf_empty w : calls (mgr w) = ∅ -> registry_wf w.
Proof. intros Hc id l Hreg. rewrite Hc, lookup_empty in Hreg. discriminate. Qed.

Lemma registry_wf_dialed w call : registry_wf w -> registry_wf (dialedWorld w call).
Proof.
  intros Hwf id l. unfold dialedWorld. cbn [mgr heap]. autorewrite with world.
  destruct (decide (id = newCallID w)) as [->|Hne].
  - rewrite lookup_insert_eq. intros [= <-]. rewrite lookup_insert_eq.
    eexists. split; reflexivity.
  - rewrite lookup_insert_ne by congruence. intros Hreg.
    destruct (Hwf id l Hreg) as (cs & Hl & Hid). exists cs. split; [|exact Hid].
    rewrite lookup_insert_ne; [exact Hl|]. intros <-. rewrite newLoc_fresh in Hl. discriminate.
Qed.

Lemma logs_grow_dialed w call : logs_grow w (dialedWorld w call).
Proof.
  intros l cs Hl. exists cs. split; [|apply session_grown_refl].
  unfold dialedWorld. cbn [heap]. rewrite lookup_insert_ne; [exact Hl|].
  intros <-. rewrite newLoc_fresh in Hl. discriminate.
Qed.

(** ** The operations, phase by phase *)

Lemma farewell_frame ctx l message w :
  sessions_kept w (farewell ctx l message w).2
  /\ logs_grow w (farewell ctx l message w).2
  /\ only_session l w (farewell ctx l message w).2.
Proof.
  assert (H : exists r w', farewell ctx l message w = (r, w')
            /\ sessions_kept w w' /\ logs_grow w w' /\ only_session l w w').
  { unfold farewell. destruct (nonempty message).
    - unfold bind. pose proof (speak_kept ctx l message w) as Hk.
      destruct (speak_logs ctx l message w) as [Hg Ho].
      destruct (speak ctx l message w) as [[r|why] w1]; simpl in *.
      + eexists _, _. split; [reflexivity|]. split; [|split].
        * destruct Hk as [Hm Hs]. split; [exact Hm|exact Hs].
        * exact Hg.
        * exact Ho.
      + eexists _, _. split; [reflexivity|]. auto.
    - eexists _, _. split; [reflexivity|].
      split; [apply sessions_kept_refl|]. split; [apply logs_grow_refl|apply only_session_refl]. }
  destruct H as (r & w' & Hrun & H). rewrite Hrun. exact H.
Qed.

Lemma EndCall_registered ctx callID message w l :
  calls (mgr w) !! callID = Some l ->
  EndCall ctx callID message w =
  (farewell ctx l message ;;
   cs <- load l ;;
   now <- timeNow ;;
   herr <- callHangup (Call cs) ;;
   match herr with
   | Some e => ret (CallState.Duration now cs, Some ("failed to hangup: " +:+ e))
   | None => removeCall callID ;; ret (CallState.Duration now cs, None)
   end) w.
Proof.
  intros Hreg. unfold EndCall. unfold bind at 1. rewrite getCall_run, Hreg. reflexivity.
Qed.

(** The second phase of [EndCall], from the world [w1] the first phase
    leaves: the hangup of the leg, then the removal if it succeeded. *)
Lemma EndCall_cases ctx callID message w l r w1 :
  calls (mgr w) !! callID = Some l ->
  farewell ctx l message w = (r, w1) ->
  EndCall ctx callID message w =
  match r with
  | Panicked why => (Panicked why, w1)
  | Returned _ =>
      match heap w1 !! l with
      | None => (Panicked "nil dereference: CallState", w1)
      | Some cs =>
          match callsystem.Hangup (Call cs) (clock w1) with
          | Some e =>
              (Returned (CallState.Duration (clock w1) cs, Some ("failed to hangup: " +:+ e)),
               emit (EvHangup (callsystem.ID (Call cs))) w1)
          | None =>
              (Returned (CallState.Duration (clock w1) cs, None),
               set_mgr (set_calls (delete callID (calls (mgr w1))) (mgr w1))
                 (emit (EvHangup (callsystem.ID (Call cs))) w1))
          end
      end
  end.
Proof.
  intros Hreg Hfirst. rewrite (EndCall_registered ctx callID message w l Hreg).
  unfold bind at 1. rewrite Hfirst. destruct r as [[]|why]; [|reflexivity].
  unfold load, bind, gets, deref, panic, timeNow, callHangup, bind, timeNow, gets, modify,
    ret, removeCall, modify.
  destruct (heap w1 !! l) as [cs|]; [|reflexivity].
  autorewrite with world.
  destruct (callsystem.Hangup (Call cs) (clock w1)); reflexivity.
Qed.

Lemma logs_grow_backend w w' : backend_only w w' -> logs_grow w w'.
Proof. intros Hb. apply logs_grow_heap, backend_only_heap, Hb. Qed.

Lemma InitiateCall_dial_failed ctx message w csys e :
  callSystem (mgr w) = Some csys ->
  callsystem.MakeCall csys (clock w) (config.UserPhoneNumber (config (mgr w))) = inl e ->
  InitiateCall ctx message w =
  (Returned (None, "", Some ("failed to make call: " +:+ e)),
   emit (EvMakeCall (config.UserPhoneNumber (config (mgr w)))) w).
Proof.
  intros Hcs Hdial. unfold InitiateCall. unfold bind at 1, gets. rewrite Hcs.
  unfold bind at 1, makeCall, bind, timeNow, gets, modify, ret. rewrite Hdial. reflexivity.
Qed.

(** What [InitiateCall] does once the session is registered, by the
    result of the answer wait. *)
Lemma InitiateCall_after_wait ctx message w csys call :
  callSystem (mgr w) = Some csys ->
  callsystem.MakeCall csys (clock w) (config.UserPhoneNumber (config (mgr w))) = inr call ->
  exists b w1,
    backend_only (dialedWorld w call) w1
    /\ lag w1 = lag w
    /\ (b = true <-> reaches_Answered (lag w) ctx call (clock w) (30 * Second))
    /\ InitiateCall ctx message w =
       if b then
         match speakAndListen ctx (newLoc w) message w1 with
         | (Returned (_, Some e), w2) =>
             (Returned (Some (newLoc w), "", Some ("failed to speak: " +:+ e)), w2)
         | (Returned (response, None), w2) => (Returned (Some (newLoc w), response, None), w2)
         | (Panicked why, w2) => (Panicked why, w2)
         end
       else
         (Returned (None, "", Some "call not answered"),
          set_mgr (set_calls (delete (newCallID w) (calls (mgr w1))) (mgr w1))
            (emit (EvHangup (callsystem.ID call)) w1)).
Proof.
  intros Hcs Hdial.
  rewrite (InitiateCall_dialed ctx message w csys call Hcs Hdial).
  destruct (waitForAnswer_spec ctx call (30 * Second) (dialedWorld w call))
    as (b & w1 & Hwait & Hback & Hlag & Hiff).
  exists b, w1. split; [exact Hback|]. split; [exact Hlag|]. split; [exact Hiff|].
  unfold bind at 1. rewrite Hwait. destruct b; cbn [negb].
  - unfold bind.
    destruct (speakAndListen ctx (newLoc w) message w1) as [[[response [e|]]|why] w2];
      reflexivity.
  - reflexivity.
Qed.

(** The frame of [InitiateCall], for every outcome: the sessions that
    existed have grown at most, the registry differs at most at the new
    id, a well-formed registry stays so, and the counter has advanced by
    one exactly when the dial succeeded. *)
Lemma InitiateCall_frame ctx message w :
  exists r w',
    InitiateCall ctx message w = (r, w')
    /\ logs_grow w w'
    /\ (forall callID, callID <> newCallID w ->
          calls (mgr w') !! callID = calls (mgr w) !! callID)
    /\ (registry_wf w -> registry_wf w')
    /\ callCounter (mgr w') =
       match callSystem (mgr w) with
       | Some csys =>
           match callsystem.MakeCall csys (clock w) (config.UserPhoneNumber (config (mgr w))) with
           | inr _ => wrap64 (callCounter (mgr w) + 1)
           | inl _ => callCounter (mgr w)
           end
       | None => callCounter (mgr w)
       end.
Proof.
  destruct (callSystem (mgr w)) as [csys|] eqn:Hcs.
  2:{ exists (Returned (None, "", Some "call manager not initialized; call Initialize() first")), w.
      split; [unfold InitiateCall, bind, gets; simpl; rewrite Hcs; reflexivity|].
      split; [apply logs_grow_refl|]. auto. }
  destruct (callsystem.MakeCall csys (clock w) (config.UserPhoneNumber (config (mgr w))))
    as [e|call] eqn:Hdial.
  { eexists _, _. split; [apply (InitiateCall_dial_failed ctx message w csys e Hcs Hdial)|].
    split; [apply logs_grow_heap; reflexivity|]. split; [reflexivity|].
    split; [|reflexivity]. intros Hwf. eapply registry_wf_kept; [exact Hwf|apply emit_kept]. }
  destruct (InitiateCall_after_wait ctx message w csys call Hcs Hdial)
    as (b & w1 & Hback & _ & _ & Hrun).
  assert (Hm1 : mgr w1 = mgr (dialedWorld w call)) by apply backend_only_mgr, Hback.
  assert (Hg1 : logs_grow w w1).
  { eapply logs_grow_trans; [apply logs_grow_dialed|apply logs_grow_backend, Hback]. }
  assert (Hwf1 : registry_wf w -> registry_wf w1).
  { intros Hwf. eapply registry_wf_kept; [apply registry_wf_dialed, Hwf|].
    apply backend_only_kept, Hback. }
  assert (Hc1 : forall callID, callID <> newCallID w ->
                  calls (mgr w1) !! callID = calls (mgr w) !! callID).
  { intros callID Hne. rewrite Hm1. unfold dialedWorld. cbn [mgr]. autorewrite with world.
    apply lookup_insert_ne. congruence. }
  assert (Hn1 : callCounter (mgr w1) = wrap64 (callCounter (mgr w) + 1))
    by (rewrite Hm1; reflexivity).
  rewrite Hrun. destruct b.
  - destruct (speakAndListen_logs ctx (newLoc w) message w1) as (Hg2 & _ & _).
    pose proof (speakAndListen_kept ctx (newLoc w) message w1) as Hk2.
    destruct (speakAndListen ctx (newLoc w) message w1) as [[[response [e|]]|why] w2];
      simpl in *; (eexists _, _; split; [reflexivity|]);
      (split; [eapply logs_grow_trans; eauto|]);
      (split; [intros callID Hne; destruct Hk2 as [-> _]; apply Hc1, Hne|]);
      (split; [intros Hwf; eapply registry_wf_kept; [apply Hwf1, Hwf|exact Hk2]
              |destruct Hk2 as [-> _]; exact Hn1]).
  - eexists _, _. split; [reflexivity|]. autorewrite with world.
    split; [eapply logs_grow_trans; [exact Hg1|apply logs_grow_heap; reflexivity]|].
    split; [intros callID Hne; rewrite lookup_delete_ne by congruence; apply Hc1, Hne|].
    split; [|exact Hn1].
    intros Hwf. eapply (registry_wf_delete (emit (EvHangup (callsystem.ID call)) w1));
      [|reflexivity|reflexivity].
    eapply registry_wf_kept; [apply Hwf1, Hwf|apply emit_kept].
Qed.

Lemma ContinueCall_registered ctx callID message w l :
  calls (mgr w) !! callID = Some l ->
  ContinueCall ctx callID message w =
  match speakAndListen ctx l message w with
  | (Returned (_, Some e), w') => (Returned ("", Some ("failed to continue call: " +:+ e)), w')
  | (Returned (response, None), w') => (Returned (response, None), w')
  | (Panicked why, w') => (Panicked why, w')
  end.
Proof.
  intros Hreg. unfold ContinueCall. unfold bind at 1. rewrite getCall_run, Hreg.
  unfold bind.
  destruct (speakAndListen ctx l message w) as [[[response [e|]]|why] w']; reflexivity.
Qed.

Lemma SpeakToUser_registered ctx callID message w l :
  calls (mgr w) !! callID = Some l ->
  SpeakToUser ctx callID message w =
  match speak ctx l message w with
  | (Returned (Some e), w') => (Returned (Some ("failed to speak: " +:+ e)), w')
  | (Returned None, w') => (Returned None, w')
  | (Panicked why, w') => (Panicked why, w')
  end.
Proof.
  intros Hreg. unfold SpeakToUser. unfold bind at 1. rewrite getCall_run, Hreg.
  unfold bind. destruct (speak ctx l message w) as [[[e|]|why] w']; reflexivity.
Qed.

Lemma ContinueCall_frame ctx callID message w :
  exists r w',
    ContinueCall ctx callID message w = (r, w')
    /\ sessions_kept w w' /\ logs_grow w w' /\ same_time w w'
    /\ forall l, calls (mgr w) !! callID = Some l -> only_session l w w'.
Proof.
  destruct (calls (mgr w) !! callID) as [l|] eqn:Hreg.
  - rewrite (ContinueCall_registered ctx callID message w l Hreg).
    pose proof (speakAndListen_kept ctx l message w) as Hk.
    destruct (speakAndListen_logs ctx l message w) as (Hg & Ho & Ht).
    destruct (speakAndListen ctx l message w) as [[[response [e|]]|why] w']; simpl in *;
      (eexists _, _; split; [reflexivity|]);
      (split; [exact Hk|]); (split; [exact Hg|]); (split; [exact Ht|]);
      intros l' [= <-]; exact Ho.
  - exists (Returned ("", Some ("call not found: " +:+ callID))), w.
    split; [unfold ContinueCall, bind; rewrite getCall_run, Hreg; reflexivity|].
    split; [apply sessions_kept_refl|]. split; [apply logs_grow_refl|].
    split; [apply same_time_refl|]. intros l [=].
Qed.

Lemma SpeakToUser_frame ctx callID message w :
  exists r w',
    SpeakToUser ctx callID message w = (r, w')
    /\ sessions_kept w w' /\ logs_grow w w' /\ same_time w w'
    /\ forall l, calls (mgr w) !! callID = Some l -> only_session l w w'.
Proof.
  destruct (calls (mgr w) !! callID) as [l|] eqn:Hreg.
  - rewrite (SpeakToUser_registered ctx callID message w l Hreg).
    pose proof (speak_kept ctx l message w) as Hk.
    destruct (speak_logs ctx l message w) as (Hg & Ho).
    pose proof (speak_clock ctx l message w) as Ht.
    destruct (speak ctx l message w) as [[[e|]|why] w']; simpl in *;
      (eexists _, _; split; [reflexivity|]);
      (split; [exact Hk|]); (split; [exact Hg|]); (split; [exact Ht|]);
      intros l' [= <-]; exact Ho.
  - exists (Returned (Some ("call not found: " +:+ callID))), w.
    split; [unfold SpeakToUser, bind; rewrite getCall_run, Hreg; reflexivity|].
    split; [apply sessions_kept_refl|]. split; [apply logs_grow_refl|].
    split; [apply same_time_refl|]. intros l [=].
Qed.

(** The frame of [EndCall], for every outcome: the sessions have grown at
    most, only the session of the call may have changed, the registry is
    as before or as before less the id, and a well-formed registry stays
    so. *)
Lemma EndCall_frame ctx callID message w :
  exists r w',
    EndCall ctx callID message w = (r, w')
    /\ logs_grow w w'
    /\ (forall l, calls (mgr w) !! callID = Some l -> only_session l w w')
    /\ (calls (mgr w') = calls (mgr w) \/ calls (mgr w') = delete callID (calls (mgr w)))
    /\ (registry_wf w -> registry_wf w').
Proof.
  destruct (calls (mgr w) !! callID) as [l|] eqn:Hreg.
  2:{ exists (Returned (0, Some ("call not found: " +:+ callID))), w.
      split; [unfold EndCall, bind; rewrite getCall_run, Hreg; reflexivity|].
      split; [apply logs_grow_refl|]. split; [intros l [=]|]. auto. }
  destruct (farewell_frame ctx l message w) as (Hk & Hg & Ho).
  destruct (farewell ctx l message w) as [r w1] eqn:Hfirst. simpl in *.
  rewrite (EndCall_cases ctx callID message w l r w1 Hreg Hfirst).
  assert (Hm : mgr w1 = mgr w) by apply Hk.
  assert (Hwf1 : registry_wf w -> registry_wf w1)
    by (intros Hwf; eapply registry_wf_kept; eauto).
  assert (Ho' : forall l', Some l = Some l' -> only_session l' w w1).
  { intros l' [= <-]. exact Ho. }
  destruct r as [[]|why].
  2:{ eexists _, _. split; [reflexivity|]. rewrite Hm.
      split; [exact Hg|]. split; [exact Ho'|]. split; [left; reflexivity|exact Hwf1]. }
  destruct (heap w1 !! l) as [cs|].
  2:{ eexists _, _. split; [reflexivity|]. rewrite Hm.
      split; [exact Hg|]. split; [exact Ho'|]. split; [left; reflexivity|exact Hwf1]. }
  destruct (callsystem.Hangup (Call cs) (clock w1)) as [e|].
  - eexists _, _. split; [reflexivity|]. autorewrite with world. rewrite Hm.
    split; [exact Hg|]. split; [exact Ho'|]. split; [left; reflexivity|].
    intros Hwf. eapply registry_wf_kept; [apply Hwf1, Hwf|apply emit_kept].
  - eexists _, _. split; [reflexivity|]. autorewrite with world. rewrite Hm.
    split; [exact Hg|]. split; [exact Ho'|]. split; [right; reflexivity|].
    intros Hwf. eapply (registry_wf_delete (emit (EvHangup (callsystem.ID (Call cs))) w1));
      [|reflexivity|autorewrite with world; rewrite Hm; reflexivity].
    eapply registry_wf_kept; [apply Hwf1, Hwf|apply emit_kept].
Qed.

(** ** Close *)

Lemma hangupAll_frame order :
  forall w, backend_only w (hangupAll order w).2 /\ same_time w (hangupAll order w).2.
Proof.
  induction order as [|l rest IH]; intros w; simpl.
  - split; [apply backend_only_refl|apply same_time_refl].
  - unfold bind at 1, load, bind, gets, deref, panic, ret.
    destruct (heap w !! l) as [cs|]; simpl.
    2:{ split; [apply backend_only_refl|apply same_time_refl]. }
    unfold callHangup, bind, timeNow, gets, modify, ret. simpl.
    destruct (IH (emit (EvHangup (callsystem.ID (Call cs))) w)) as [Hb Ht].
    split.
    + apply (backend_only_trans _ (emit (EvHangup (callsystem.ID (Call cs))) w));
        [apply backend_only_emit; reflexivity|exact Hb].
    + exact Ht.
Qed.

Lemma hangupAll_run order :
  forall w,
    (forall l, l ∈ order -> is_Some (heap w !! l)) ->
    exists w',
      hangupAll order w = (Returned tt, w')
      /\ mgr w' = mgr w /\ heap w' = heap w /\ same_time w w'
      /\ trace w' = trace w ++ hangupsOf (heap w) order.
Proof.
  induction order as [|l rest IH]; intros w Hall; simpl.
  - exists w. unfold hangupsOf. simpl. rewrite app_nil_r.
    repeat split; reflexivity.
  - destruct (Hall l ltac:(left)) as [cs Hl].
    unfold bind at 1, load, bind, gets, deref, ret. rewrite Hl.
    unfold callHangup, bind, timeNow, gets, modify, ret.
    destruct (IH (emit (EvHangup (callsystem.ID (Call cs))) w)) as (w' & Hrun & Hm & Hh & Ht & Htr).
    { intros l' Hin. apply Hall. right. exact Hin. }
    exists w'. split; [exact Hrun|]. split; [exact Hm|]. split; [exact Hh|].
    split; [exact Ht|]. rewrite Htr. autorewrite with world.
    unfold hangupsOf. simpl. rewrite ?Hl. simpl. rewrite <- app_assoc. reflexivity.
Qed.

Lemma registered_allocated w l :
  registry_wf w -> l ∈ registered w -> is_Some (heap w !! l).
Proof.
  intros Hwf Hin. unfold registered in Hin.
  apply list_elem_of_fmap in Hin as [[callID l'] [-> Hin]].
  apply elem_of_map_to_list in Hin. destruct (Hwf callID l' Hin) as (cs & Hl & _).
  exists cs. exact Hl.
Qed.

Lemma hangupsOf_length h order :
  (forall l, l ∈ order -> is_Some (h !! l)) -> length (hangupsOf h order) = length order.
Proof.
  induction order as [|l rest IH]; intros Hall; [reflexivity|].
  destruct (Hall l ltac:(left)) as [cs Hl]. unfold hangupsOf in *. simpl. rewrite Hl. simpl.
  f_equal. apply IH. intros l' Hin. apply Hall. right. exact Hin.
Qed.

Lemma Close_heap closer order w :
  heap (Close closer order w).2 = heap w.
Proof.
  unfold Close. unfold bind at 1.
  destruct (hangupAll_frame order w) as [Hb _]. apply backend_only_heap in Hb.
  destruct (hangupAll order w) as [[[]|why] w1]; simpl in Hb; [|exact Hb].
  unfold bind, modify, gets, ret, timeNow, gets. autorewrite with world.
  destruct (callSystem _) as [cs|]; [|exact Hb].
  destruct (closer cs); exact Hb.
Qed.

(** X1: [Close] hangs up the call leg of every registered session, once
    each and in the order the [range] yields them, whatever the hangups
    return; it empties the registry and touches no session.  It returns
    what the call system's own [Close] returns when it has one, and no
    error otherwise. *)
Theorem Close_hangs_up_and_clears
    (closer : callsystem.CallSystem -> option (Time -> option error))
    (order : list loc) (w : World) :
  registry_wf w ->
  order ≡ₚ registered w ->
  exists w',
    Close closer order w =
      (Returned match callSystem (mgr w) with
                | Some cs => match closer cs with Some close => close (clock w) | None => None end
                | None => None
                end, w')
    /\ calls (mgr w') = ∅
    /\ heap w' = heap w
    /\ trace w' = trace w ++ hangupsOf (heap w) order
    /\ hangupsOf (heap w) order ≡ₚ hangupsOf (heap w) (registered w)
    /\ length (hangupsOf (heap w) order) = size (calls (mgr w)).
Proof.
  intros Hwf Hperm.
  assert (Hall : forall l, l ∈ order -> is_Some (heap w !! l)).
  { intros l Hin. apply (registered_allocated w l Hwf). rewrite <- Hperm. exact Hin. }
  destruct (hangupAll_run order w Hall) as (w1 & Hrun & Hm & Hh & [Hc _] & Htr).
  unfold Close. unfold bind at 1. rewrite Hrun.
  unfold bind, modify, gets, ret, timeNow, gets. autorewrite with world.
  change (callSystem (set_calls ∅ (mgr w1))) with (callSystem (mgr w1)). rewrite Hm.
  assert (Hlen : length (hangupsOf (heap w) order) = size (calls (mgr w))).
  { rewrite (hangupsOf_length _ _ Hall), Hperm. unfold registered.
    rewrite length_fmap. apply length_map_to_list. }
  assert (Hp : hangupsOf (heap w) order ≡ₚ hangupsOf (heap w) (registered w)).
  { unfold hangupsOf. rewrite Hperm. reflexivity. }
  destruct (callSystem (mgr w)) as [cs|]; [destruct (closer cs) as [close|]|];
    (eexists; split; [autorewrite with world; rewrite ?Hc; reflexivity|]);
    autorewrite with world; auto.
Qed.

Lemma liveWorld_wf call voice ears : registry_wf (liveWorld call voice ears).
Proof.
  intros callID l Hreg. cbn [liveWorld mgr calls] in Hreg.
  apply lookup_singleton_Some in Hreg as [<- <-].
  eexists. split; [apply lookup_singleton_eq|reflexivity].
Qed.

Lemma liveWorld_registered call voice ears :
  registered (liveWorld call voice ears) = [1%positive].
Proof.
  unfold registered. cbn [liveWorld mgr calls]. rewrite map_to_list_singleton. reflexivity.
Qed.

(** A manager with one live call, whose call system has no [Close]. *)
Lemma Close_hangs_up_and_clears_witness :
  let w := listeningWorld [fragment "yes" true] stt.Closed in
  exists w',
    Close (fun _ => None) [1%positive] w = (Returned None, w')
    /\ calls (mgr w') = ∅
    /\ trace w' = [EvHangup "CA-1"].
Proof.
  intros w.
  destruct (Close_hangs_up_and_clears (fun _ => None) [1%positive] w)
    as (w' & Hrun & Hc & _ & Htr & _).
  - apply liveWorld_wf.
  - unfold w, listeningWorld. rewrite liveWorld_registered. reflexivity.
  - exists w'. split; [exact Hrun|]. split; [exact Hc|]. rewrite Htr. vm_compute. reflexivity.
Defined.

(** X2: once [Close] has returned, no call id is known any more:
    [GetCall] finds nothing and [ContinueCall], [SpeakToUser] and
    [EndCall] fail with "call not found", for every id. *)
Theorem Close_then_every_call_unknown
    (closer : callsystem.CallSystem -> option (Time -> option error))
    (order : list loc) (w : World) (ctx : Context) (callID message : string) :
  registry_wf w ->
  order ≡ₚ registered w ->
  exists r w',
    Close closer order w = (Returned r, w')
    /\ GetCall callID w' = (Returned None, w')
    /\ ContinueCall ctx callID message w'
       = (Returned ("", Some ("call not found: " +:+ callID)), w')
    /\ SpeakToUser ctx callID message w'
       = (Returned (Some ("call not found: " +:+ callID)), w')
    /\ EndCall ctx callID message w'
       = (Returned (0, Some ("call not found: " +:+ callID)), w').
Proof.
  intros Hwf Hperm.
  assert (Hall : forall l, l ∈ order -> is_Some (heap w !! l)).
  { intros l Hin. apply (registered_allocated w l Hwf). rewrite <- Hperm. exact Hin. }
  destruct (hangupAll_run order w Hall) as (w1 & Hrun & Hm & Hh & [Hc _] & Htr).
  assert (H : exists r w', Close closer order w = (Returned r, w') /\ calls (mgr w') = ∅).
  { unfold Close. unfold bind at 1. rewrite Hrun.
    unfold bind, modify, gets, ret, timeNow, gets. autorewrite with world.
    destruct (callSystem _) as [cs|]; [destruct (closer cs) as [close|]|];
      (eexists _, _; split; [reflexivity|]); reflexivity. }
  destruct H as (r & w' & Hclose & Hempty).
  assert (Hnone : calls (mgr w') !! callID = None) by (rewrite Hempty; apply lookup_empty).
  exists r, w'. split; [exact Hclose|].
  unfold GetCall, ContinueCall, SpeakToUser, EndCall, bind.
  rewrite !getCall_run, Hnone. auto.
Qed.

Lemma Close_then_every_call_unknown_witness :
  let w := listeningWorld [fragment "yes" true] stt.Closed in
  exists r w',
    Close (fun _ => None) [1%positive] w = (Returned r, w')
    /\ ContinueCall background "call-1-0" "Hello" w'
       = (Returned ("", Some ("call not found: " +:+ "call-1-0")), w').
Proof.
  intros w.
  destruct (Close_then_every_call_unknown (fun _ => None) [1%positive] w background
              "call-1-0" "Hello") as (r & w' & Hrun & _ & Hc & _).
  - apply liveWorld_wf.
  - unfold w, listeningWorld. rewrite liveWorld_registered. reflexivity.
  - exists r, w'. split; [exact Hrun|exact Hc].
Defined.

(** ** Invariants of the manager *)

Lemma Close_registry_wf closer order w :
  registry_wf w -> registry_wf (Close closer order w).2.
Proof.
  intros Hwf. unfold Close. unfold bind at 1.
  destruct (hangupAll_frame order w) as [Hb _].
  destruct (hangupAll order w) as [[[]|why] w1]; simpl in Hb.
  - unfold bind, modify, gets, ret, timeNow, gets. autorewrite with world.
    destruct (callSystem _) as [cs|]; [destruct (closer cs)|];
      apply registry_wf_empty; reflexivity.
  - eapply registry_wf_kept; [exact Hwf|apply backend_only_kept, Hb].
Qed.

(** X3: no operation of the manager removes or rewrites a recorded turn.
    After [InitiateCall], [ContinueCall], [SpeakToUser], [EndCall] or
    [Close], whatever they return, every session that existed is still
    there with the same id, call leg and start time, and its earlier log
    is a prefix of its log. *)
Theorem turn_logs_only_grow (ctx : Context) (callID message : string)
    (closer : callsystem.CallSystem -> option (Time -> option error))
    (order : list loc) (w : World) :
  logs_grow w (InitiateCall ctx message w).2
  /\ logs_grow w (ContinueCall ctx callID message w).2
  /\ logs_grow w (SpeakToUser ctx callID message w).2
  /\ logs_grow w (EndCall ctx callID message w).2
  /\ logs_grow w (Close closer order w).2.
Proof.
  split; [|split; [|split; [|split]]].
  - destruct (InitiateCall_frame ctx message w) as (r & w' & Hrun & Hg & _).
    rewrite Hrun. exact Hg.
  - destruct (ContinueCall_frame ctx callID message w) as (r & w' & Hrun & _ & Hg & _).
    rewrite Hrun. exact Hg.
  - destruct (SpeakToUser_frame ctx callID message w) as (r & w' & Hrun & _ & Hg & _).
    rewrite Hrun. exact Hg.
  - destruct (EndCall_frame ctx callID message w) as (r & w' & Hrun & Hg & _).
    rewrite Hrun. exact Hg.
  - apply logs_grow_heap, Close_heap.
Qed.

(** X4: the registry stays well formed.  If every registered pointer
    refers to a session that carries the id it is registered under, this
    still holds after [InitiateCall], [ContinueCall], [SpeakToUser],
    [EndCall] and [Close], whatever they return; it holds for the manager
    [New] returns. *)
Theorem registry_stays_well_formed (ctx : Context) (callID message : string)
    (closer : callsystem.CallSystem -> option (Time -> option error))
    (order : list loc) (w : World) :
  registry_wf w ->
  registry_wf (InitiateCall ctx message w).2
  /\ registry_wf (ContinueCall ctx callID message w).2
  /\ registry_wf (SpeakToUser ctx callID message w).2
  /\ registry_wf (EndCall ctx callID message w).2
  /\ registry_wf (Close closer order w).2
  /\ forall cfg, registry_wf (set_mgr (New cfg) w).
Proof.
  intros Hwf. split; [|split; [|split; [|split; [|split]]]].
  - destruct (InitiateCall_frame ctx message w) as (r & w' & Hrun & _ & _ & Hk & _).
    rewrite Hrun. exact (Hk Hwf).
  - destruct (ContinueCall_frame ctx callID message w) as (r & w' & Hrun & Hk & _).
    rewrite Hrun. exact (registry_wf_kept _ _ Hwf Hk).
  - destruct (SpeakToUser_frame ctx callID message w) as (r & w' & Hrun & Hk & _).
    rewrite Hrun. exact (registry_wf_kept _ _ Hwf Hk).
  - destruct (EndCall_frame ctx callID message w) as (r & w' & Hrun & _ & _ & _ & Hk).
    rewrite Hrun. exact (Hk Hwf).
  - apply Close_registry_wf, Hwf.
  - intros cfg. apply registry_wf_empty. reflexivity.
Qed.

Lemma twoCallsWorld_wf call1 call2 voice ears :
  registry_wf (twoCallsWorld call1 call2 voice ears).
Proof.
  intros callID l Hreg. cbn [twoCallsWorld mgr calls heap] in *.
  apply lookup_insert_Some in Hreg as [[<- <-]|[Hne Hreg]].
  - eexists. split; [apply lookup_insert_eq|reflexivity].
  - apply lookup_singleton_Some in Hreg as [<- <-].
    eexists. split; [rewrite lookup_insert_ne by discriminate; apply lookup_singleton_eq|].
    reflexivity.
Qed.

(** Two live calls; one of them is ended with a goodbye. *)
Lemma registry_stays_well_formed_witness :
  let call := scriptedCall None (always callsystem.StatusAnswered) (Some openLine) in
  let w := twoCallsWorld call call (Some (synthesizer (inr [frame [Byte.x7f] true]))) None in
  registry_wf (EndCall background "call-1-0" "Goodbye" w).2
  /\ calls (mgr (EndCall background "call-1-0" "Goodbye" w).2) !! "call-2-0" = Some 2%positive.
Proof.
  intros call w. split.
  - apply (registry_stays_well_formed background "call-1-0" "Goodbye" (fun _ => None) [] w).
    apply twoCallsWorld_wf.
  - vm_compute. reflexivity.
Defined.

Lemma registry_wf_inj w id1 id2 l :
  registry_wf w -> calls (mgr w) !! id1 = Some l -> calls (mgr w) !! id2 = Some l -> id1 = id2.
Proof.
  intros Hwf H1 H2. destruct (Hwf id1 l H1) as (cs1 & Hl1 & Hid1).
  destruct (Hwf id2 l H2) as (cs2 & Hl2 & Hid2). congruence.
Qed.

(** X5: calls are isolated from one another.  In a well-formed registry,
    [ContinueCall], [SpeakToUser] and [EndCall] on one call id leave
    every other registered call registered, under the same pointer, and
    its session exactly as it was. *)
Theorem calls_are_isolated (ctx : Context) (callID message other : string)
    (l' : loc) (w : World) :
  registry_wf w ->
  other <> callID ->
  calls (mgr w) !! other = Some l' ->
  (calls (mgr (ContinueCall ctx callID message w).2) !! other = Some l'
   /\ heap (ContinueCall ctx callID message w).2 !! l' = heap w !! l')
  /\ (calls (mgr (SpeakToUser ctx callID message w).2) !! other = Some l'
      /\ heap (SpeakToUser ctx callID message w).2 !! l' = heap w !! l')
  /\ (calls (mgr (EndCall ctx callID message w).2) !! other = Some l'
      /\ heap (EndCall ctx callID message w).2 !! l' = heap w !! l').
Proof.
  intros Hwf Hne Hother.
  assert (Hdiff : forall l, calls (mgr w) !! callID = Some l -> l' <> l).
  { intros l Hreg ->. apply Hne. eapply registry_wf_inj; eauto. }
  assert (Hsame : forall w', (forall l, calls (mgr w) !! callID = Some l -> only_session l w w') ->
                    (calls (mgr w) !! callID = None -> heap w' = heap w) ->
                    heap w' !! l' = heap w !! l').
  { intros w' Ho Hnone. destruct (calls (mgr w) !! callID) as [l|] eqn:Hreg.
    - apply (Ho l eq_refl). apply Hdiff. reflexivity.
    - rewrite Hnone; reflexivity. }
  split; [|split].
  - destruct (ContinueCall_frame ctx callID message w) as (r & w' & Hrun & [Hm _] & _ & _ & Ho).
    assert (Hnone : calls (mgr w) !! callID = None -> heap w' = heap w).
    { intros Hn. unfold ContinueCall, bind in Hrun. rewrite getCall_run, Hn in Hrun.
      injection Hrun as _ <-. reflexivity. }
    rewrite Hrun. simpl. rewrite Hm. split; [exact Hother|apply Hsame; assumption].
  - destruct (SpeakToUser_frame ctx callID message w) as (r & w' & Hrun & [Hm _] & _ & _ & Ho).
    assert (Hnone : calls (mgr w) !! callID = None -> heap w' = heap w).
    { intros Hn. unfold SpeakToUser, bind in Hrun. rewrite getCall_run, Hn in Hrun.
      injection Hrun as _ <-. reflexivity. }
    rewrite Hrun. simpl. rewrite Hm. split; [exact Hother|apply Hsame; assumption].
  - destruct (EndCall_frame ctx callID message w) as (r & w' & Hrun & _ & Ho & Hc & _).
    assert (Hnone : calls (mgr w) !! callID = None -> heap w' = heap w).
    { intros Hn. unfold EndCall, bind in Hrun. rewrite getCall_run, Hn in Hrun.
      injection Hrun as _ <-. reflexivity. }
    rewrite Hrun. simpl. split; [|apply Hsame; assumption].
    destruct Hc as [-> | ->]; [exact Hother|].
    rewrite lookup_delete_ne by congruence. exact Hother.
Qed.

(** Two live calls; speaking and listening on the first leaves the second
    as it was. *)
Lemma calls_are_isolated_witness :
  let call := scriptedCall None (always callsystem.StatusAnswered) (Some openLine) in
  let w := twoCallsWorld call call
             (Some (synthesizer (inr [frame [Byte.x7f] true])))
             (Some (recognizer (inr {| stt.received := [fragment "fine" true];
                                       stt.ending := stt.Closed |}))) in
  (ContinueCall background "call-1-0" "How are you?" w).1 = Returned ("fine", None)
  /\ calls (mgr (ContinueCall background "call-1-0" "How are you?" w).2) !! "call-2-0"
     = Some 2%positive
  /\ heap (ContinueCall background "call-1-0" "How are you?" w).2 !! 2%positive
     = heap w !! 2%positive.
Proof.
  intros call w. split; [vm_compute; reflexivity|].
  apply (calls_are_isolated background "call-1-0" "How are you?" "call-2-0" 2%positive w).
  - apply twoCallsWorld_wf.
  - discriminate.
  - vm_compute. reflexivity.
Defined.

(** ** InitiateCall, further *)

Lemma InitiateCall_only_new ctx message w :
  only_session (newLoc w) w (InitiateCall ctx message w).2.
Proof.
  destruct (callSystem (mgr w)) as [csys|] eqn:Hcs.
  2:{ unfold InitiateCall, bind, gets. simpl. rewrite Hcs. apply only_session_refl. }
  destruct (callsystem.MakeCall csys (clock w) (config.UserPhoneNumber (config (mgr w))))
    as [e|call] eqn:Hdial.
  { rewrite (InitiateCall_dial_failed ctx message w csys e Hcs Hdial).
    apply only_session_heap. reflexivity. }
  destruct (InitiateCall_after_wait ctx message w csys call Hcs Hdial)
    as (b & w1 & Hback & _ & _ & Hrun).
  assert (H1 : only_session (newLoc w) w w1).
  { intros l Hne. rewrite (backend_only_heap _ _ Hback). unfold dialedWorld. cbn [heap].
    apply lookup_insert_ne. congruence. }
  rewrite Hrun. destruct b.
  - destruct (speakAndListen_logs ctx (newLoc w) message w1) as (_ & Ho & _).
    destruct (speakAndListen ctx (newLoc w) message w1) as [[[response [e|]]|why] w2];
      simpl in *; eapply only_session_trans; eauto.
  - simpl. eapply only_session_trans; [exact H1|]. apply only_session_heap. reflexivity.
Qed.

(** X6: [InitiateCall] does not disturb the calls in progress.  Whatever
    it returns, every session that existed is exactly as it was, and the
    registry is unchanged at every id other than the id it generates. *)
Theorem InitiateCall_leaves_other_calls (ctx : Context) (message : string) (w : World) :
  (forall l cs, heap w !! l = Some cs ->
     heap (InitiateCall ctx message w).2 !! l = Some cs)
  /\ (forall callID, callID <> newCallID w ->
        calls (mgr (InitiateCall ctx message w).2) !! callID = calls (mgr w) !! callID).
Proof.
  split.
  - intros l cs Hl. rewrite (InitiateCall_only_new ctx message w l); [exact Hl|].
    intros ->. rewrite newLoc_fresh in Hl. discriminate.
  - destruct (InitiateCall_frame ctx message w) as (r & w' & Hrun & _ & Hc & _).
    rewrite Hrun. exact Hc.
Qed.

(** X7: when the dial fails, [InitiateCall] fails with "failed to make
    call" and has done nothing but dial: no call id is generated, no
    session is created or registered, the status is never polled. *)
Theorem InitiateCall_dial_failure (ctx : Context) (message : string) (w : World)
    (csys : callsystem.CallSystem) (e : error) :
  callSystem (mgr w) = Some csys ->
  callsystem.MakeCall csys (clock w) (config.UserPhoneNumber (config (mgr w))) = inl e ->
  exists w',
    InitiateCall ctx message w = (Returned (None, "", Some ("failed to make call: " +:+ e)), w')
    /\ mgr w' = mgr w /\ heap w' = heap w /\ clock w' = clock w
    /\ trace w' = trace w ++ [EvMakeCall (config.UserPhoneNumber (config (mgr w)))].
Proof.
  intros Hcs Hdial. eexists.
  split; [apply (InitiateCall_dial_failed ctx message w csys e Hcs Hdial)|].
  repeat split.
Qed.

Lemma InitiateCall_dial_failure_witness :
  let w := idleWorld (inl "number unreachable") None None in
  exists w',
    InitiateCall background "Hi, ready?" w
    = (Returned (None, "", Some ("failed to make call: " +:+ "number unreachable")), w')
    /\ mgr w' = mgr w /\ heap w' = heap w /\ clock w' = clock w
    /\ trace w' = trace w ++ [EvMakeCall (config.UserPhoneNumber (config (mgr w)))].
Proof.
  intros w.
  apply (InitiateCall_dial_failure background "Hi, ready?" w (dialer (inl "number unreachable"))).
  - reflexivity.
  - reflexivity.
Defined.

(** ** The answer wait, further *)

Lemma polls_step d d' :
  0 < d -> d' <= d - 500 * Millisecond -> (S (polls d') <= polls d)%nat.
Proof.
  unfold polls, Millisecond. intros Hd Hd'.
  assert (Hle : (d' + 500 * 1000000 - 1) `div` (500 * 1000000)
                <= (d + 500 * 1000000 - 1) `div` (500 * 1000000) - 1).
  { replace ((d + 500 * 1000000 - 1) `div` (500 * 1000000) - 1)
      with ((d + 500 * 1000000 - 1 + (-1) * (500 * 1000000)) `div` (500 * 1000000))
      by (rewrite Z.div_add by lia; lia).
    apply Z.div_le_mono; lia. }
  assert (Hpos : 1 <= (d + 500 * 1000000 - 1) `div` (500 * 1000000)).
  { replace 1 with ((500 * 1000000) `div` (500 * 1000000)) at 1 by reflexivity.
    apply Z.div_le_mono; lia. }
  lia.
Qed.

(** The loop polls at most once per period of 500ms left before the
    deadline, and does nothing but poll and sleep. *)
Lemma waitLoop_polls ctx call deadline fuel :
  forall w, exists es,
    trace (waitLoop fuel ctx call deadline w).2 = trace w ++ es
    /\ Forall (is_poll_or_sleep call) es
    /\ (statusPolls es <= polls (deadline - clock w))%nat
    /\ (deadline <= clock w \/ Done ctx (clock w) = true -> es = []).
Proof.
  induction fuel as [|fuel IH]; intros w.
  - exists []. simpl. rewrite app_nil_r. repeat split; auto. unfold statusPolls. simpl. lia.
  - cbn [waitLoop]. unfold bind at 1, timeNow, gets.
    destruct (Z.ltb_spec (clock w) deadline) as [Hlt|Hge].
    2:{ exists []. simpl. rewrite app_nil_r. repeat split; auto. unfold statusPolls. simpl. lia. }
    destruct (Done ctx (clock w)) eqn:Hdone.
    { exists []. simpl. rewrite app_nil_r. repeat split; auto. unfold statusPolls. simpl. lia. }
    unfold bind at 1, callStatus, bind, timeNow, gets, modify, ret.
    autorewrite with world.
    assert (Hone : (1 <= polls (deadline - clock w))%nat).
    { pose proof (polls_step (deadline - clock w) (deadline - clock w - 500 * Millisecond)
                    ltac:(lia) ltac:(lia)). lia. }
    assert (Hstop : exists es,
              trace (emit (EvStatus (callsystem.ID call)) w) = trace w ++ es
              /\ Forall (is_poll_or_sleep call) es
              /\ (statusPolls es <= polls (deadline - clock w))%nat
              /\ (deadline <= clock w \/ false = true -> es = [])).
    { exists [EvStatus (callsystem.ID call)]. split; [reflexivity|].
      split; [repeat constructor|]. split; [exact Hone|]. intros [?|?]; [lia|discriminate]. }
    destruct (callsystem.Status call (clock w)) as [| | | | |name]; try exact Hstop.
    unfold timeSleep, modify.
    match goal with |- context [waitLoop fuel ctx call deadline ?w1] =>
      destruct (IH w1) as (es & Htr & Hall & Hcount & _) end.
    autorewrite with world in Htr, Hcount.
    exists (EvStatus (callsystem.ID call) :: EvSleep (500 * Millisecond) :: es).
    split; [autorewrite with world; rewrite Htr, <- !app_assoc; reflexivity|].
    split; [constructor; [left; reflexivity|constructor; [right; reflexivity|exact Hall]]|].
    split; [|intros [?|?]; [lia|discriminate]].
    change (statusPolls (EvStatus (callsystem.ID call) :: EvSleep (500 * Millisecond) :: es))
      with (S (statusPolls es)).
    etrans; [|apply (polls_step (deadline - clock w)
                       (deadline - (clock w + 500 * Millisecond + Z.of_N (lag w (clock w)))));
              lia].
    lia.
Qed.

(** X8: the answer wait always returns, and it returns [true] exactly
    when one of its polls, taken before the deadline with the context
    not done, finds the call answered while every earlier poll found the
    context not done and a pending status.  It leaves the manager and the
    sessions as they were. *)
Theorem waitForAnswer_true_iff_answered (ctx : Context) (call : callsystem.Call)
    (timeout : Duration) (w : World) :
  exists b w',
    waitForAnswer ctx call timeout w = (Returned b, w')
    /\ (b = true <-> reaches_Answered (lag w) ctx call (clock w) timeout)
    /\ mgr w' = mgr w /\ heap w' = heap w.
Proof.
  destruct (waitForAnswer_spec ctx call timeout w) as (b & w' & Hrun & (Hm & Hh & _) & _ & Hiff).
  exists b, w'. auto.
Qed.

(** X9: the answer wait does nothing but poll the status of the leg and
    sleep 500ms, and it polls at most once per 500ms of the timeout, that
    is at most 60 times in the 30 seconds [InitiateCall] allows; with a
    timeout that is not positive or a context already done it does not
    poll at all. *)
Theorem waitForAnswer_polls_bounded (ctx : Context) (call : callsystem.Call)
    (timeout : Duration) (w : World) :
  (exists es,
     trace (waitForAnswer ctx call timeout w).2 = trace w ++ es
     /\ Forall (is_poll_or_sleep call) es
     /\ (statusPolls es <= polls timeout)%nat
     /\ (timeout <= 0 \/ Done ctx (clock w) = true -> es = []))
  /\ polls (30 * Second) = 60%nat.
Proof.
  split; [|reflexivity].
  unfold waitForAnswer, bind, timeNow, gets.
  destruct (waitLoop_polls ctx call (clock w + timeout) (S (polls timeout)) w)
    as (es & Htr & Hall & Hcount & Hnone).
  exists es. split; [exact Htr|]. split; [exact Hall|].
  split; [replace (clock w + timeout - clock w) with timeout in Hcount by lia; exact Hcount|].
  intros [Hle|Hdone]; apply Hnone; [left; lia|right; exact Hdone].
Qed.

(** ** Delivery of the audio *)

Lemma audible_cons_final chunk rest :
  tts.IsFinal chunk = true ->
  audible (chunk :: rest) =
  if (0 <? length (tts.Audio chunk))%nat then [tts.Audio chunk] else [].
Proof. intros Hf. unfold audible. simpl. rewrite Hf. simpl. reflexivity. Qed.

Lemma audible_cons_more chunk rest :
  tts.IsFinal chunk = false ->
  audible (chunk :: rest) =
  (if (0 <? length (tts.Audio chunk))%nat then [tts.Audio chunk] else []) ++ audible rest.
Proof.
  intros Hf. unfold audible. simpl. rewrite Hf. simpl.
  destruct (0 <? length (tts.Audio chunk))%nat; reflexivity.
Qed.

(** For every outcome, the frames written are an initial part of the
    frames to deliver, and nothing else is done. *)
Lemma streamAudio_prefix tr stream :
  forall w, exists frames,
    trace (streamAudio tr stream w).2 = trace w ++ (EvAudioWrite <$> frames)
    /\ frames `prefix_of` audible stream.
Proof.
  induction stream as [|chunk rest IH]; intros w.
  - exists []. simpl. rewrite app_nil_r. split; [reflexivity|apply prefix_nil].
  - cbn [streamAudio].
    destruct (tts.Error chunk) as [e|].
    { exists []. simpl. rewrite app_nil_r. split; [reflexivity|apply prefix_nil]. }
    unfold bind. destruct (tts.IsFinal chunk) eqn:Hf.
    + rewrite (audible_cons_final chunk rest Hf).
      destruct (0 <? length (tts.Audio chunk))%nat.
      * unfold audioWrite, bind, modify, ret. autorewrite with world.
        destruct (callsystem.AudioIn tr (tts.Audio chunk));
          (exists [tts.Audio chunk]; split; [reflexivity|reflexivity]).
      * exists []. simpl. rewrite app_nil_r. split; [reflexivity|reflexivity].
    + rewrite (audible_cons_more chunk rest Hf).
      destruct (0 <? length (tts.Audio chunk))%nat.
      * unfold audioWrite, bind, modify, ret. autorewrite with world.
        destruct (callsystem.AudioIn tr (tts.Audio chunk)).
        -- exists [tts.Audio chunk]. split; [reflexivity|]. apply prefix_app_r. reflexivity.
        -- destruct (IH (emit (EvAudioWrite (tts.Audio chunk)) w)) as (frames & Htr & Hp).
           exists (tts.Audio chunk :: frames). split.
           ++ rewrite Htr. autorewrite with world. rewrite <- app_assoc. reflexivity.
           ++ apply prefix_cons. exact Hp.
      * unfold ret at 1. cbv beta iota. exact (IH w).
Qed.

(** A return without error has written every frame to deliver. *)
Lemma streamAudio_complete tr stream :
  forall w w',
    streamAudio tr stream w = (Returned None, w') ->
    trace w' = trace w ++ (EvAudioWrite <$> audible stream).
Proof.
  induction stream as [|chunk rest IH]; intros w w'.
  - intros [= <-]. simpl. rewrite app_nil_r. reflexivity.
  - cbn [streamAudio].
    destruct (tts.Error chunk) as [e|]; [discriminate|].
    unfold bind. destruct (tts.IsFinal chunk) eqn:Hf.
    + rewrite (audible_cons_final chunk rest Hf).
      destruct (0 <? length (tts.Audio chunk))%nat.
      * unfold audioWrite, bind, modify, ret.
        destruct (callsystem.AudioIn tr (tts.Audio chunk)); [discriminate|].
        intros [= <-]. reflexivity.
      * unfold ret. intros [= <-]. simpl. rewrite app_nil_r. reflexivity.
    + rewrite (audible_cons_more chunk rest Hf).
      destruct (0 <? length (tts.Audio chunk))%nat.
      * unfold audioWrite, bind, modify, ret.
        destruct (callsystem.AudioIn tr (tts.Audio chunk)); [discriminate|].
        intros Hrun. apply IH in Hrun. rewrite Hrun. autorewrite with world.
        rewrite <- app_assoc. reflexivity.
      * unfold ret at 1. cbv beta iota. intros Hrun. apply IH in Hrun. exact Hrun.
Qed.

Lemma streamAudio_returns tr stream :
  forall w, exists r w', streamAudio tr stream w = (Returned r, w').
Proof.
  induction stream as [|chunk rest IH]; intros w; cbn [streamAudio].
  - eexists _, _. reflexivity.
  - destruct (tts.Error chunk) as [e|]; [eexists _, _; reflexivity|].
    unfold bind. destruct (0 <? length (tts.Audio chunk))%nat.
    + unfold audioWrite, bind, modify, ret.
      destruct (callsystem.AudioIn tr (tts.Audio chunk)); [eexists _, _; reflexivity|].
      destruct (tts.IsFinal chunk); [eexists _, _; reflexivity|apply IH].
    + unfold ret at 1. cbv beta iota.
      destruct (tts.IsFinal chunk); [eexists _, _; reflexivity|apply IH].
Qed.

(** [speak] on an existing session, step by step. *)
Lemma speak_run ctx l message w cs :
  heap w !! l = Some cs ->
  let w1 := emit (EvTransport (callsystem.ID (Call cs))) (with_turn l "assistant" message cs w) in
  speak ctx l message w =
  match callsystem.Transport (Call cs) (clock w) with
  | None => (Returned (Some "no transport connection available"), w1)
  | Some tr =>
      match ttsProvider (mgr w) with
      | None => (Panicked "nil dereference: ttsProvider", w1)
      | Some p =>
          let w2 := emit (EvSynthesize message (synthesisConfig (config (mgr w)))) w1 in
          match tts.SynthesizeStream p (clock w) message (synthesisConfig (config (mgr w))) with
          | inl e => (Returned (Some ("TTS synthesis failed: " +:+ e)), w2)
          | inr stream => streamAudio tr stream w2
          end
      end
  end.
Proof.
  intros Hl w1. unfold speak. unfold bind at 1. rewrite (AddTurn_run w l cs) by exact Hl.
  assert (Hl1 : heap (with_turn l "assistant" message cs w) !! l
                = Some (CallState.AddTurn (clock w) "assistant" message cs))
    by apply lookup_insert_eq.
  unfold bind at 1, load, bind at 1, gets, deref. rewrite Hl1.
  unfold ret at 1. cbv beta iota.
  unfold bind at 1, callTransport, bind, timeNow, gets, modify, ret.
  change (clock (with_turn l "assistant" message cs w)) with (clock w).
  change (Call (CallState.AddTurn (clock w) "assistant" message cs)) with (Call cs).
  destruct (callsystem.Transport (Call cs) (clock w)) as [tr|]; [|reflexivity].
  change (mgr (emit (EvTransport (callsystem.ID (Call cs)))
                 (with_turn l "assistant" message cs w))) with (mgr w).
  destruct (ttsProvider (mgr w)) as [p|]; [|reflexivity].
  unfold synthesizeStream, bind, timeNow, gets, modify, ret.
  change (clock (emit (EvTransport (callsystem.ID (Call cs)))
                   (with_turn l "assistant" message cs w))) with (clock w).
  destruct (tts.SynthesizeStream p (clock w) message _) as [e|stream]; reflexivity.
Qed.

(** X10: when [speak] returns without error, the session had a
    transport, the synthesis backend opened a stream, and what was done
    is exactly: the turn append, the transport lookup, the synthesis
    request, and the write of every non-empty frame of the stream up to
    and including its first final chunk, in the order of the stream. *)
Theorem speak_success_delivers_all (ctx : Context) (l : loc) (message : string)
    (w w' : World) (cs : CallState) :
  heap w !! l = Some cs ->
  speak ctx l message w = (Returned None, w') ->
  exists stream,
    synthesized w cs message = Some stream
    /\ trace w' =
       trace w ++ [EvTurn l "assistant" message; EvTransport (callsystem.ID (Call cs));
                   EvSynthesize message (synthesisConfig (config (mgr w)))]
               ++ (EvAudioWrite <$> audible stream).
Proof.
  intros Hl. rewrite (speak_run ctx l message w cs Hl). unfold synthesized.
  destruct (callsystem.Transport (Call cs) (clock w)) as [tr|]; [|discriminate].
  destruct (ttsProvider (mgr w)) as [p|]; [|discriminate].
  destruct (tts.SynthesizeStream p (clock w) message _) as [e|stream]; [discriminate|].
  intros Hrun. exists stream. split; [reflexivity|].
  apply streamAudio_complete in Hrun. rewrite Hrun. unfold with_turn.
  autorewrite with world. rewrite <- !app_assoc. reflexivity.
Qed.

(** A stream of three chunks: audio, no audio, final audio, and a fourth
    chunk after the final one. *)
Lemma speak_success_delivers_all_witness :
  let call := scriptedCall None (always callsystem.StatusAnswered) (Some openLine) in
  let stream := [frame [Byte.x01] false; frame [] false; frame [Byte.x02] true;
                 frame [Byte.x03] false] in
  let w := liveWorld call (Some (synthesizer (inr stream))) None in
  exists w',
    speak background 1%positive "Done." w = (Returned None, w')
    /\ audioWrites (trace w') = [[Byte.x01]; [Byte.x02]].
Proof.
  intros call stream w. exists (speak background 1%positive "Done." w).2.
  assert (Hrun : speak background 1%positive "Done." w
                 = (Returned None, (speak background 1%positive "Done." w).2))
    by (vm_compute; reflexivity).
  split; [exact Hrun|].
  destruct (speak_success_delivers_all background 1%positive "Done." w _ (liveSession call)
              ltac:(vm_compute; reflexivity) Hrun) as (stream' & Hs & Htr).
  injection Hs as <-. rewrite Htr. vm_compute. reflexivity.
Defined.

Lemma audioWrites_app es1 es2 : audioWrites (es1 ++ es2) = audioWrites es1 ++ audioWrites es2.
Proof. unfold audioWrites. apply omap_app. Qed.

Lemma audioWrites_frames frames : audioWrites (EvAudioWrite <$> frames) = frames.
Proof.
  induction frames as [|f frames IH]; [reflexivity|].
  change (audioWrites (EvAudioWrite <$> f :: frames))
    with (f :: audioWrites (EvAudioWrite <$> frames)).
  rewrite IH. reflexivity.
Qed.

(** X11: whatever [speak] returns, the frames it writes to the transport
    are an initial part, in order, of the non-empty frames of the
    synthesis stream up to its first final chunk; it writes nothing when
    the session has no transport, when the synthesis backend rejects the
    request, or when the backend is missing. *)
Theorem speak_writes_in_stream_order (ctx : Context) (l : loc) (message : string)
    (w : World) (cs : CallState) :
  heap w !! l = Some cs ->
  exists es,
    trace (speak ctx l message w).2 = trace w ++ es
    /\ audioWrites es `prefix_of` default [] (audible <$> synthesized w cs message).
Proof.
  intros Hl. rewrite (speak_run ctx l message w cs Hl). unfold synthesized.
  destruct (callsystem.Transport (Call cs) (clock w)) as [tr|].
  2:{ eexists. split; [cbn [snd]; unfold with_turn; autorewrite with world;
                       rewrite <- !app_assoc; reflexivity|]. apply prefix_nil. }
  destruct (ttsProvider (mgr w)) as [p|].
  2:{ eexists. split; [cbn [snd]; unfold with_turn; autorewrite with world;
                       rewrite <- !app_assoc; reflexivity|]. apply prefix_nil. }
  destruct (tts.SynthesizeStream p (clock w) message _) as [e|stream].
  { eexists. split; [cbn [snd]; unfold with_turn; autorewrite with world;
                     rewrite <- !app_assoc; reflexivity|]. apply prefix_nil. }
  match goal with |- context [streamAudio tr stream ?w2] =>
    destruct (streamAudio_prefix tr stream w2) as (frames & Htr & Hp) end.
  eexists. split.
  - rewrite Htr. unfold with_turn. autorewrite with world. rewrite <- !app_assoc. reflexivity.
  - simpl. rewrite audioWrites_frames. exact Hp.
Qed.

(** A transport that refuses every frame: only the first is offered. *)
Lemma speak_writes_in_stream_order_witness :
  let refusing := {| callsystem.AudioIn := fun _ => Some "broken pipe" |} in
  let call := scriptedCall None (always callsystem.StatusAnswered) (Some refusing) in
  let stream := [frame [Byte.x01] false; frame [Byte.x02] true] in
  let w := liveWorld call (Some (synthesizer (inr stream))) None in
  (speak background 1%positive "Done." w).1
    = Returned (Some "failed to write audio: broken pipe")
  /\ exists es,
       trace (speak background 1%positive "Done." w).2 = trace w ++ es
       /\ audioWrites es `prefix_of` [[Byte.x01]; [Byte.x02]].
Proof.
  intros refusing call stream w. split; [vm_compute; reflexivity|].
  apply (speak_writes_in_stream_order background 1%positive "Done." w (liveSession call)).
  vm_compute. reflexivity.
Defined.

(** ** Listening and speaking, further *)

(** X12: when [listen] is aborted, by an event that carries an error or
    by the context being done, it returns the running candidate together
    with the error, and appends nothing to the log, even when the
    candidate is not empty. *)
Theorem listen_abort_returns_candidate (ctx : Context) (l : loc) (w : World) (cs : CallState)
    (tr : callsystem.TransportConnection) (p : stt.StreamingProvider)
    (pre : list stt.StreamEvent) (abort : option (stt.StreamEvent * list stt.StreamEvent))
    (ending : stt.Ending) :
  heap w !! l = Some cs ->
  callsystem.Transport (Call cs) (clock w) = Some tr ->
  sttProvider (mgr w) = Some p ->
  stt.TranscribeStream p (clock w) (transcriptionConfig (config (mgr w))) =
    inr {| stt.received := pre ++ match abort with Some (e, post) => e :: post | None => [] end;
           stt.ending := ending |} ->
  Forall passes pre ->
  match abort with
  | Some (e, _) => is_Some (stt.Error e)
  | None => ending = stt.ContextDone
  end ->
  exists w',
    listen ctx l w =
      (Returned (candidate pre,
                 match abort with Some (e, _) => stt.Error e | None => Some (Err ctx) end), w')
    /\ heap w' = heap w.
Proof.
  intros Hl Htr Hp Hrun Hpre Habort.
  rewrite (listen_run ctx l w cs tr p _ Hl Htr Hp Hrun). cbn [stt.received stt.ending].
  rewrite listenLoop_passes by exact Hpre. fold (candidate pre).
  destruct abort as [[e post]|].
  - destruct Habort as [err Herr]. cbn [listenLoop]. rewrite Herr.
    eexists. split; [reflexivity|reflexivity].
  - subst ending. cbn [listenLoop]. eexists. split; [reflexivity|reflexivity].
Qed.

(** The recognizer hears "maybe", then its stream breaks. *)
Lemma listen_abort_returns_candidate_witness :
  let broken := {| stt.Transcript := ""; stt.IsFinal := false; stt.Error := Some "stream reset" |} in
  let w := listeningWorld [fragment "maybe" false; broken; fragment "maybe later" true] stt.Closed in
  exists w',
    listen background 1%positive w = (Returned ("maybe", Some "stream reset"), w')
    /\ heap w' = heap w.
Proof.
  intros broken w.
  apply (listen_abort_returns_candidate background 1%positive w
           (liveSession (scriptedCall None (always callsystem.StatusAnswered) (Some openLine)))
           openLine
           (recognizer (inr {| stt.received := [fragment "maybe" false; broken;
                                                fragment "maybe later" true];
                               stt.ending := stt.Closed |}))
           [fragment "maybe" false] (Some (broken, [fragment "maybe later" true])) stt.Closed).
  - vm_compute. reflexivity.
  - reflexivity.
  - reflexivity.
  - reflexivity.
  - repeat constructor.
  - eexists. reflexivity.
Defined.

(** X13: an error of [ContinueCall] or [InitiateCall] always comes with
    the empty response: a transcript that [listen] returned together with
    its error is not passed on.  The error of [ContinueCall] is "call not
    found" for an unknown id and starts with "failed to continue call"
    otherwise. *)
Theorem failed_call_returns_no_transcript (ctx : Context) (callID message : string)
    (w : World) :
  (forall response e w',
     ContinueCall ctx callID message w = (Returned (response, Some e), w') ->
     response = ""
     /\ (calls (mgr w) !! callID = None /\ e = "call not found: " +:+ callID
         \/ exists e', e = "failed to continue call: " +:+ e'))
  /\ (forall state response e w',
        InitiateCall ctx message w = (Returned (state, response, Some e), w') ->
        response = "").
Proof.
  split.
  - intros response e w'. destruct (calls (mgr w) !! callID) as [l|] eqn:Hreg.
    + rewrite (ContinueCall_registered ctx callID message w l Hreg).
      destruct (speakAndListen ctx l message w) as [[[response' [e'|]]|why] w2];
        intros [= <- <- <-]. split; [reflexivity|]. right. eauto.
    + unfold ContinueCall, bind. rewrite getCall_run, Hreg. intros [= <- <- <-]. auto.
  - intros state response e w'.
    destruct (callSystem (mgr w)) as [csys|] eqn:Hcs.
    2:{ unfold InitiateCall, bind, gets. simpl. rewrite Hcs. intros [= _ <- _ _]. reflexivity. }
    destruct (callsystem.MakeCall csys (clock w) (config.UserPhoneNumber (config (mgr w))))
      as [e0|call] eqn:Hdial.
    { rewrite (InitiateCall_dial_failed ctx message w csys e0 Hcs Hdial).
      intros [= _ <- _ _]. reflexivity. }
    destruct (InitiateCall_after_wait ctx message w csys call Hcs Hdial)
      as (b & w1 & _ & _ & _ & Hrun).
    rewrite Hrun. destruct b.
    + destruct (speakAndListen ctx (newLoc w) message w1) as [[[response' [e'|]]|why] w2];
        intros [= _ <- _ _]. reflexivity.
    + intros [= _ <- _ _]. reflexivity.
Qed.

(** The recognizer hears "maybe", then its stream breaks: [listen] has
    the candidate, [ContinueCall] returns none of it. *)
Lemma failed_call_returns_no_transcript_witness :
  let broken := {| stt.Transcript := ""; stt.IsFinal := false; stt.Error := Some "stream reset" |} in
  let w := listeningWorld [fragment "maybe" false; broken] stt.Closed in
  (listen background 1%positive w).1 = Returned ("maybe", Some "stream reset")
  /\ exists e w',
       ContinueCall background "call-1-0" "Shall I go on?" w = (Returned ("", Some e), w')
       /\ (calls (mgr w) !! "call-1-0" = None /\ e = "call not found: " +:+ "call-1-0"
           \/ exists e', e = "failed to continue call: " +:+ e').
Proof.
  intros broken w. split; [vm_compute; reflexivity|].
  assert (Hrun : ContinueCall background "call-1-0" "Shall I go on?" w =
                 (Returned ("", Some "failed to continue call: failed to listen: stream reset"),
                  (ContinueCall background "call-1-0" "Shall I go on?" w).2))
    by (vm_compute; reflexivity).
  eexists _, _. split; [exact Hrun|].
  exact (proj2 (proj1 (failed_call_returns_no_transcript background "call-1-0"
                         "Shall I go on?" w) _ _ _ Hrun)).
Defined.



Lemma speak_speech_only ctx l message w cs :
  heap w !! l = Some cs ->
  exists es,
    trace (speak ctx l message w).2 = trace w ++ EvTurn l "assistant" message :: es
    /\ Forall (fun e => is_speech e = true) es.
Proof.
  intros Hl. rewrite (speak_run ctx l message w cs Hl). cbv zeta.
  destruct (callsystem.Transport (Call cs) (clock w)) as [tr|].
  2:{ eexists. split; [cbn [snd]; unfold with_turn; autorewrite with world;
                       rewrite <- !app_assoc; reflexivity|]. repeat constructor. }
  destruct (ttsProvider (mgr w)) as [p|].
  2:{ eexists. split; [cbn [snd]; unfold with_turn; autorewrite with world;
                       rewrite <- !app_assoc; reflexivity|]. repeat constructor. }
  destruct (tts.SynthesizeStream p (clock w) message _) as [e|stream].
  { eexists. split; [cbn [snd]; unfold with_turn; autorewrite with world;
                     rewrite <- !app_assoc; reflexivity|]. repeat constructor. }
  match goal with |- context [streamAudio tr stream ?w2] =>
    destruct (streamAudio_prefix tr stream w2) as (frames & Htr & _) end.
  eexists. split.
  - rewrite Htr. unfold with_turn. autorewrite with world. rewrite <- !app_assoc. reflexivity.
  - constructor; [reflexivity|]. constructor; [reflexivity|].
    apply Forall_fmap, Forall_forall. intros f _. reflexivity.
Qed.

(** X15: [SpeakToUser] only speaks.  On a registered call, whatever it
    returns, it has appended exactly the assistant turn with the message,
    the last user message is what it was, the manager is unchanged, and
    after the append it has interacted with the transport and the
    synthesis backend only: it never opens a recognition session, polls
    the status, hangs up or sleeps. *)
Theorem SpeakToUser_only_speaks (ctx : Context) (callID message : string)
    (w : World) (l : loc) (cs : CallState) :
  calls (mgr w) !! callID = Some l ->
  heap w !! l = Some cs ->
  mgr (SpeakToUser ctx callID message w).2 = mgr w
  /\ heap (SpeakToUser ctx callID message w).2 =
     <[l := CallState.AddTurn (clock w) "assistant" message cs]> (heap w)
  /\ LastUserMessage (CallState.AddTurn (clock w) "assistant" message cs) = LastUserMessage cs
  /\ exists es,
       trace (SpeakToUser ctx callID message w).2
       = trace w ++ EvTurn l "assistant" message :: es
       /\ Forall (fun e => is_speech e = true) es.
Proof.
  intros Hreg Hl. rewrite (SpeakToUser_registered ctx callID message w l Hreg).
  pose proof (speak_frame ctx l message w cs Hl) as (Hm & Hh & _).
  destruct (speak_speech_only ctx l message w cs Hl) as (es & Htr & Hes).
  destruct (speak ctx l message w) as [[[e|]|why] w1]; simpl in *;
    (split; [exact Hm|]); (split; [exact Hh|]); (split; [reflexivity|]);
    exists es; auto.
Qed.

Lemma SpeakToUser_only_speaks_witness :
  let call := scriptedCall None (always callsystem.StatusAnswered) (Some openLine) in
  let w := listeningWorld [fragment "yes" true] stt.Closed in
  (SpeakToUser background "call-1-0" "One moment." w).1 = Returned None
  /\ exists es,
       trace (SpeakToUser background "call-1-0" "One moment." w).2
       = trace w ++ EvTurn 1%positive "assistant" "One moment." :: es
       /\ Forall (fun e => is_speech e = true) es.
Proof.
  intros call w. split; [vm_compute; reflexivity|].
  apply (SpeakToUser_only_speaks background "call-1-0" "One moment." w 1%positive
           (liveSession call)).
  - vm_compute. reflexivity.
  - vm_compute. reflexivity.
Defined.

(** ** EndCall, further *)

Lemma speak_returns ctx l message w cs :
  heap w !! l = Some cs ->
  callsystem.Transport (Call cs) (clock w) = None \/ is_Some (ttsProvider (mgr w)) ->
  exists r w', speak ctx l message w = (Returned r, w').
Proof.
  intros Hl Hok. rewrite (speak_run ctx l message w cs Hl). cbv zeta.
  destruct (callsystem.Transport (Call cs) (clock w)) as [tr|]; [|eexists _, _; reflexivity].
  destruct Hok as [Hnone|[p Hp]]; [discriminate|]. rewrite Hp.
  destruct (tts.SynthesizeStream p (clock w) message _) as [e|stream];
    [eexists _, _; reflexivity|apply streamAudio_returns].
Qed.

(** The first phase of [EndCall], when it returns: the farewell was
    spoken, or at least tried, and two seconds or more have passed; or
    there was no message and nothing happened. *)
Lemma farewell_returned ctx l message w w1 :
  farewell ctx l message w = (Returned tt, w1) ->
  clock w1 = (if nonempty message
              then clock w + 2 * Second + Z.of_N (lag w (clock w)) else clock w)
  /\ exists es, trace w1 = trace w ++ es.
Proof.
  unfold farewell. destruct (nonempty message).
  - unfold bind. destruct (speak_clock ctx l message w) as [Hc Hg].
    destruct (heap w !! l) as [cs|] eqn:Hl.
    + destruct (speak_speech_only ctx l message w cs Hl) as (es & Htr & _).
      destruct (speak ctx l message w) as [[r|why] w0]; [|discriminate].
      simpl in Hc, Hg, Htr. unfold timeSleep, modify. intros [= <-].
      autorewrite with world. rewrite Hc, Hg, Htr. split; [reflexivity|].
      eexists. rewrite <- app_assoc. reflexivity.
    + unfold speak, bind. rewrite AddTurn_dangling by exact Hl. discriminate.
  - intros [= <-]. split; [reflexivity|]. exists []. rewrite app_nil_r. reflexivity.
Qed.

(** X16: the farewell of [EndCall] is best effort.  On a registered call
    whose leg accepts the hangup, [EndCall] hangs up, removes the call
    and returns no error whatever became of the message (no transport,
    synthesis refused, a write that fails); the hangup is the last thing
    it does, and the id is unknown afterwards. *)
Theorem EndCall_hangs_up_whatever_the_farewell (ctx : Context) (callID message : string)
    (w : World) (l : loc) (cs : CallState) :
  calls (mgr w) !! callID = Some l ->
  heap w !! l = Some cs ->
  is_Some (ttsProvider (mgr w)) ->
  (forall t, callsystem.Hangup (Call cs) t = None) ->
  exists d w',
    EndCall ctx callID message w = (Returned (d, None), w')
    /\ calls (mgr w') = delete callID (calls (mgr w))
    /\ (exists es, trace w' = trace w ++ es ++ [EvHangup (callsystem.ID (Call cs))])
    /\ ContinueCall ctx callID message w'
       = (Returned ("", Some ("call not found: " +:+ callID)), w').
Proof.
  intros Hreg Hl Htts Hhang.
  assert (Hfirst : exists w1, farewell ctx l message w = (Returned tt, w1)).
  { unfold farewell. destruct (nonempty message); [|eexists; reflexivity].
    destruct (speak_returns ctx l message w cs Hl (or_intror Htts)) as (r & w0 & Hs).
    unfold bind. rewrite Hs. eexists. reflexivity. }
  destruct Hfirst as [w1 Hfirst].
  destruct (farewell_frame ctx l message w) as ([Hm Hs] & _ & _).
  rewrite Hfirst in Hm, Hs. simpl in Hm, Hs.
  destruct (Hs l cs Hl) as (cs1 & Hl1 & _ & Hcall).
  destruct (farewell_returned ctx l message w w1 Hfirst) as (_ & es & Htr).
  rewrite (EndCall_cases ctx callID message w l _ w1 Hreg Hfirst), Hl1, Hcall, Hhang.
  eexists _, _. split; [reflexivity|]. autorewrite with world. rewrite Hm.
  split; [reflexivity|]. split; [exists es; rewrite Htr, app_assoc; reflexivity|].
  unfold ContinueCall, bind. rewrite getCall_run. autorewrite with world.
  rewrite lookup_delete_eq. reflexivity.
Qed.

(** A call without transport: the goodbye cannot be spoken, the call is
    ended all the same. *)
Lemma EndCall_hangs_up_whatever_the_farewell_witness :
  let call := scriptedCall None (always callsystem.StatusAnswered) None in
  let w := liveWorld call (Some (synthesizer (inr [frame [Byte.x7f] true]))) None in
  (speak background 1%positive "Goodbye" w).1
    = Returned (Some "no transport connection available")
  /\ exists d w',
       EndCall background "call-1-0" "Goodbye" w = (Returned (d, None), w')
       /\ calls (mgr w') = delete "call-1-0" (calls (mgr w)).
Proof.
  intros call w. split; [vm_compute; reflexivity|].
  destruct (EndCall_hangs_up_whatever_the_farewell background "call-1-0" "Goodbye" w
              1%positive (liveSession call))
    as (d & w' & Hrun & Hc & _).
  - vm_compute. reflexivity.
  - vm_compute. reflexivity.
  - eexists. reflexivity.
  - reflexivity.
  - exists d, w'. split; [exact Hrun|exact Hc].
Defined.



(** ** Call ids, further *)

Lemma append_inv_head s : forall a b, s +:+ a = s +:+ b -> a = b.
Proof.
  induction s as [|c s IH]; intros a b; [auto|].
  rewrite !append_cons. intros [= H]. apply IH, H.
Qed.

(** X18: a call id determines the value of the counter it was made from
    and the second it was made in: two ids are the same string exactly
    when both agree.  The ids of two managers, or of two runs of the
    process, collide only for the same counter value in the same
    second. *)
Theorem call_id_determines_counter_and_second (w1 w2 : World) :
  (generateCallID w1).1 = (generateCallID w2).1
  <-> callCounter (mgr (generateCallID w1).2) = callCounter (mgr (generateCallID w2).2)
      /\ Unix (clock w1) = Unix (clock w2).
Proof.
  rewrite !generateCallID_run. cbn [fst snd]. autorewrite with world.
  unfold nextCallID. cbn [fst snd]. split.
  - intros Heq.
    apply (f_equal (fun o => match o with Returned s => s | Panicked s => s end)) in Heq.
    cbv beta iota in Heq.
    assert (Hc : wrap64 (callCounter (mgr w1) + 1) = wrap64 (callCounter (mgr w2) + 1)).
    { apply (nextCallID_inj_counter _ _ (clock w1) (clock w2)). unfold nextCallID.
      cbn [snd]. exact Heq. }
    split; [exact Hc|]. rewrite Hc in Heq.
    apply append_inv_head, append_inv_head, append_inv_head in Heq.
    apply (inj pretty). exact Heq.
  - intros [-> ->]. reflexivity.
Qed.

(** ** Initialize, and what follows a failure *)

(** X19: [Initialize] does not undo what it has done when a later
    constructor fails.  It records the public URL in every case; the
    call system, the synthesis provider and the recognition provider are
    set one after the other, each only if the constructors before it
    succeeded, and the error names the first constructor that failed.
    The registry, the counter and the sessions are untouched. *)
Theorem Initialize_sets_providers_in_order (make : Constructors) (url : string) (w : World) :
  let r := (Initialize make url w).1 in
  let m' := mgr (Initialize make url w).2 in
  publicURL m' = url
  /\ calls m' = calls (mgr w) /\ callCounter m' = callCounter (mgr w)
  /\ config m' = config (mgr w)
  /\ heap (Initialize make url w).2 = heap w
  /\ trace (Initialize make url w).2 = trace w
  /\ match newCallSystem make (url +:+ "/media-stream"), newElevenLabs make, newDeepgram make with
     | inl e, _, _ =>
         r = Returned (Some ("failed to create callsystem: " +:+ e))
         /\ callSystem m' = callSystem (mgr w)
         /\ ttsProvider m' = ttsProvider (mgr w) /\ sttProvider m' = sttProvider (mgr w)
     | inr cs, inl e, _ =>
         r = Returned (Some ("failed to create ElevenLabs client: " +:+ e))
         /\ callSystem m' = Some cs
         /\ ttsProvider m' = ttsProvider (mgr w) /\ sttProvider m' = sttProvider (mgr w)
     | inr cs, inr voice, inl e =>
         r = Returned (Some ("failed to create Deepgram provider: " +:+ e))
         /\ callSystem m' = Some cs
         /\ ttsProvider m' = Some voice /\ sttProvider m' = sttProvider (mgr w)
     | inr cs, inr voice, inr ears =>
         r = Returned None
         /\ callSystem m' = Some cs /\ ttsProvider m' = Some voice /\ sttProvider m' = Some ears
     end.
Proof.
  unfold Initialize, bind, modify, ret.
  destruct (newCallSystem make (url +:+ "/media-stream")) as [e|cs];
    [|destruct (newElevenLabs make) as [e|voice];
      [|destruct (newDeepgram make) as [e|ears]]];
    cbn; repeat split.
Qed.

(** X20: after an [Initialize] that created the call system but failed
    to create the synthesis client, on a manager that had no synthesis
    provider, [InitiateCall] is not refused as "not initialized": it
    dials, and when the call is answered and has a transport it panics
    on the nil synthesis provider, leaving the session registered. *)
Theorem InitiateCall_after_failed_Initialize (make : Constructors) (url : string)
    (ctx : Context) (message : string) (w : World)
    (csys : callsystem.CallSystem) (e : error) (call : callsystem.Call)
    (tr : callsystem.TransportConnection) :
  ttsProvider (mgr w) = None ->
  newCallSystem make (url +:+ "/media-stream") = inr csys ->
  newElevenLabs make = inl e ->
  callsystem.MakeCall csys (clock w) (config.UserPhoneNumber (config (mgr w))) = inr call ->
  reaches_Answered (lag w) ctx call (clock w) (30 * Second) ->
  (forall t, callsystem.Transport call t = Some tr) ->
  exists w1 w2,
    Initialize make url w
      = (Returned (Some ("failed to create ElevenLabs client: " +:+ e)), w1)
    /\ InitiateCall ctx message w1 = (Panicked "nil dereference: ttsProvider", w2)
    /\ calls (mgr w2) !! newCallID w1 = Some (newLoc w1).
Proof.
  intros Htts Hcs Hel Hdial Hans Htr.
  assert (Hinit : exists w1,
            Initialize make url w
              = (Returned (Some ("failed to create ElevenLabs client: " +:+ e)), w1)
            /\ w1 = set_mgr (set_callSystem (Some csys) (set_publicURL url (mgr w))) w).
  { unfold Initialize, bind, modify, ret. rewrite Hcs, Hel. eexists. split; reflexivity. }
  destruct Hinit as (w1 & Hinit & Hw1). exists w1.
  assert (Hcs1 : callSystem (mgr w1) = Some csys) by (rewrite Hw1; reflexivity).
  assert (Hdial1 : callsystem.MakeCall csys (clock w1)
                     (config.UserPhoneNumber (config (mgr w1))) = inr call)
    by (rewrite Hw1; exact Hdial).
  destruct (InitiateCall_after_wait ctx message w1 csys call Hcs1 Hdial1)
    as (b & w3 & Hback & _ & Hiff & Hrun).
  assert (Hb : b = true) by (apply Hiff; rewrite Hw1; exact Hans). subst b.
  assert (Hl3 : heap w3 !! newLoc w1 = Some (newSession w1 call)).
  { rewrite (backend_only_heap _ _ Hback). apply lookup_insert_eq. }
  assert (Hm3 : mgr w3 = mgr (dialedWorld w1 call)) by apply backend_only_mgr, Hback.
  assert (Hspeak : speakAndListen ctx (newLoc w1) message w3
                   = (Panicked "nil dereference: ttsProvider",
                      emit (EvTransport (callsystem.ID call))
                        (with_turn (newLoc w1) "assistant" message (newSession w1 call) w3))).
  { unfold speakAndListen, bind.
    rewrite (speak_run ctx (newLoc w1) message w3 _ Hl3). cbv zeta.
    cbn [Call newSession]. rewrite Htr, Hm3.
    assert (Hnone : ttsProvider (mgr (dialedWorld w1 call)) = None)
      by (rewrite Hw1; exact Htts).
    rewrite Hnone. reflexivity. }
  rewrite Hspeak in Hrun. eexists. split; [exact Hinit|]. split; [exact Hrun|].
  unfold with_turn. autorewrite with world. rewrite Hm3.
  unfold dialedWorld. cbn [mgr]. autorewrite with world. apply lookup_insert_eq.
Qed.

Lemma InitiateCall_after_failed_Initialize_witness :
  let call := scriptedCall None (always callsystem.StatusAnswered) (Some openLine) in
  let make := {| newCallSystem := fun _ => inr (dialer (inr call));
                 newElevenLabs := inl "invalid API key";
                 newDeepgram := inr (recognizer (inl "unused")) |} in
  exists w1 w2,
    Initialize make "https://agent.example" newWorld
      = (Returned (Some ("failed to create ElevenLabs client: " +:+ "invalid API key")), w1)
    /\ InitiateCall background "Hi, ready?" w1 = (Panicked "nil dereference: ttsProvider", w2)
    /\ calls (mgr w2) !! newCallID w1 = Some (newLoc w1).
Proof.
  intros call make.
  apply (InitiateCall_after_failed_Initialize make "https://agent.example" background
           "Hi, ready?" newWorld (dialer (inr call)) "invalid API key" call openLine).
  - reflexivity.
  - reflexivity.
  - reflexivity.
  - reflexivity.
  - exists 0%nat. split; [reflexivity|]. split; [reflexivity|]. split; [reflexivity|].
    intros j Hj. lia.
  - reflexivity.
Defined.

(** ** The tools *)

(** X21: when [InitiateCall] fails after the call was answered, the
    [initiate_call] tool returns the empty output with the error "failed
    to initiate call: failed to speak: ...": the caller is not told the
    call id, although the session stays registered under it. *)
Theorem initiate_call_failure_hides_call_id (ctx : Context) (message : string) (w w' : World)
    (csys : callsystem.CallSystem) (call : callsystem.Call)
    (out : tools.InitiateCallOutput.t) (e : error) :
  callSystem (mgr w) = Some csys ->
  callsystem.MakeCall csys (clock w) (config.UserPhoneNumber (config (mgr w))) = inr call ->
  reaches_Answered (lag w) ctx call (clock w) (30 * Second) ->
  tools.initiate_call ctx message w = (Returned (out, Some e), w') ->
  tools.InitiateCallOutput.CallID out = ""
  /\ tools.InitiateCallOutput.Response out = ""
  /\ (exists e', e = "failed to initiate call: failed to speak: " +:+ e')
  /\ calls (mgr w') !! newCallID w = Some (newLoc w).
Proof.
  intros Hcs Hdial Hans.
  destruct (InitiateCall_after_wait ctx message w csys call Hcs Hdial)
    as (b & w1 & Hback & _ & Hiff & Hrun).
  assert (Hb : b = true) by (apply Hiff, Hans). subst b.
  unfold tools.initiate_call, bind. rewrite Hrun.
  pose proof (speakAndListen_kept ctx (newLoc w) message w1) as [Hm Hs].
  assert (Hl1 : heap w1 !! newLoc w = Some (newSession w call)).
  { rewrite (backend_only_heap _ _ Hback). apply lookup_insert_eq. }
  destruct (Hs _ _ Hl1) as (cs2 & Hl2 & _).
  assert (Hreg : calls (mgr (speakAndListen ctx (newLoc w) message w1).2) !! newCallID w
                 = Some (newLoc w)).
  { rewrite Hm, (backend_only_mgr _ _ Hback). unfold dialedWorld. cbn [mgr].
    autorewrite with world. apply lookup_insert_eq. }
  destruct (speakAndListen ctx (newLoc w) message w1) as [[[response [e1|]]|why] w2];
    simpl in *.
  - unfold ret. intros [= <- <- <-]. repeat split; eauto.
  - unfold tools.loadPtr, load, bind, gets, deref, ret. rewrite Hl2. discriminate.
  - discriminate.
Qed.

Lemma initiate_call_failure_hides_call_id_witness :
  let call := scriptedCall None (always callsystem.StatusAnswered) None in
  let w := idleWorld (inr call) None None in
  exists out e w',
    tools.initiate_call background "Hi, ready?" w = (Returned (out, Some e), w')
    /\ tools.InitiateCallOutput.CallID out = ""
    /\ calls (mgr w') !! "call-1-0" = Some 1%positive.
Proof.
  intros call w.
  assert (Hrun : tools.initiate_call background "Hi, ready?" w =
                 (Returned ({| tools.InitiateCallOutput.CallID := "";
                               tools.InitiateCallOutput.Response := "" |},
                            Some "failed to initiate call: failed to speak: no transport connection available"),
                  (tools.initiate_call background "Hi, ready?" w).2))
    by (vm_compute; reflexivity).
  destruct (initiate_call_failure_hides_call_id background "Hi, ready?" w _
              (dialer (inr call)) call _ _ eq_refl eq_refl
              ltac:(exists 0%nat; split; [reflexivity|]; split; [reflexivity|];
                    split; [reflexivity|]; intros j Hj; lia) Hrun)
    as (Hid & _ & _ & Hreg).
  eexists _, _, _. split; [exact Hrun|]. split; [exact Hid|exact Hreg].
Defined.

(** X22: the call id the [initiate_call] tool returns is the id the
    session is registered under: [GetCall] on it finds the session, whose
    [ID] is that id, so that the id can be given to the other tools. *)
Theorem initiate_call_returns_registered_id (ctx : Context) (message : string) (w w' : World)
    (out : tools.InitiateCallOutput.t) :
  tools.initiate_call ctx message w = (Returned (out, None), w') ->
  exists l cs,
    GetCall (tools.InitiateCallOutput.CallID out) w' = (Returned (Some l), w')
    /\ heap w' !! l = Some cs
    /\ ID cs = tools.InitiateCallOutput.CallID out
    /\ tools.InitiateCallOutput.CallID out = newCallID w.
Proof.
  unfold tools.initiate_call, bind.
  destruct (callSystem (mgr w)) as [csys|] eqn:Hcs.
  2:{ unfold InitiateCall, bind, gets. simpl. rewrite Hcs. discriminate. }
  destruct (callsystem.MakeCall csys (clock w) (config.UserPhoneNumber (config (mgr w))))
    as [e0|call] eqn:Hdial.
  { rewrite (InitiateCall_dial_failed ctx message w csys e0 Hcs Hdial). discriminate. }
  destruct (InitiateCall_after_wait ctx message w csys call Hcs Hdial)
    as (b & w1 & Hback & _ & _ & Hrun).
  rewrite Hrun. destruct b; [|discriminate].
  pose proof (speakAndListen_kept ctx (newLoc w) message w1) as [Hm Hs].
  assert (Hl1 : heap w1 !! newLoc w = Some (newSession w call)).
  { rewrite (backend_only_heap _ _ Hback). apply lookup_insert_eq. }
  destruct (Hs _ _ Hl1) as (cs2 & Hl2 & Hid2 & _).
  assert (Hreg : calls (mgr (speakAndListen ctx (newLoc w) message w1).2) !! newCallID w
                 = Some (newLoc w)).
  { rewrite Hm, (backend_only_mgr _ _ Hback). unfold dialedWorld. cbn [mgr].
    autorewrite with world. apply lookup_insert_eq. }
  destruct (speakAndListen ctx (newLoc w) message w1) as [[[response [e1|]]|why] w2];
    simpl in *; try discriminate.
  unfold tools.loadPtr, load, bind, gets, deref, ret. rewrite Hl2.
  intros [= <- <-]. cbn [tools.InitiateCallOutput.CallID].
  exists (newLoc w), cs2. unfold GetCall. rewrite getCall_run.
  change (ID (newSession w call)) with (newCallID w) in Hid2.
  rewrite Hid2, Hreg. auto.
Qed.

Lemma initiate_call_returns_registered_id_witness :
  let call := scriptedCall None (always callsystem.StatusAnswered) (Some openLine) in
  let w := idleWorld (inr call)
             (Some (synthesizer (inr [frame [Byte.x7f] true])))
             (Some (recognizer (inr {| stt.received := [fragment "yes go ahead" true];
                                       stt.ending := stt.TimerFired |}))) in
  exists w' l,
    tools.initiate_call background "Hi, ready?" w
    = (Returned ({| tools.InitiateCallOutput.CallID := "call-1-0";
                    tools.InitiateCallOutput.Response := "yes go ahead" |}, None), w')
    /\ GetCall "call-1-0" w' = (Returned (Some l), w').
Proof.
  intros call w.
  assert (Hrun : tools.initiate_call background "Hi, ready?" w =
                 (Returned ({| tools.InitiateCallOutput.CallID := "call-1-0";
                               tools.InitiateCallOutput.Response := "yes go ahead" |}, None),
                  (tools.initiate_call background "Hi, ready?" w).2))
    by (vm_compute; reflexivity).
  destruct (initiate_call_returns_registered_id background "Hi, ready?" w _ _ Hrun)
    as (l & cs & Hget & _).
  eexists _, l. split; [exact Hrun|exact Hget].
Defined.

(** X23: on a call id that is not registered, the tools [continue_call],
    [speak_to_user] and [end_call] fail with their own prefix in front of
    "call not found", return their zero output, and change nothing. *)
Theorem tools_on_unknown_call (ctx : Context) (callID message : string) (w : World) :
  calls (mgr w) !! callID = None ->
  tools.continue_call ctx callID message w
    = (Returned ({| tools.ContinueCallOutput.Response := "" |},
                 Some ("failed to continue call: call not found: " +:+ callID)), w)
  /\ tools.speak_to_user ctx callID message w
     = (Returned ({| tools.SpeakToUserOutput.Success := false |},
                  Some ("failed to speak: call not found: " +:+ callID)), w)
  /\ tools.end_call ctx callID message w
     = (Returned (0, Some ("failed to end call: call not found: " +:+ callID)), w).
Proof.
  intros Hnone.
  unfold tools.continue_call, tools.speak_to_user, tools.end_call,
    ContinueCall, SpeakToUser, EndCall, bind.
  rewrite getCall_run, Hnone. unfold ret.
  rewrite !append_cons, !append_nil_l. repeat split.
Qed.

Lemma tools_on_unknown_call_witness :
  tools.continue_call background "call-7-0" "Hello" newWorld
  = (Returned ({| tools.ContinueCallOutput.Response := "" |},
               Some ("failed to continue call: call not found: " +:+ "call-7-0")), newWorld).
Proof.
  apply (tools_on_unknown_call background "call-7-0" "Hello" newWorld). reflexivity.
Defined.

(** X24: an error of the manager on a registered call reaches the caller
    of a tool with the prefix twice: [continue_call] fails with "failed
    to continue call: failed to continue call: ..." and [speak_to_user]
    with "failed to speak: failed to speak: ...", each with its zero
    output. *)
Theorem tool_errors_are_prefixed_twice (ctx : Context) (callID message : string)
    (w : World) (l : loc) :
  calls (mgr w) !! callID = Some l ->
  (forall out e w',
     tools.continue_call ctx callID message w = (Returned (out, Some e), w') ->
     tools.ContinueCallOutput.Response out = ""
     /\ exists e', e = "failed to continue call: failed to continue call: " +:+ e')
  /\ (forall out e w',
        tools.speak_to_user ctx callID message w = (Returned (out, Some e), w') ->
        tools.SpeakToUserOutput.Success out = false
        /\ exists e', e = "failed to speak: failed to speak: " +:+ e').
Proof.
  intros Hreg. split.
  - intros out e w'. unfold tools.continue_call, bind.
    rewrite (ContinueCall_registered ctx callID message w l Hreg).
    destruct (speakAndListen ctx l message w) as [[[response [e1|]]|why] w2];
      unfold ret; intros [= <- <- <-].
    split; [reflexivity|]. exists e1. rewrite !append_cons, !append_nil_l. reflexivity.
  - intros out e w'. unfold tools.speak_to_user, bind.
    rewrite (SpeakToUser_registered ctx callID message w l Hreg).
    destruct (speak ctx l message w) as [[[e1|]|why] w2];
      unfold ret; intros [= <- <- <-].
    split; [reflexivity|]. exists e1. rewrite !append_cons, !append_nil_l. reflexivity.
Qed.

Lemma tool_errors_are_prefixed_twice_witness :
  let call := scriptedCall None (always callsystem.StatusAnswered) None in
  let w := liveWorld call None None in
  exists out e w',
    tools.speak_to_user background "call-1-0" "One moment." w = (Returned (out, Some e), w')
    /\ e = "failed to speak: failed to speak: no transport connection available"
    /\ tools.SpeakToUserOutput.Success out = false.
Proof.
  intros call w.
  assert (Hrun : tools.speak_to_user background "call-1-0" "One moment." w =
                 (Returned ({| tools.SpeakToUserOutput.Success := false |},
                            Some "failed to speak: failed to speak: no transport connection available"),
                  (tools.speak_to_user background "call-1-0" "One moment." w).2))
    by (vm_compute; reflexivity).
  destruct (proj2 (tool_errors_are_prefixed_twice background "call-1-0" "One moment." w
                     1%positive ltac:(vm_compute; reflexivity)) _ _ _ Hrun) as [Hs _].
  eexists _, _, _. split; [exact Hrun|]. split; [reflexivity|exact Hs].
Defined.

(** ** Package config *)

Lemma nonempty_false (s : string) : nonempty s = false <-> s = "".
Proof. destruct s; simpl; split; congruence. Qed.

(** The names reported are those of the empty required settings, in the
    order of the table. *)
Lemma missingVariables_filter (c : configuration.Config) :
  configuration.missingVariables c
  = (List.filter (fun p => negb (nonempty (p.2 c))) configuration.required).*1.
Proof.
  destruct c as [port prov sid tok num usr el voice tmod dg smod lang sil ng dom tout].
  unfold configuration.missingVariables, configuration.required. cbn.
  destruct sid, tok, num, usr, el, dg, ng; reflexivity.
Qed.

Lemma Validate_nil_iff (c : configuration.Config) :
  configuration.Validate c = None
  <-> configuration.PhoneAccountSID c <> "" /\ configuration.PhoneAuthToken c <> ""
      /\ configuration.PhoneNumber c <> "" /\ configuration.UserPhoneNumber c <> ""
      /\ configuration.ElevenLabsAPIKey c <> "" /\ configuration.DeepgramAPIKey c <> ""
      /\ configuration.NgrokAuthToken c <> "".
Proof.
  destruct c as [port prov sid tok num usr el voice tmod dg smod lang sil ng dom tout].
  unfold configuration.Validate, configuration.missingVariables. cbn.
  destruct sid, tok, num, usr, el, dg, ng; cbn;
    (split; [discriminate || (intros _; repeat split; discriminate)
            | (intros (? & ? & ? & ? & ? & ? & ?); congruence) || reflexivity]).
Qed.

(** [Validate] looks at the seven required settings only. *)
Lemma Validate_ext (c1 c2 : configuration.Config) :
  (forall name field, In (name, field) configuration.required -> field c1 = field c2) ->
  configuration.Validate c1 = configuration.Validate c2.
Proof.
  intros H. unfold configuration.Validate. rewrite !missingVariables_filter.
  unfold configuration.required in *.
  cbn [List.filter snd].
  rewrite !(H _ _ (or_introl eq_refl)).
  rewrite !(H _ _ (or_intror (or_introl eq_refl))).
  rewrite !(H _ _ (or_intror (or_intror (or_introl eq_refl)))).
  rewrite !(H _ _ (or_intror (or_intror (or_intror (or_introl eq_refl))))).
  rewrite !(H _ _ (or_intror (or_intror (or_intror (or_intror (or_introl eq_refl)))))).
  rewrite !(H _ _ (or_intror (or_intror (or_intror (or_intror (or_intror (or_introl eq_refl))))))).
  rewrite !(H _ _ (or_intror (or_intror (or_intror (or_intror (or_intror (or_intror (or_introl eq_refl)))))))).
  reflexivity.
Qed.

(** Names the values that [LoadFromEnv] binds one after the other. *)
Ltac name_lets :=
  repeat match goal with
  | |- context G [let x := ?v in @?b x] =>
      let n := fresh "cfg" in
      pose (n := v);
      let g := context G [b n] in
      let g' := eval cbv beta in g in
      change g'
  end.

(** A field that a step of [LoadFromEnv] does not assign is the same
    before and after the step. *)
Ltac untouched :=
  repeat match goal with
  | |- context [if ?b then _ else _] => destruct b
  | |- context [match ?o with Some _ => _ | None => _ end] => destruct o
  end; reflexivity.

Ltac back F :=
  repeat match goal with
  | |- context [F ?c] =>
      is_var c;
      let body := eval cbv delta [c] in c in
      match body with
      | if _ then _ else ?y => replace (F c) with (F y) by (unfold c; untouched)
      | if _ then ?y else _ => replace (F c) with (F y) by (unfold c; untouched)
      | _ ?v ?y => is_var y; replace (F c) with (F y) by (unfold c; reflexivity)
      end
  end.

(** A block of [LoadFromEnv] leaves alone the fields it does not assign. *)
Ltac unfold_blocks :=
  unfold configuration.loadServerPort, configuration.loadPhoneProvider,
    configuration.loadElevenLabsTTS, configuration.loadDeepgramSTT,
    configuration.loadNgrok, configuration.loadTranscriptTimeout;
  cbv zeta.

Ltac by_cases :=
  repeat (match goal with
          | |- context [if ?b then _ else _] => destruct b
          | |- context [match ?o with Some _ => _ | None => _ end] => destruct o
          end; cbv beta iota).

Ltac skip_blocks F :=
  repeat match goal with
  | |- context [F (?g ?c)] =>
      lazymatch type of c with configuration.Config => idtac end;
      replace (F (g c)) with (F c)
        by (generalize c; intros ?; unfold_blocks; by_cases; reflexivity)
  end.

Lemma either_fallback (a b : string) (c : configuration.Config)
    (set : string -> configuration.Config -> configuration.Config)
    (F : configuration.Config -> string) :
  (forall v c, F (set v c) = v) ->
  F (if nonempty (F (set a c)) then set a c else set b (set a c))
  = if nonempty a then a else b.
Proof. intros H. rewrite !H. destruct (nonempty a); rewrite H; reflexivity. Qed.

Lemma LoadFromEnv_required (Sscanf : string -> option Z) (env : configuration.Environ) :
  let cfg := (configuration.LoadFromEnv Sscanf env).1 in
  let either (a b : string) := if nonempty a then a else b in
  configuration.PhoneAccountSID cfg = configuration.Getenv env "AGENTCALL_PHONE_ACCOUNT_SID"
  /\ configuration.PhoneAuthToken cfg = configuration.Getenv env "AGENTCALL_PHONE_AUTH_TOKEN"
  /\ configuration.PhoneNumber cfg = configuration.Getenv env "AGENTCALL_PHONE_NUMBER"
  /\ configuration.UserPhoneNumber cfg = configuration.Getenv env "AGENTCALL_USER_PHONE_NUMBER"
  /\ configuration.ElevenLabsAPIKey cfg
     = either (configuration.Getenv env "AGENTCALL_ELEVENLABS_API_KEY")
              (configuration.Getenv env "ELEVENLABS_API_KEY")
  /\ configuration.DeepgramAPIKey cfg
     = either (configuration.Getenv env "AGENTCALL_DEEPGRAM_API_KEY")
              (configuration.Getenv env "DEEPGRAM_API_KEY")
  /\ configuration.NgrokAuthToken cfg
     = either (configuration.Getenv env "AGENTCALL_NGROK_AUTHTOKEN")
              (configuration.Getenv env "NGROK_AUTHTOKEN").
Proof.
  intros cfg either. subst cfg either.
  unfold configuration.LoadFromEnv. cbv zeta. cbn [fst].
  repeat split.
  - skip_blocks configuration.PhoneAccountSID.
    generalize (configuration.loadServerPort Sscanf env configuration.DefaultConfig).
    intros c. unfold configuration.loadPhoneProvider. cbv zeta. by_cases; reflexivity.
  - skip_blocks configuration.PhoneAuthToken.
    generalize (configuration.loadServerPort Sscanf env configuration.DefaultConfig).
    intros c. unfold configuration.loadPhoneProvider. cbv zeta. by_cases; reflexivity.
  - skip_blocks configuration.PhoneNumber.
    generalize (configuration.loadServerPort Sscanf env configuration.DefaultConfig).
    intros c. unfold configuration.loadPhoneProvider. cbv zeta. by_cases; reflexivity.
  - skip_blocks configuration.UserPhoneNumber.
    generalize (configuration.loadServerPort Sscanf env configuration.DefaultConfig).
    intros c. unfold configuration.loadPhoneProvider. cbv zeta. by_cases; reflexivity.
  - skip_blocks configuration.ElevenLabsAPIKey.
    unfold configuration.loadElevenLabsTTS. cbv zeta.
    match goal with
    | |- context [configuration.set_ElevenLabsAPIKey ?a ?c] =>
        is_var env;
        pose proof (either_fallback a (configuration.Getenv env "ELEVENLABS_API_KEY") c
                      configuration.set_ElevenLabsAPIKey configuration.ElevenLabsAPIKey
                      (fun _ _ => eq_refl)) as H
    end.
    rewrite <- H. by_cases; reflexivity.
  - skip_blocks configuration.DeepgramAPIKey.
    unfold configuration.loadDeepgramSTT. cbv zeta.
    match goal with
    | |- context [configuration.set_DeepgramAPIKey ?a ?c] =>
        pose proof (either_fallback a (configuration.Getenv env "DEEPGRAM_API_KEY") c
                      configuration.set_DeepgramAPIKey configuration.DeepgramAPIKey
                      (fun _ _ => eq_refl)) as H
    end.
    rewrite <- H. by_cases; reflexivity.
  - skip_blocks configuration.NgrokAuthToken.
    unfold configuration.loadNgrok. cbv zeta.
    match goal with
    | |- context [configuration.set_NgrokAuthToken ?a ?c] =>
        pose proof (either_fallback a (configuration.Getenv env "NGROK_AUTHTOKEN") c
                      configuration.set_NgrokAuthToken configuration.NgrokAuthToken
                      (fun _ _ => eq_refl)) as H
    end.
    rewrite <- H. by_cases; reflexivity.
Qed.

Lemma LoadFromEnv_validates (Sscanf : string -> option Z) (env : configuration.Environ) :
  (configuration.LoadFromEnv Sscanf env).2
  = configuration.Validate (configuration.LoadFromEnv Sscanf env).1.
Proof. reflexivity. Qed.

(** A setting with a default is empty after a block only if it was empty
    before it. *)
Ltac keep_nonempty F :=
  repeat match goal with
  | |- F (?g ?c) <> "" =>
      lazymatch type of c with configuration.Config => idtac end;
      cut (F c <> "");
      [ generalize c; intros ? ?; unfold_blocks;
        repeat (match goal with
                | |- context [if ?b then _ else _] => destruct b eqn:?
                | |- context [match ?o with Some _ => _ | None => _ end] => destruct o
                end; cbv beta iota);
        first [ assumption | apply nonempty_true; assumption ]
      | ]
  end;
  discriminate.

(** X25: [Validate] accepts a configuration exactly when none of the
    seven required settings is empty: the two phone credentials, the two
    phone numbers, the ElevenLabs key, the Deepgram key and the ngrok
    token. *)
Theorem Validate_accepts_iff_required_present (c : configuration.Config) :
  configuration.Validate c = None
  <-> configuration.PhoneAccountSID c <> "" /\ configuration.PhoneAuthToken c <> ""
      /\ configuration.PhoneNumber c <> "" /\ configuration.UserPhoneNumber c <> ""
      /\ configuration.ElevenLabsAPIKey c <> "" /\ configuration.DeepgramAPIKey c <> ""
      /\ configuration.NgrokAuthToken c <> "".
Proof. apply Validate_nil_iff. Qed.

(** X26: the error of [Validate] lists, between brackets and separated by
    spaces, the names of exactly the required settings that are empty, in
    the order of its checks. *)
Theorem Validate_reports_empty_settings_in_order (c : configuration.Config) (e : error) :
  configuration.Validate c = Some e ->
  let missing :=
    (List.filter (fun p => negb (nonempty (p.2 c))) configuration.required).*1 in
  missing <> []
  /\ e = "missing required environment variables: ["
         +:+ configuration.Join missing " " +:+ "]".
Proof.
  intros H missing. unfold configuration.Validate in H.
  rewrite missingVariables_filter in H. fold missing in H. clearbody missing.
  destruct missing as [|name rest]; [discriminate|].
  split; [discriminate|].
  cbn [length Nat.ltb Nat.leb] in H. injection H as <-. reflexivity.
Qed.

Lemma Validate_reports_empty_settings_in_order_witness :
  configuration.Validate
    (configuration.set_PhoneNumber "+15550199"
       (configuration.set_UserPhoneNumber "+15550100" configuration.DefaultConfig))
  = Some ("missing required environment variables: "
          +:+ "[AGENTCALL_PHONE_ACCOUNT_SID AGENTCALL_PHONE_AUTH_TOKEN "
          +:+ "AGENTCALL_ELEVENLABS_API_KEY or ELEVENLABS_API_KEY "
          +:+ "AGENTCALL_DEEPGRAM_API_KEY or DEEPGRAM_API_KEY "
          +:+ "AGENTCALL_NGROK_AUTHTOKEN or NGROK_AUTHTOKEN]").
Proof.
  destruct (configuration.Validate
              (configuration.set_PhoneNumber "+15550199"
                 (configuration.set_UserPhoneNumber "+15550100"
                    configuration.DefaultConfig))) as [e|] eqn:Hv;
    [|vm_compute in Hv; discriminate].
  destruct (Validate_reports_empty_settings_in_order _ e Hv) as [_ ->].
  vm_compute. reflexivity.
Defined.

(** X27: [LoadFromEnv] returns no error exactly when the four phone
    variables are set and not empty and, for each of the ElevenLabs key,
    the Deepgram key and the ngrok token, the variable with the AGENTCALL
    prefix or the one without it is; no other variable, and no number
    that does not parse, makes it fail. *)
Theorem LoadFromEnv_succeeds_iff_variables_set (Sscanf : string -> option Z)
    (env : configuration.Environ) :
  (configuration.LoadFromEnv Sscanf env).2 = None
  <-> configuration.Getenv env "AGENTCALL_PHONE_ACCOUNT_SID" <> ""
      /\ configuration.Getenv env "AGENTCALL_PHONE_AUTH_TOKEN" <> ""
      /\ configuration.Getenv env "AGENTCALL_PHONE_NUMBER" <> ""
      /\ configuration.Getenv env "AGENTCALL_USER_PHONE_NUMBER" <> ""
      /\ (configuration.Getenv env "AGENTCALL_ELEVENLABS_API_KEY" <> ""
          \/ configuration.Getenv env "ELEVENLABS_API_KEY" <> "")
      /\ (configuration.Getenv env "AGENTCALL_DEEPGRAM_API_KEY" <> ""
          \/ configuration.Getenv env "DEEPGRAM_API_KEY" <> "")
      /\ (configuration.Getenv env "AGENTCALL_NGROK_AUTHTOKEN" <> ""
          \/ configuration.Getenv env "NGROK_AUTHTOKEN" <> "").
Proof.
  rewrite LoadFromEnv_validates, Validate_nil_iff.
  destruct (LoadFromEnv_required Sscanf env) as (-> & -> & -> & -> & -> & -> & ->).
  assert (Heither : forall a b : string,
             (if nonempty a then a else b) <> "" <-> a <> "" \/ b <> "").
  { intros a b. destruct a; simpl; split.
    - intros H. right. exact H.
    - intros [H|H]; [congruence|exact H].
    - intros _. left. discriminate.
    - intros _. discriminate. }
  rewrite !Heither. reflexivity.
Qed.

(** X28: the settings that have a default are never empty after
    [LoadFromEnv], whatever the environment holds: a variable replaces
    the default only when it is not empty. *)
Theorem LoadFromEnv_defaults_never_emptied (Sscanf : string -> option Z)
    (env : configuration.Environ) :
  let cfg := (configuration.LoadFromEnv Sscanf env).1 in
  configuration.PhoneProvider cfg <> "" /\ configuration.TTSVoice cfg <> ""
  /\ configuration.TTSModel cfg <> "" /\ configuration.STTModel cfg <> ""
  /\ configuration.STTLanguage cfg <> "".
Proof.
  intros cfg. subst cfg. unfold configuration.LoadFromEnv. cbv zeta. cbn [fst].
  repeat split.
  - keep_nonempty configuration.PhoneProvider.
  - keep_nonempty configuration.TTSVoice.
  - keep_nonempty configuration.TTSModel.
  - keep_nonempty configuration.STTModel.
  - keep_nonempty configuration.STTLanguage.
Qed.

(** X29: the error of [LoadFromEnv] depends on the ten variables of the
    required settings only: two environments that agree on them give the
    same error, whatever the other variables hold and however the numbers
    parse. *)
Theorem LoadFromEnv_error_depends_on_required_only (Sscanf1 Sscanf2 : string -> option Z)
    (env1 env2 : configuration.Environ) :
  (forall key, In key configuration.requiredVariables ->
               configuration.Getenv env1 key = configuration.Getenv env2 key) ->
  (configuration.LoadFromEnv Sscanf1 env1).2 = (configuration.LoadFromEnv Sscanf2 env2).2.
Proof.
  intros Hsame. rewrite !LoadFromEnv_validates. apply Validate_ext.
  destruct (LoadFromEnv_required Sscanf1 env1) as (A1 & A2 & A3 & A4 & A5 & A6 & A7).
  destruct (LoadFromEnv_required Sscanf2 env2) as (B1 & B2 & B3 & B4 & B5 & B6 & B7).
  assert (Hk : forall key,
             existsb (String.eqb key) configuration.requiredVariables = true ->
             configuration.Getenv env1 key = configuration.Getenv env2 key).
  { intros key Hkey. apply Hsame. apply existsb_exists in Hkey as (k & Hin & Heq).
    apply String.eqb_eq in Heq. subst k. exact Hin. }
  intros name field Hin. unfold configuration.required in Hin. cbn [In] in Hin.
  destruct Hin as [[= <- <-]|[[= <- <-]|[[= <- <-]|[[= <- <-]|[[= <- <-]|[[= <- <-]|[[= <- <-]|[]]]]]]]].
  - rewrite A1, B1. apply Hk. reflexivity.
  - rewrite A2, B2. apply Hk. reflexivity.
  - rewrite A3, B3. apply Hk. reflexivity.
  - rewrite A4, B4. apply Hk. reflexivity.
  - rewrite A5, B5, (Hk "AGENTCALL_ELEVENLABS_API_KEY" eq_refl),
      (Hk "ELEVENLABS_API_KEY" eq_refl). reflexivity.
  - rewrite A6, B6, (Hk "AGENTCALL_DEEPGRAM_API_KEY" eq_refl),
      (Hk "DEEPGRAM_API_KEY" eq_refl). reflexivity.
  - rewrite A7, B7, (Hk "AGENTCALL_NGROK_AUTHTOKEN" eq_refl),
      (Hk "NGROK_AUTHTOKEN" eq_refl). reflexivity.
Qed.

Lemma LoadFromEnv_error_depends_on_required_only_witness :
  (configuration.LoadFromEnv (fun _ => None) configuration.exampleEnv).2
  = (configuration.LoadFromEnv (fun _ => Some 8080)
       (<["AGENTCALL_TTS_VOICE" := "Adam"]> configuration.exampleEnv)).2.
Proof.
  apply LoadFromEnv_error_depends_on_required_only.
  intros key Hin. unfold configuration.requiredVariables in Hin. cbn [In] in Hin.
  repeat (destruct Hin as [<-|Hin]; [vm_compute; reflexivity|]).
  destruct Hin.
Defined.
